(** * wltr.scraper: the row-evaluation core of the BullX top-trader scraper

    A shallow embedding of the scraper scripts of [scraper/src/App.tsx]
    (the production script with [main], and the exploratory script that
    precedes it), together with the properties of the specification that
    concern them.  The [.env] helpers and the scraper endpoints of
    [server.js] and the retry wrapper of the manual-login script are
    modelled after them, with further properties of all of these.

    Conventions of the embedding.
    - A JavaScript [number] is an IEEE 754 binary64 value: [spec_float]
      with precision 53 and maximal exponent 1024, with the arithmetic of
      the Standard Library's [SpecFloat] (round to nearest, ties to even).
    - A JavaScript string is a [string]: a sequence of 8-bit code units.
    - The remote browser is an oracle: a record of what each Playwright
      call of one row iteration observes, and a predicate telling which
      call throws.  The only assumptions on the page are that a click on
      the cell under the Solscan link opens the wallet modal and that a
      click on the modal's close button closes it.
    - The three JSON documents of the state store are fields of the
      state; a document that is missing or unparsable is [None]. *)

From Stdlib Require Import ZArith List Bool Ascii String Lia.
From Stdlib Require Import Floats.SpecFloat.
From stdpp Require Import gmap strings.
From Equations Require Import Equations.
Import ListNotations.

Local Open Scope string_scope.
Local Open Scope Z_scope.

(** ** JavaScript numbers and the built-ins the scripts call *)

Module Js.

Definition number : Type := spec_float.

Definition prec : Z := 53.
Definition emax : Z := 1024.

Definition NaN : number := S754_nan.
Definition Infinity : number := S754_infinity false.
Definition zero : number := S754_zero false.

(** The number nearest to an integer literal. *)
Definition ofZ (z : Z) : number := binary_normalize prec emax z 0 false.

Definition sub (x y : number) : number := SFsub prec emax x y.
Definition mul (x y : number) : number := SFmul prec emax x y.
Definition div (x y : number) : number := SFdiv prec emax x y.

(** [x < y] and [x === y] on numbers; both are false on NaN. *)
Definition lt (x y : number) : bool := SFltb x y.
Definition le (x y : number) : bool := SFleb x y.
Definition strictEq (x y : number) : bool := SFeqb x y.

(** The sign bit: set on negative numbers, on -0 and on -Infinity. *)
Definition signBit (x : number) : bool :=
  match x with
  | S754_zero s | S754_infinity s | S754_finite s _ _ => s
  | S754_nan => false
  end.

(** *** Characters *)

Definition isDigit (c : ascii) : bool :=
  let n := nat_of_ascii c in (48 <=? n)%nat && (n <=? 57)%nat.

Definition digitValue (c : ascii) : Z := Z.of_nat (nat_of_ascii c) - 48.

(** WhiteSpace and LineTerminator code units below 256: TAB, LF, VT, FF,
    CR, SP and NBSP. *)
Definition isWhiteSpace (c : ascii) : bool :=
  let n := nat_of_ascii c in
  ((9 <=? n)%nat && (n <=? 13)%nat) || (n =? 32)%nat || (n =? 160)%nat.

Definition isLower (c : ascii) : bool :=
  let n := nat_of_ascii c in (97 <=? n)%nat && (n <=? 122)%nat.

Definition upperChar (c : ascii) : ascii :=
  if isLower c then ascii_of_nat (nat_of_ascii c - 32) else c.

(** *** String.prototype methods *)

(** [s.toUpperCase()], on the letters a-z. *)
Fixpoint toUpperCase (s : string) : string :=
  match s with
  | EmptyString => EmptyString
  | String c r => String (upperChar c) (toUpperCase r)
  end.

(** [s.endsWith(c)] for a one-character search string. *)
Fixpoint endsWith (s : string) (c : ascii) : bool :=
  match s with
  | EmptyString => false
  | String a EmptyString => Ascii.eqb a c
  | String _ r => endsWith r c
  end.

(** [s.includes(c)] for a one-character search string. *)
Fixpoint includes (s : string) (c : ascii) : bool :=
  match s with
  | EmptyString => false
  | String a r => Ascii.eqb a c || includes r c
  end.

Fixpoint trimStart (s : string) : string :=
  match s with
  | String c r => if isWhiteSpace c then trimStart r else s
  | EmptyString => EmptyString
  end.

Fixpoint trimEnd (s : string) : string :=
  match s with
  | EmptyString => EmptyString
  | String c r =>
      match trimEnd r with
      | EmptyString => if isWhiteSpace c then EmptyString else String c EmptyString
      | r' => String c r'
      end
  end.

Definition trim (s : string) : string := trimEnd (trimStart s).

(** [s.replace(/[^...]/g, '')]: the characters of a class are kept, the
    others deleted. *)
Fixpoint keepChars (keep : ascii -> bool) (s : string) : string :=
  match s with
  | EmptyString => EmptyString
  | String c r => if keep c then String c (keepChars keep r) else keepChars keep r
  end.

(** The last character of a string, and whether a string holds a
    character of a class. *)
Fixpoint lastChar (s : string) : option ascii :=
  match s with
  | EmptyString => None
  | String a EmptyString => Some a
  | String _ r => lastChar r
  end.

Fixpoint someChar (P : ascii -> bool) (s : string) : bool :=
  match s with
  | EmptyString => false
  | String a r => P a || someChar P r
  end.

(** *** Numeric literals *)

(** The longest prefix of decimal digits, and what follows it. *)
Fixpoint spanDigits (s : string) : string * string :=
  match s with
  | String c r =>
      if isDigit c then let '(d, t) := spanDigits r in (String c d, t)
      else (EmptyString, s)
  | EmptyString => (EmptyString, EmptyString)
  end.

(** The integer a digit string denotes, most significant digit first. *)
Fixpoint digitsValue (acc : Z) (d : string) : Z :=
  match d with
  | EmptyString => acc
  | String c r => digitsValue (10 * acc + digitValue c) r
  end.

(** The number nearest to [(-1)^neg * n * 10^e], for [0 <= n]. *)
Definition ofDecimal (neg : bool) (n e : Z) : number :=
  match n with
  | Zpos p =>
      if 0 <=? e then binary_round prec emax neg (p * Z.to_pos (10 ^ e)) 0
      else div (S754_finite neg p 0) (S754_finite false (Z.to_pos (10 ^ (- e))) 0)
  | _ => S754_zero neg
  end.

Definition splitSign (s : string) : bool * string :=
  match s with
  | String "+" r => (false, r)
  | String "-" r => (true, r)
  | _ => (false, s)
  end.

(** The value of an ExponentPart at the head of [s], 0 when there is
    none. *)
Definition exponentPart (s : string) : Z :=
  match s with
  | String c r =>
      if Ascii.eqb c "e" || Ascii.eqb c "E" then
        let '(neg, r') := splitSign r in
        let '(d, _) := spanDigits r' in
        match d with
        | EmptyString => 0
        | _ => if neg then - digitsValue 0 d else digitsValue 0 d
        end
      else 0
  | EmptyString => 0
  end.

(** [parseFloat(s)]: leading white space is skipped, the longest prefix
    that is a StrDecimalLiteral is read, and NaN is returned when there
    is none. *)
Definition parseFloat (s : string) : number :=
  let '(neg, u) := splitSign (trimStart s) in
  if String.prefix "Infinity" u then S754_infinity neg
  else
    let '(ip, r1) := spanDigits u in
    let '(fp, r2) :=
      match r1 with
      | String "." r => spanDigits r
      | _ => (EmptyString, r1)
      end in
    match ip, fp with
    | EmptyString, EmptyString => NaN
    | _, _ =>
        ofDecimal neg (digitsValue 0 (ip ++ fp))
                  (exponentPart r2 - Z.of_nat (String.length fp))
    end.

(** [parseInt(s)], with no radix argument: white space and a sign are
    skipped, a [0x] prefix selects radix 16, and the longest prefix of
    digits is read.  The result is the integer read, [None] standing
    for NaN; the scripts only compare it with 30 and with 2, and the
    rounding of an integer to a number is monotone and fixes both. *)
Definition isHexDigit (c : ascii) : bool :=
  let n := nat_of_ascii c in
  isDigit c || ((65 <=? n)%nat && (n <=? 70)%nat) || ((97 <=? n)%nat && (n <=? 102)%nat).

Definition hexValue (c : ascii) : Z :=
  let n := Z.of_nat (nat_of_ascii c) in
  if isDigit c then n - 48 else if (n <=? 70) then n - 55 else n - 87.

Fixpoint spanHex (acc : option Z) (s : string) : option Z :=
  match s with
  | String c r =>
      if isHexDigit c
      then spanHex (Some (16 * (match acc with Some a => a | None => 0 end) + hexValue c)) r
      else acc
  | EmptyString => acc
  end.

Definition parseInt (s : string) : option Z :=
  let '(neg, u) := splitSign (trimStart s) in
  let magnitude :=
    match u with
    | String "0" (String x r) =>
        if Ascii.eqb x "x" || Ascii.eqb x "X" then spanHex None r
        else Some (digitsValue 0 (fst (spanDigits u)))
    | _ =>
        match fst (spanDigits u) with
        | EmptyString => None
        | d => Some (digitsValue 0 d)
        end
    end in
  match magnitude with
  | Some v => Some (if neg then - v else v)
  | None => None
  end.

(** [v < bound] for the result of [parseInt]: false on NaN. *)
Definition intLt (v : option Z) (bound : Z) : bool :=
  match v with
  | Some z => z <? bound
  | None => false
  end.

End Js.

(** ** Numeric parser

    The scripts inline the same five statements three times in each
    variant (revenue, realized PnL, spend):
<<
    const value = (await span.textContent()) || '0';
    const clean = value.replace(/[^0-9MKk.]/g, '');
    let dollars = parseFloat(clean);
    if (clean.toUpperCase().endsWith('M')) dollars *= 1000000;
    else if (clean.toUpperCase().endsWith('K')) dollars *= 1000;
>>
    [textContent()] is a string or null. *)

Module Parser.

(** The complement of the class [[^0-9MKk.]]. *)
Definition keptChar (c : ascii) : bool :=
  Js.isDigit c || Ascii.eqb c "M" || Ascii.eqb c "K" || Ascii.eqb c "k" || Ascii.eqb c ".".

(** [text || '0'] *)
Definition orZero (text : option string) : string :=
  match text with
  | Some (String c r) => String c r
  | _ => "0"
  end.

Definition cleanValue (value : string) : string := Js.keepChars keptChar value.

Definition scale (clean : string) (dollars : Js.number) : Js.number :=
  if Js.endsWith (Js.toUpperCase clean) "M" then Js.mul dollars (Js.ofZ 1000000)
  else if Js.endsWith (Js.toUpperCase clean) "K" then Js.mul dollars (Js.ofZ 1000)
  else dollars.

Definition parseDollars (text : option string) : Js.number :=
  let clean := cleanValue (orZero text) in
  scale clean (Js.parseFloat clean).

End Parser.


(** ** Trade-timing classifier

    The loop over the rows of the modal's trade table (production lines
    1448-1483 of the listing, exploratory lines 832-864) and the
    dominant-seconds test that follows it. *)

Module Timing.

Record timeGroups : Type := {
  seconds : list string;
  lessThan30m : list string;
  moreThan30m : list string;
  lessThan2h : list string;
  moreThan2h : list string;
  days : list string;
  weeks : list string
}.

Definition emptyGroups : timeGroups :=
  {| seconds := []; lessThan30m := []; moreThan30m := []; lessThan2h := [];
     moreThan2h := []; days := []; weeks := [] |}.

Inductive bucket : Type :=
| Seconds | LessThan30m | MoreThan30m | LessThan2h | MoreThan2h | Days | Weeks.

(** The if / else-if chain of the loop body; [None] is the final [else]
    branch, which only logs the text. *)
Definition bucketOf (trimmedText : string) : option bucket :=
  if Js.includes trimmedText "s" then Some Seconds
  else if Js.includes trimmedText "m" then
    if Js.intLt (Js.parseInt trimmedText) 30 then Some LessThan30m else Some MoreThan30m
  else if Js.includes trimmedText "h" then
    if Js.intLt (Js.parseInt trimmedText) 2 then Some LessThan2h else Some MoreThan2h
  else if Js.includes trimmedText "d" then Some Days
  else if Js.includes trimmedText "w" then Some Weeks
  else None.

(** [timeGroups.<bucket>.push(trimmedText)] *)
Definition push (g : timeGroups) (b : bucket) (t : string) : timeGroups :=
  match b with
  | Seconds => {| seconds := seconds g ++ [t]; lessThan30m := lessThan30m g;
                  moreThan30m := moreThan30m g; lessThan2h := lessThan2h g;
                  moreThan2h := moreThan2h g; days := days g; weeks := weeks g |}
  | LessThan30m => {| seconds := seconds g; lessThan30m := lessThan30m g ++ [t];
                  moreThan30m := moreThan30m g; lessThan2h := lessThan2h g;
                  moreThan2h := moreThan2h g; days := days g; weeks := weeks g |}
  | MoreThan30m => {| seconds := seconds g; lessThan30m := lessThan30m g;
                  moreThan30m := moreThan30m g ++ [t]; lessThan2h := lessThan2h g;
                  moreThan2h := moreThan2h g; days := days g; weeks := weeks g |}
  | LessThan2h => {| seconds := seconds g; lessThan30m := lessThan30m g;
                  moreThan30m := moreThan30m g; lessThan2h := lessThan2h g ++ [t];
                  moreThan2h := moreThan2h g; days := days g; weeks := weeks g |}
  | MoreThan2h => {| seconds := seconds g; lessThan30m := lessThan30m g;
                  moreThan30m := moreThan30m g; lessThan2h := lessThan2h g;
                  moreThan2h := moreThan2h g ++ [t]; days := days g; weeks := weeks g |}
  | Days => {| seconds := seconds g; lessThan30m := lessThan30m g;
                  moreThan30m := moreThan30m g; lessThan2h := lessThan2h g;
                  moreThan2h := moreThan2h g; days := days g ++ [t]; weeks := weeks g |}
  | Weeks => {| seconds := seconds g; lessThan30m := lessThan30m g;
                  moreThan30m := moreThan30m g; lessThan2h := lessThan2h g;
                  moreThan2h := moreThan2h g; days := days g; weeks := weeks g ++ [t] |}
  end.

(** [spanText?.trim() || ''] *)
Definition trimmedText (spanText : option string) : string :=
  match spanText with
  | Some t => Js.trim t
  | None => ""
  end.

(** One iteration of the loop, the text of the row already read. *)
Definition groupRow (g : timeGroups) (spanText : option string) : timeGroups :=
  match bucketOf (trimmedText spanText) with
  | Some b => push g b (trimmedText spanText)
  | None => g
  end.

Definition groupRows (spanTexts : list (option string)) : timeGroups :=
  fold_left groupRow spanTexts emptyGroups.

(** The number of texts pushed to a bucket: [timeGroups.<bucket>.length]. *)
Definition count (g : timeGroups) (b : bucket) : nat :=
  match b with
  | Seconds => length (seconds g)
  | LessThan30m => length (lessThan30m g)
  | MoreThan30m => length (moreThan30m g)
  | LessThan2h => length (lessThan2h g)
  | MoreThan2h => length (moreThan2h g)
  | Days => length (days g)
  | Weeks => length (weeks g)
  end.

(** [Math.max] of the six lengths. *)
Definition highestCount (g : timeGroups) : nat :=
  Nat.max (length (lessThan30m g))
    (Nat.max (length (moreThan30m g))
       (Nat.max (length (lessThan2h g))
          (Nat.max (length (moreThan2h g))
             (Nat.max (length (days g)) (length (weeks g)))))).

(** [timeGroups.seconds.length > highestCount] *)
Definition mostlySeconds (g : timeGroups) : bool :=
  (highestCount g <? length (seconds g))%nat.

#[export] Instance bucket_eq_dec : EqDecision bucket.
Proof. solve_decision. Defined.

Definition otherBuckets : list bucket :=
  [LessThan30m; MoreThan30m; LessThan2h; MoreThan2h; Days; Weeks].

(** Whether the if-chain sends the text of a row to a given bucket. *)
Definition inBucket (b : bucket) (spanText : option string) : bool :=
  bool_decide (bucketOf (trimmedText spanText) = Some b).

End Timing.

(** ** Filter gates on the extracted metrics *)

Module Gates.

(** [pnlDollars < MIN_PNL] *)
Definition pnlTooLow (pnlDollars MIN_PNL : Js.number) : bool := Js.lt pnlDollars MIN_PNL.

(** [((revenueDollars - spentDollars) / spentDollars) * 100] *)
Definition roi (revenueDollars spentDollars : Js.number) : Js.number :=
  Js.mul (Js.div (Js.sub revenueDollars spentDollars) spentDollars) (Js.ofZ 100).

(** [roi < MIN_ROI] *)
Definition roiTooLow (revenueDollars spentDollars MIN_ROI : Js.number) : bool :=
  Js.lt (roi revenueDollars spentDollars) MIN_ROI.

(** The capture group of [/\$?\s*([\d.]+)/] on a cell text: the first
    maximal run of digits and dots, when there is one. *)
Definition isDigitOrDot (c : ascii) : bool := Js.isDigit c || Ascii.eqb c ".".

Fixpoint takeRun (s : string) : string :=
  match s with
  | String c r => if isDigitOrDot c then String c (takeRun r) else EmptyString
  | EmptyString => EmptyString
  end.

Fixpoint numberMatch (s : string) : option string :=
  match s with
  | String c r => if isDigitOrDot c then Some (takeRun s) else numberMatch r
  | EmptyString => None
  end.

(** What reading the second cell of a most-profitable row gives: the
    call throws (caught by the inner handler), or returns the text or
    null. *)
Inductive cellRead : Type :=
| CellThrows
| CellText (secondCell : option string).

(** The loop that fills [numbers]. *)
Definition pushNumber (numbers : list Js.number) (cell : cellRead) : list Js.number :=
  match cell with
  | CellText (Some t) =>
      match numberMatch t with
      | Some m => numbers ++ [Js.parseFloat m]
      | None => numbers
      end
  | _ => numbers
  end.

Definition collectNumbers (cells : list cellRead) : list Js.number :=
  fold_left pushNumber cells [].

(** [numbers.filter((num) => num === 0).length] *)
Definition zeroCount (numbers : list Js.number) : nat :=
  length (List.filter (fun num => Js.strictEq num Js.zero) numbers).

End Gates.

(** ** Run configuration

    The thresholds are numbers; the three loop bounds are taken to be
    integers. *)

Record Config : Type := {
  MIN_PNL : Js.number;
  MIN_ROI : Js.number;
  MAX_TOKENS_TO_PROCESS : nat;
  MAX_TRADERS_PER_TOKEN : Z;
  START_FROM_ROW : Z
}.

(** [Number(process.env.X) || d]: NaN and the zeros are falsy. *)
Definition envOr (x : Js.number) (d : Z) : Js.number :=
  match x with
  | S754_nan | S754_zero _ => Js.ofZ d
  | _ => x
  end.

(** The constants at the head of the exploratory script. *)
Definition exploratoryConfig : Config :=
  {| MIN_PNL := Js.ofZ 25000; MIN_ROI := Js.ofZ 2000; MAX_TOKENS_TO_PROCESS := 100;
     MAX_TRADERS_PER_TOKEN := 100; START_FROM_ROW := 40 |}.

(** The fallback values of the production script. *)
Definition defaultConfig : Config :=
  {| MIN_PNL := Js.ofZ 25000; MIN_ROI := Js.ofZ 2000; MAX_TOKENS_TO_PROCESS := 10;
     MAX_TRADERS_PER_TOKEN := 20; START_FROM_ROW := 3 |}.

(** The two scripts share the row evaluation.  The production script
    differs from the exploratory one in its scroll bound, in keeping the
    processed-token and statistics documents, and in the MOST_PROFITABLE
    section. *)
Inductive Script : Type := Production | Exploratory.

(** [const maxScrollAttempts] *)
Definition maxScrollAttempts (script : Script) : nat :=
  match script with
  | Production => 5
  | Exploratory => 20
  end.

Definition isProduction (script : Script) : bool :=
  match script with
  | Production => true
  | Exploratory => false
  end.

(** ** State store

    The three JSON documents, as the scripts read and overwrite them. *)

Module Store.

(** [scraper_stats.json] *)
Record Stats : Type := { portfoliosChecked : Z }.

(** One value of [portfolios.json].  [roi] and [pnl] hold the numbers
    that the script prints into the record ([roi.toFixed(2) + '%'] and
    [`${pnlDollars}`]); [createdAt] is absent in the exploratory
    script. *)
Record Portfolio : Type := {
  roi : Js.number;
  pnl : Js.number;
  link : string;
  createdAt : option string
}.

(** [new Set(array)], [has], [add] and [Array.from(set)]: a JavaScript
    Set keeps its elements in insertion order, each once. *)
Fixpoint has (tokens : list string) (name : string) : bool :=
  match tokens with
  | [] => false
  | t :: r => String.eqb t name || has r name
  end.

Definition add (tokens : list string) (name : string) : list string :=
  if has tokens name then tokens else tokens ++ [name].

Definition newSet (array : list string) : list string := fold_left add array [].

(** [loadProcessedTokens]: the document is [None] when the file is
    missing or the read or the parse throws. *)
Definition loadProcessedTokens (file : option (list string)) : list string :=
  match file with
  | Some data => newSet data
  | None => []
  end.

(** [saveProcessedTokens]: a failing write is logged and leaves the
    document as it was. *)
Definition saveProcessedTokens (writeFails : bool) (tokens : list string)
    (file : option (list string)) : option (list string) :=
  if writeFails then file else Some tokens.

Definition loadStats (file : option Stats) : Stats :=
  match file with
  | Some stats => stats
  | None => {| portfoliosChecked := 0 |}
  end.

Definition saveStats (writeFails : bool) (stats : Stats) (file : option Stats) : option Stats :=
  if writeFails then file else Some stats.

(** [incrementPortfoliosChecked], on the stats document. *)
Definition incrementPortfoliosChecked (writeFails : bool) (file : option Stats) : option Stats :=
  let stats := loadStats file in
  saveStats writeFails {| portfoliosChecked := portfoliosChecked stats + 1 |} file.

(** [portfolios[portfolioId] = portfolioData] on the parsed document, as
    the own properties that [JSON.stringify] then writes.  The key
    [__proto__] is special: unless the parsed document has it as an own
    property, the assignment goes to the setter of Object.prototype,
    which makes the record the prototype of [portfolios] and adds no
    property. *)
Definition assign (portfolios : gmap string Portfolio) (portfolioId : string)
    (portfolioData : Portfolio) : gmap string Portfolio :=
  if String.eqb portfolioId "__proto__" then
    match portfolios !! portfolioId with
    | Some _ => <[portfolioId := portfolioData]> portfolios
    | None => portfolios
    end
  else <[portfolioId := portfolioData]> portfolios.

(** The read-merge-write of the accept path. *)
Definition savePortfolio (writeFails : bool) (portfolioId : string) (portfolioData : Portfolio)
    (file : option (gmap string Portfolio)) : option (gmap string Portfolio) :=
  let portfolios := match file with Some m => m | None => ∅ end in
  if writeFails then file else Some (assign portfolios portfolioId portfolioData).

End Store.

(** [s.split(sep)[1]]: what lies between the first and the second
    occurrence of [sep], [None] (undefined) when [sep] does not occur. *)
Fixpoint afterFirst (sep s : string) : option string :=
  if String.prefix sep s then Some (String.substring (String.length sep) (String.length s) s)
  else match s with
       | String _ r => afterFirst sep r
       | EmptyString => None
       end.

Fixpoint beforeFirst (sep s : string) : string :=
  if String.prefix sep s then EmptyString
  else match s with
       | String c r => String c (beforeFirst sep r)
       | EmptyString => EmptyString
       end.

Definition splitSecond (sep s : string) : option string :=
  match afterFirst sep s with
  | Some r => Some (beforeFirst sep r)
  | None => None
  end.

(** [href?.split('/portfolio/')[1]] *)
Definition portfolioIdOf (href : option string) : option string :=
  match href with
  | Some h => splitSecond "/portfolio/" h
  | None => None
  end.

(** A value interpolated in a template literal or used as a property key. *)
Definition keyOf (portfolioId : option string) : string :=
  match portfolioId with
  | Some id => id
  | None => "undefined"
  end.

(** ** The page, as one row iteration observes it *)

(** The Playwright calls of a row iteration that can throw (fixed waits
    apart).  There is at most one click on the close button per
    iteration. *)
Inductive Step : Type :=
| Scroll (attempt : nat)     (* page.evaluate of the scroll loop *)
| ScrollIntoView             (* row.scrollIntoViewIfNeeded() *)
| IsVisible                  (* row.isVisible() *)
| ScrollToRow                (* page.evaluate of the additional scroll *)
| CountLinks                 (* row.locator('a[href*="solscan"]').count() *)
| CountDivs                  (* divUnderLink.count() *)
| ClickDiv                   (* divUnderLink.click() *)
| WaitRevenue                (* page.waitForFunction, Total Revenue *)
| WaitPnl                    (* page.waitForFunction, Realized PnL *)
| ReadRevenue                (* revenueValueSpan.textContent() *)
| ReadPnl                    (* pnlValueDiv.textContent() *)
| WaitSpent                  (* page.waitForFunction, Total Spent *)
| ReadSpent                  (* spentValueSpan.textContent() *)
| GetHref                    (* drawerLink.getAttribute('href') *)
| TradeRows                  (* page.locator('.ant-modal-content .b-table-row').all() *)
| TradeText (rowIndex : nat) (* rows[rowIndex]...textContent() *)
| FindTab                    (* page.$('div[data-node-key="MOST_PROFITABLE"]') *)
| ClickTab                   (* mostProfitableDiv.click() *)
| ProfitRows                 (* page.locator(... '.ant-tabs-tabpane-active .b-table-row').all() *)
| ClickClose.                (* page.click('button.w-5.h-5.bg-transparent.outline-none') *)

Record Page : Type := {
  throws : Step -> bool;
  (** [waitForSelector(rowSelector, { timeout: 1000 })] resolves, after
      the given number of scroll advances *)
  rowPresentAfter : nat -> bool;
  isVisible : bool;
  solscanLinks : nat;
  divsUnderLink : nat;
  revenueText : option string;
  pnlText : option string;
  spentText : option string;
  href : option string;
  tradeAges : list (option string);
  mostProfitableDiv : bool;
  mostProfitRows : list Gates.cellRead;
  now : string;                 (* new Date().toISOString() *)
  statsWriteFails : bool;       (* writeFileSync of scraper_stats.json throws *)
  portfoliosWriteFails : bool   (* writeFileSync of portfolios.json throws *)
}.

(** The [break] and [continue] statements of the row loop. *)
Inductive Skip : Type :=
| RowNotFound        (* break: scrolling exhausted *)
| NoSolscanLink
| NoDivUnderLink
| PnlTooLow
| RoiTooLow
| MostlySeconds
| TabNotFound        (* MOST_PROFITABLE div not found *)
| TooFewRows
| TooManyZeros.

Inductive Outcome : Type :=
| Accepted
| Skipped (why : Skip)
| Failed (at_ : Step).   (* caught by the handler of the row loop *)

(** What the row loop shares between iterations. *)
Record State : Type := {
  modalOpen : bool;
  statsFile : option Store.Stats;
  portfoliosFile : option (gmap string Store.Portfolio)
}.

(** ** The progressive scroll loop *)

Inductive ScrollResult : Type :=
| ScrollDone (isRowPresent : bool) (scrollAttempts : nat)
| ScrollThrew (attempt : nat).

Equations? scrollLoop (page : Page) (maxScrollAttempts : nat)
    (isRowPresent : bool) (scrollAttempts : nat) : ScrollResult
    by wf (maxScrollAttempts - scrollAttempts)%nat lt :=
  scrollLoop page maxScrollAttempts true scrollAttempts :=
    ScrollDone true scrollAttempts;
  scrollLoop page maxScrollAttempts false scrollAttempts
    with lt_dec scrollAttempts maxScrollAttempts := {
    | right _ => ScrollDone false scrollAttempts
    | left _ with rowPresentAfter page scrollAttempts := {
      | true => ScrollDone true scrollAttempts
      | false with throws page (Scroll scrollAttempts) := {
        | true => ScrollThrew scrollAttempts
        | false => scrollLoop page maxScrollAttempts false (S scrollAttempts) } } }.
Proof. lia. Qed.

(** ** One iteration of the row loop

    The body of [for (let rowNumber = START_FROM_ROW; ...)] runs in a
    monad that threads the shared state and stops at the first [break],
    [continue] or exception. *)

Inductive Result (A : Type) : Type :=
| Val (a : A)
| Jump (why : Skip)
| Throw (at_ : Step).
Arguments Val {A} a.
Arguments Jump {A} why.
Arguments Throw {A} at_.

Definition M (A : Type) : Type := State -> State * Result A.

Definition ret {A} (a : A) : M A := fun st => (st, Val a).

Definition bind {A B} (m : M A) (k : A -> M B) : M B :=
  fun st =>
    match m st with
    | (st', Val a) => k a st'
    | (st', Jump why) => (st', Jump why)
    | (st', Throw s) => (st', Throw s)
    end.

Definition jump {A} (why : Skip) : M A := fun st => (st, Jump why).

Definition modify (f : State -> State) : M unit := fun st => (f st, Val tt).

Declare Scope row_scope.
Delimit Scope row_scope with row.
Notation "x <- m ;; k" := (bind m (fun x => k))
  (at level 100, m at next level, right associativity) : row_scope.
Notation "m ;; k" := (bind m (fun _ => k))
  (at level 100, right associativity) : row_scope.

Section RowIteration.

Variable script : Script.
Variable config : Config.
Variable page : Page.

Local Open Scope row_scope.

(** An awaited Playwright call: it throws or goes through. *)
Definition call (s : Step) : M unit :=
  fun st => if throws page s then (st, Throw s) else (st, Val tt).

Definition setModal (b : bool) (st : State) : State :=
  {| modalOpen := b; statsFile := statsFile st; portfoliosFile := portfoliosFile st |}.

(** [await divUnderLink.click()] opens the wallet modal. *)
Definition clickDiv : M unit := call ClickDiv ;; modify (setModal true).

(** [await page.click('button.w-5.h-5.bg-transparent.outline-none')]
    closes it. *)
Definition clickClose : M unit := call ClickClose ;; modify (setModal false).

(** [incrementPortfoliosChecked()], which only the production script
    has. *)
Definition countRow (st : State) : State :=
  if isProduction script then
    {| modalOpen := modalOpen st;
       statsFile := Store.incrementPortfoliosChecked (statsWriteFails page) (statsFile st);
       portfoliosFile := portfoliosFile st |}
  else st.

Definition incrementPortfoliosChecked : M unit := modify countRow.

Definition storePortfolio (portfolioId : string) (data : Store.Portfolio) (st : State) : State :=
  {| modalOpen := modalOpen st;
     statsFile := statsFile st;
     portfoliosFile :=
       Store.savePortfolio (portfoliosWriteFails page) portfolioId data (portfoliosFile st) |}.

Definition writePortfolio (portfolioId : string) (data : Store.Portfolio) : M unit :=
  modify (storePortfolio portfolioId data).

(** The scroll loop, then [if (!isRowPresent) break]. *)
Definition findRow : M unit :=
  match scrollLoop page (maxScrollAttempts script) false 0 with
  | ScrollDone true _ => ret tt
  | ScrollDone false _ => jump RowNotFound
  | ScrollThrew n => fun st => (st, Throw (Scroll n))
  end.

(** [scrollIntoViewIfNeeded], and the additional scroll when the row is
    still not visible. *)
Definition bringIntoView : M unit :=
  call ScrollIntoView ;;
  call IsVisible ;;
  if isVisible page then ret tt else call ScrollToRow.

(** [textContent()] of a metric span, behind its [waitForFunction]. *)
Definition readText (s : Step) (text : option string) : M (option string) :=
  call s ;; ret text.

(** The texts of the trade table, row by row. *)
Fixpoint readTradeTexts (rowIndex : nat) (ages : list (option string)) : M unit :=
  match ages with
  | [] => ret tt
  | _ :: rest => call (TradeText rowIndex) ;; readTradeTexts (S rowIndex) rest
  end.

(** The MOST_PROFITABLE section of the production script. *)
Definition sampleMostProfitable : M unit :=
  if isProduction script then
    call FindTab ;;
    (if mostProfitableDiv page then call ClickTab
     else clickClose ;; jump TabNotFound) ;;
    call ProfitRows ;;
    (if (length (mostProfitRows page) <? 10)%nat
     then clickClose ;; incrementPortfoliosChecked ;; jump TooFewRows
     else ret tt) ;;
    if (3 <? Gates.zeroCount (Gates.collectNumbers (mostProfitRows page)))%nat
    then clickClose ;; incrementPortfoliosChecked ;; jump TooManyZeros
    else ret tt
  else ret tt.

(** From the scroll loop to the two texts read before the PnL gate. *)
Definition extractPnl : M (Js.number * Js.number) :=
  findRow ;;
  bringIntoView ;;
  call CountLinks ;;
  (if (0 <? solscanLinks page)%nat then ret tt
   else incrementPortfoliosChecked ;; jump NoSolscanLink) ;;
  call CountDivs ;;
  (if (divsUnderLink page =? 0)%nat
   then incrementPortfoliosChecked ;; jump NoDivUnderLink
   else ret tt) ;;
  clickDiv ;;
  call WaitRevenue ;;
  call WaitPnl ;;
  revenueValue <- readText ReadRevenue (revenueText page) ;;
  pnlValue <- readText ReadPnl (pnlText page) ;;
  ret (Parser.parseDollars revenueValue, Parser.parseDollars pnlValue).

Definition pnlGate (pnlDollars : Js.number) : M unit :=
  if Gates.pnlTooLow pnlDollars (MIN_PNL config)
  then incrementPortfoliosChecked ;; clickClose ;; jump PnlTooLow
  else ret tt.

Definition extractSpent : M Js.number :=
  call WaitSpent ;;
  spentValue <- readText ReadSpent (spentText page) ;;
  ret (Parser.parseDollars spentValue).

Definition roiGate (revenueDollars spentDollars : Js.number) : M unit :=
  if Gates.roiTooLow revenueDollars spentDollars (MIN_ROI config)
  then incrementPortfoliosChecked ;; clickClose ;; jump RoiTooLow
  else ret tt.

Definition timingGate : M unit :=
  call TradeRows ;;
  readTradeTexts 0 (tradeAges page) ;;
  if Timing.mostlySeconds (Timing.groupRows (tradeAges page))
  then incrementPortfoliosChecked ;; clickClose ;; jump MostlySeconds
  else ret tt.

Definition portfolioData (revenueDollars pnlDollars spentDollars : Js.number)
    (portfolioId : option string) : Store.Portfolio :=
  {| Store.roi := Gates.roi revenueDollars spentDollars;
     Store.pnl := pnlDollars;
     Store.link := "http://neo.bullx.io/portfolio/" ++ keyOf portfolioId;
     Store.createdAt := if isProduction script then Some (now page) else None |}.

(** The accept path: the record is written, the modal closed, the row
    counted. *)
Definition acceptRow (revenueDollars pnlDollars spentDollars : Js.number)
    (portfolioId : option string) : M unit :=
  writePortfolio (keyOf portfolioId)
    (portfolioData revenueDollars pnlDollars spentDollars portfolioId) ;;
  clickClose ;;
  incrementPortfoliosChecked.

(** What follows a passed PnL gate. *)
Definition afterPnlGate (revenueDollars pnlDollars : Js.number) : M unit :=
  spentDollars <- extractSpent ;;
  roiGate revenueDollars spentDollars ;;
  call GetHref ;;
  timingGate ;;
  sampleMostProfitable ;;
  acceptRow revenueDollars pnlDollars spentDollars (portfolioIdOf (href page)).

Definition rowBody : M unit :=
  metrics <- extractPnl ;;
  pnlGate (snd metrics) ;;
  afterPnlGate (fst metrics) (snd metrics).

(** The [try] block with its [catch (error) { ...; continue; }]. *)
Definition evalRow (st : State) : State * Outcome :=
  match rowBody st with
  | (st', Val _) => (st', Accepted)
  | (st', Jump why) => (st', Skipped why)
  | (st', Throw s) => (st', Failed s)
  end.

End RowIteration.

(** ** The row loop

    [for (let rowNumber = START_FROM_ROW; rowNumber <= MAX_TRADERS_PER_TOKEN; rowNumber++)]:
    [pages rowNumber] is the page as the iteration for [rowNumber] finds
    it; [remaining] counts the row numbers not yet visited. *)

Fixpoint rowLoop (script : Script) (config : Config) (pages : Z -> Page)
    (remaining : nat) (rowNumber : Z) (st : State) : State * list (Z * Outcome) :=
  match remaining with
  | O => (st, [])
  | S remaining' =>
      let '(st', outcome) := evalRow script config (pages rowNumber) st in
      match outcome with
      | Skipped RowNotFound => (st', [(rowNumber, outcome)])
      | _ =>
          let '(st'', log) := rowLoop script config pages remaining' (rowNumber + 1) st' in
          (st'', (rowNumber, outcome) :: log)
      end
  end.

Definition processRows (script : Script) (config : Config) (pages : Z -> Page)
    (st : State) : State * list (Z * Outcome) :=
  rowLoop script config pages
    (Z.to_nat (MAX_TRADERS_PER_TOKEN config - START_FROM_ROW config + 1))
    (START_FROM_ROW config) st.

(** ** The token loop of [main] *)

(** The listing page as one iteration of the token loop finds it.
    [names] holds, for each [.b-table-row], the text of its name span
    ([None] when the row has no such span or the text is null). *)
Record Listing : Type := {
  listingThrows : bool;     (* a call throws before the search for a new token ends *)
  names : list (option string);
  saveFails : bool;         (* writeFileSync of processed_tokens.json throws *)
  openThrows : bool;        (* row.click() or the click on "Top Traders" throws *)
  solscanAppears : bool;    (* waitForSelector('.b-table-row a[href*="solscan"]') resolves *)
  goBackThrows : bool;      (* page.goBack() of its catch block throws *)
  rowPages : Z -> Page
}.

(** The [for (const row of availableRows)] search: the first name that
    is not empty and not yet in the set. *)
Fixpoint selectToken (names : list (option string)) (processedTokenNames : list string)
    : option string :=
  match names with
  | [] => None
  | Some tokenName :: rest =>
      if negb (String.eqb tokenName "") && negb (Store.has processedTokenNames tokenName)
      then Some tokenName
      else selectToken rest processedTokenNames
  | None :: rest => selectToken rest processedTokenNames
  end.

Record Run : Type := {
  rows : State;
  processedFile : option (list string);      (* processed_tokens.json *)
  processedTokenNames : list string;         (* the Set of [main] *)
  saved : list (list string);                (* every argument of saveProcessedTokens, oldest first *)
  aborted : bool                             (* left through the outer handler *)
}.

(** [saveProcessedTokens(processedTokenNames)]; the exploratory script
    keeps the set in memory only. *)
Definition saveTokens (script : Script) (fails : bool) (r : Run) : Run :=
  if isProduction script then
    {| rows := rows r;
       processedFile := Store.saveProcessedTokens fails (processedTokenNames r) (processedFile r);
       processedTokenNames := processedTokenNames r;
       saved := saved r ++ [processedTokenNames r];
       aborted := aborted r |}
  else r.

Definition abort (r : Run) : Run :=
  {| rows := rows r; processedFile := processedFile r;
     processedTokenNames := processedTokenNames r; saved := saved r; aborted := true |}.

Fixpoint tokenLoop (script : Script) (config : Config) (listings : nat -> Listing)
    (remaining : nat) (tokenIndex : nat) (r : Run) : Run :=
  match remaining with
  | O => r
  | S remaining' =>
      let listing := listings tokenIndex in
      if listingThrows listing then abort r
      else
        match selectToken (names listing) (processedTokenNames r) with
        | None => r                                         (* break *)
        | Some tokenName =>
            let r1 :=
              saveTokens script (saveFails listing)
                {| rows := rows r; processedFile := processedFile r;
                   processedTokenNames := Store.add (processedTokenNames r) tokenName;
                   saved := saved r; aborted := aborted r |} in
            if openThrows listing then abort r1
            else if solscanAppears listing then
              let '(st', _) := processRows script config (rowPages listing) (rows r1) in
              tokenLoop script config listings remaining' (S tokenIndex)
                {| rows := st'; processedFile := processedFile r1;
                   processedTokenNames := processedTokenNames r1;
                   saved := saved r1; aborted := aborted r1 |}
            else if goBackThrows listing then abort r1
            else tokenLoop script config listings remaining' (S tokenIndex) r1   (* continue *)
        end
  end.

(** [main], from [loadProcessedTokens()] to the final save.
    [tokenRows] is the number of rows found on the first load of the
    listing, [finalSaveFails] tells whether the last write throws. *)
Definition main (script : Script) (config : Config) (tokenRows : nat)
    (listings : nat -> Listing) (finalSaveFails : bool)
    (st : State) (file : option (list string)) : Run :=
  let loaded := if isProduction script then Store.loadProcessedTokens file else [] in
  let r :=
    tokenLoop script config listings (Nat.min tokenRows (MAX_TOKENS_TO_PROCESS config)) 0
      {| rows := st; processedFile := file; processedTokenNames := loaded;
         saved := []; aborted := false |} in
  if aborted r then r else saveTokens script finalSaveFails r.

(** The administrative clear of [server.js]: the document becomes the
    empty array. *)
Definition clearProcessedTokens (file : option (list string)) : option (list string) :=
  Some [].

(** [config] with another minimum PnL. *)
Definition withMinPnl (config : Config) (minPnl : Js.number) : Config :=
  {| MIN_PNL := minPnl; MIN_ROI := MIN_ROI config;
     MAX_TOKENS_TO_PROCESS := MAX_TOKENS_TO_PROCESS config;
     MAX_TRADERS_PER_TOKEN := MAX_TRADERS_PER_TOKEN config;
     START_FROM_ROW := START_FROM_ROW config |}.

(** ** Concrete pages *)

(** The age texts of the example of the specification. *)
Definition exampleAges : list (option string) :=
  [Some "5s"; Some "5s"; Some "5s"; Some "1m"; Some "2h"].

(** A wallet whose metrics clear both thresholds, with the example ages. *)
Definition examplePage : Page :=
  {| throws := fun _ => false;
     rowPresentAfter := fun _ => true;
     isVisible := true;
     solscanLinks := 1;
     divsUnderLink := 1;
     revenueText := Some "$90M";
     pnlText := Some "$80M";
     spentText := Some "$2M";
     href := Some "https://neo.bullx.io/portfolio/9xQeWvG816bUx9EP";
     tradeAges := exampleAges;
     mostProfitableDiv := true;
     mostProfitRows := repeat (Gates.CellText (Some "$12.5")) 10;
     now := "2025-01-01T00:00:00.000Z";
     statsWriteFails := false;
     portfoliosWriteFails := false |}.

Definition closedState : State :=
  {| modalOpen := false; statsFile := None; portfoliosFile := None |}.

(** The same wallet with trades that are days and weeks old. *)
Definition oldTradesPage : Page :=
  {| throws := throws examplePage;
     rowPresentAfter := rowPresentAfter examplePage;
     isVisible := true;
     solscanLinks := 1;
     divsUnderLink := 1;
     revenueText := revenueText examplePage;
     pnlText := pnlText examplePage;
     spentText := spentText examplePage;
     href := href examplePage;
     tradeAges := [Some "3d"; Some "1w"; Some "5d"; Some "2w"; Some "4h"];
     mostProfitableDiv := true;
     mostProfitRows := mostProfitRows examplePage;
     now := now examplePage;
     statsWriteFails := false;
     portfoliosWriteFails := false |}.

(** A page that differs from [page] in one observation. *)
Definition withSpentText (page : Page) (text : option string) : Page :=
  {| throws := throws page; rowPresentAfter := rowPresentAfter page;
     isVisible := isVisible page; solscanLinks := solscanLinks page;
     divsUnderLink := divsUnderLink page; revenueText := revenueText page;
     pnlText := pnlText page; spentText := text; href := href page;
     tradeAges := tradeAges page; mostProfitableDiv := mostProfitableDiv page;
     mostProfitRows := mostProfitRows page; now := now page;
     statsWriteFails := statsWriteFails page;
     portfoliosWriteFails := portfoliosWriteFails page |}.

Definition withSolscanLinks (page : Page) (n : nat) : Page :=
  {| throws := throws page; rowPresentAfter := rowPresentAfter page;
     isVisible := isVisible page; solscanLinks := n;
     divsUnderLink := divsUnderLink page; revenueText := revenueText page;
     pnlText := pnlText page; spentText := spentText page; href := href page;
     tradeAges := tradeAges page; mostProfitableDiv := mostProfitableDiv page;
     mostProfitRows := mostProfitRows page; now := now page;
     statsWriteFails := statsWriteFails page;
     portfoliosWriteFails := portfoliosWriteFails page |}.

Definition withThrows (page : Page) (f : Step -> bool) : Page :=
  {| throws := f; rowPresentAfter := rowPresentAfter page;
     isVisible := isVisible page; solscanLinks := solscanLinks page;
     divsUnderLink := divsUnderLink page; revenueText := revenueText page;
     pnlText := pnlText page; spentText := spentText page; href := href page;
     tradeAges := tradeAges page; mostProfitableDiv := mostProfitableDiv page;
     mostProfitRows := mostProfitRows page; now := now page;
     statsWriteFails := statsWriteFails page;
     portfoliosWriteFails := portfoliosWriteFails page |}.

Definition withRowPresentAfter (page : Page) (f : nat -> bool) : Page :=
  {| throws := throws page; rowPresentAfter := f;
     isVisible := isVisible page; solscanLinks := solscanLinks page;
     divsUnderLink := divsUnderLink page; revenueText := revenueText page;
     pnlText := pnlText page; spentText := spentText page; href := href page;
     tradeAges := tradeAges page; mostProfitableDiv := mostProfitableDiv page;
     mostProfitRows := mostProfitRows page; now := now page;
     statsWriteFails := statsWriteFails page;
     portfoliosWriteFails := portfoliosWriteFails page |}.

(** The wallet modal never shows its revenue: the wait times out. *)
Definition revenueTimeout (s : Step) : bool :=
  match s with
  | WaitRevenue => true
  | _ => false
  end.

(** Every [page.evaluate] of the scroll loop throws. *)
Definition scrollFails (s : Step) : bool :=
  match s with
  | Scroll _ => true
  | _ => false
  end.

(** The row never materializes and the scroll calls throw. *)
Definition lostPage : Page :=
  withThrows (withRowPresentAfter examplePage (fun _ => false)) scrollFails.

(** The example wallet behind a link whose id is [__proto__]. *)
Definition protoPage : Page :=
  {| throws := throws examplePage; rowPresentAfter := rowPresentAfter examplePage;
     isVisible := isVisible examplePage; solscanLinks := solscanLinks examplePage;
     divsUnderLink := divsUnderLink examplePage; revenueText := revenueText examplePage;
     pnlText := pnlText examplePage; spentText := spentText examplePage;
     href := Some "https://neo.bullx.io/portfolio/__proto__";
     tradeAges := tradeAges oldTradesPage; mostProfitableDiv := mostProfitableDiv examplePage;
     mostProfitRows := mostProfitRows examplePage; now := now examplePage;
     statsWriteFails := statsWriteFails examplePage;
     portfoliosWriteFails := portfoliosWriteFails examplePage |}.

(** The names a processed-tokens document holds (none when it is missing
    or unreadable). *)
Definition documentTokens (file : option (list string)) : list string :=
  match file with
  | Some data => data
  | None => []
  end.

(** What the token loop maintains, [loaded] being the set at its start
    and [file] the document at its start: the set has no duplicates and
    extends [loaded]; so does every snapshot handed to
    [saveProcessedTokens]; the document is still [file] or is one of these
    snapshots. *)
Definition extends (loaded tokens : list string) : Prop :=
  List.NoDup tokens /\ exists added, tokens = (loaded ++ added)%list.

Definition runInvariant (loaded : list string) (file : option (list string)) (r : Run) : Prop :=
  extends loaded (processedTokenNames r)
  /\ Forall (extends loaded) (saved r)
  /\ (processedFile r = file \/ exists snapshot, processedFile r = Some snapshot
                                                 /\ extends loaded snapshot).

(** The end-to-end scenario of the specification: revenue $2M, spend
    $500K, realized PnL $1.6M, twelve trades mostly days and weeks old,
    ten most-profitable rows of which one reads zero. *)
Definition scenarioPage : Page :=
  {| throws := fun _ => false;
     rowPresentAfter := fun attempts => (1 <=? attempts)%nat;
     isVisible := false;
     solscanLinks := 1;
     divsUnderLink := 1;
     revenueText := Some "$2M";
     pnlText := Some "$1.6M";
     spentText := Some "$500K";
     href := Some "https://neo.bullx.io/portfolio/TOKEN_A_wallet";
     tradeAges := [Some "2d"; Some "3d"; Some "1w"; Some "5d"; Some "2w"; Some "6d";
                   Some "1d"; Some "3w"; Some "12h"; Some "40m"; Some "9s"; Some "4d"];
     mostProfitableDiv := true;
     mostProfitRows := Gates.CellText (Some "$0") :: repeat (Gates.CellText (Some "$ 310.75")) 9;
     now := "2025-03-01T12:00:00.000Z";
     statsWriteFails := false;
     portfoliosWriteFails := false |}.

Definition scenarioConfig : Config :=
  {| MIN_PNL := Js.ofZ 25000; MIN_ROI := Js.ofZ 200; MAX_TOKENS_TO_PROCESS := 10;
     MAX_TRADERS_PER_TOKEN := 20; START_FROM_ROW := 3 |}.

(** A listing of four named rows on which no wallet table shows up. *)
Definition exampleListing (tokenIndex : nat) : Listing :=
  {| listingThrows := false;
     names := [Some "SOL"; None; Some ""; Some "WIF"; Some "BONK"; Some "JUP"];
     saveFails := false;
     openThrows := false;
     solscanAppears := false;
     goBackThrows := false;
     rowPages := fun _ => examplePage |}.

(** ** Notions used to state further properties *)

(** Whether every character of a string is in a class. *)
Fixpoint everyChar (P : ascii -> bool) (s : string) : bool :=
  match s with
  | EmptyString => true
  | String a r => P a && everyChar P r
  end.

(** The seven buckets, and whether the if-chain sends the text of a row
    to any of them. *)
Definition allBuckets : list Timing.bucket :=
  Timing.Seconds :: Timing.otherBuckets.

Definition classified (spanText : option string) : bool :=
  match Timing.bucketOf (Timing.trimmedText spanText) with
  | Some _ => true
  | None => false
  end.

(** A metric text that is present, not empty and holds no digit. *)
Definition unparsed (text : option string) : bool :=
  match text with
  | Some (String c r) => negb (Js.someChar Js.isDigit (String c r))
  | _ => false
  end.

(** The count the statistics document holds, as [loadStats] reads it. *)
Definition checked (st : State) : Z :=
  Store.portfoliosChecked (Store.loadStats (statsFile st)).

(** The outcomes on the path of which the production script calls
    [incrementPortfoliosChecked]. *)
Definition countedOutcome (outcome : Outcome) : bool :=
  match outcome with
  | Accepted => true
  | Skipped (RowNotFound | TabNotFound) => false
  | Skipped _ => true
  | Failed _ => false
  end.

Definition failedOutcome (outcome : Outcome) : bool :=
  match outcome with
  | Failed _ => true
  | _ => false
  end.

(** A name the search for a new token passes over. *)
Definition passedOver (processedTokenNames : list string) (name : option string) : Prop :=
  match name with
  | None => True
  | Some tokenName => tokenName = "" \/ In tokenName processedTokenNames
  end.

(** A configuration whose last row lies before its first one. *)
Definition emptyRangeConfig : Config :=
  {| MIN_PNL := Js.ofZ 25000; MIN_ROI := Js.ofZ 2000; MAX_TOKENS_TO_PROCESS := 10;
     MAX_TRADERS_PER_TOKEN := 2; START_FROM_ROW := 3 |}.

(** ** The dashboard server

    The helpers of [server.js] that read and write the [.env] document,
    and its three scraper endpoints. *)

Module Server.

Definition newline : ascii := "010"%char.

(** [s.split(sep)] for a separator of one character. *)
Fixpoint split (sep : ascii) (s : string) : list string :=
  match s with
  | EmptyString => [EmptyString]
  | String c r =>
      if Ascii.eqb c sep then EmptyString :: split sep r
      else match split sep r with
           | part :: parts => String c part :: parts
           | [] => [String c EmptyString]
           end
  end.

(** [line.startsWith('#')] *)
Definition startsWith (c : ascii) (s : string) : bool :=
  match s with
  | String a _ => Ascii.eqb a c
  | EmptyString => false
  end.

(** [config[key] = value] on an object literal, for a string [value]:
    the [__proto__] setter of Object.prototype ignores a string, any
    other key becomes an own property. *)
Definition assign (config : gmap string string) (key value : string) : gmap string string :=
  if String.eqb key "__proto__" then config else <[key := value]> config.

(** The body of the loop of [parseEnvFile]: [value] is undefined, hence
    falsy, when the line holds no '='. *)
Definition parseLine (config : gmap string string) (line : string) : gmap string string :=
  if negb (String.eqb line "") && negb (startsWith "#" line) then
    match map Js.trim (split "=" line) with
    | key :: value :: _ =>
        if negb (String.eqb key "") && negb (String.eqb value "")
        then assign config key value
        else config
    | _ => config
    end
  else config.

(** [parseEnvFile(content)], as the own properties of its result. *)
Definition parseEnvFile (content : string) : gmap string string :=
  fold_left parseLine (split newline content) ∅.

(** [convertToEnvFormat(config)], on [Object.entries(config)] with the
    string values the dashboard sends. *)
Definition convertToEnvFormat (entries : list (string * string)) : string :=
  fold_left
    (fun envContent entry =>
       envContent ++ (fst entry ++ "=" ++ snd entry ++ String newline ""))
    entries "".

(** A text that [split('=')] and [trim()] give back as it is. *)
Definition plain (s : string) : bool :=
  everyChar (fun c => negb (Ascii.eqb c "=") && negb (Ascii.eqb c newline)) s
  && String.eqb (Js.trim s) s
  && negb (String.eqb s "").

Definition plainKey (key : string) : bool :=
  plain key && negb (startsWith "#" key) && negb (String.eqb key "__proto__").

(** [let scraperProcess = null] and what the endpoints do to it.
    [launched] counts the calls of [exec] with the scraper command,
    [kills] the calls of [taskkill] or [scraperProcess.kill()]. *)
Record Process : Type := { pid : Z; killed : bool }.

Record ServerState : Type := {
  scraperProcess : option Process;
  launched : nat;
  kills : nat
}.

Inductive Status : Type := running | stopped.

Inductive Request : Type :=
| GetStatus
| PostStart (execThrows : bool)
| PostStop (killThrows : bool).

(** [res.json({ status, pid })], or [res.status(500).json({ status, error })]. *)
Inductive Response : Type :=
| Answer (status : Status) (pid : option Z)
| ServerError (status : Status).

(** [scraperProcess && !scraperProcess.killed] *)
Definition alive (s : ServerState) : bool :=
  match scraperProcess s with
  | Some process => negb (killed process)
  | None => false
  end.

Definition handle (s : ServerState) (request : Request) : ServerState * Response :=
  match request with
  | GetStatus =>
      (s, Answer (if alive s then running else stopped) (option_map pid (scraperProcess s)))
  | PostStart execThrows =>
      if alive s then (s, Answer running (option_map pid (scraperProcess s)))
      else if execThrows then (s, ServerError stopped)
      else ({| scraperProcess := scraperProcess s; launched := S (launched s);
               kills := kills s |},
            Answer running (Some 1))
  | PostStop killThrows =>
      if alive s then
        if killThrows then (s, ServerError stopped)
        else ({| scraperProcess := None; launched := launched s; kills := S (kills s) |},
              Answer stopped None)
      else (s, Answer stopped None)
  end.

Fixpoint serve (s : ServerState) (requests : list Request) : ServerState * list Response :=
  match requests with
  | [] => (s, [])
  | request :: rest =>
      let '(s1, response) := handle s request in
      let '(s2, responses) := serve s1 rest in
      (s2, response :: responses)
  end.

Definition initial : ServerState := {| scraperProcess := None; launched := 0; kills := 0 |}.

Definition isStart (request : Request) : bool :=
  match request with
  | PostStart false => true
  | _ => false
  end.

End Server.

(** ** The manual-login script

    [runWithRetry] around its [main].  [attempts i] tells how the call
    number [i] of [main()] ends: it resolves, it leaves through
    [process.exit(0)] (the quit command), or it rejects. *)

Module Login.

Inductive Attempt : Type := Returns | Quits | Throws.

Inductive Ending : Type :=
| Finished
| Exit (code : Z).

(** The ending, and the number of calls of [main] made. *)
Equations? runWithRetry (attempts : nat -> Attempt) (retries : Z) (calls : nat) : Ending * nat
    by wf (Z.to_nat retries) lt :=
  runWithRetry attempts retries calls with attempts calls := {
    | Returns => (Finished, S calls)
    | Quits => (Exit 0, S calls)
    | Throws with Z_lt_dec 0 (retries - 1) := {
      | left _ => runWithRetry attempts (retries - 1) (S calls)
      | right _ => (Exit 1, S calls) } }.
Proof. lia. Qed.

End Login.

(** * Properties *)

(** ** Order and signs of numbers *)

Section NumberOrder.

Local Ltac order_case :=
  repeat match goal with
  | |- context [Z.compare ?a ?b] => destruct (Z.compare_spec a b)
  | H : context [Z.compare ?a ?b] |- _ => destruct (Z.compare_spec a b)
  | |- context [Pos.compare_cont Eq ?a ?b] =>
      change (Pos.compare_cont Eq a b) with (Pos.compare a b);
      destruct (Pos.compare_spec a b)
  | H : context [Pos.compare_cont Eq ?a ?b] |- _ =>
      change (Pos.compare_cont Eq a b) with (Pos.compare a b) in H;
      destruct (Pos.compare_spec a b)
  end;
  simpl in *; try discriminate; try reflexivity; try lia.

(** [x < y] and [y <= z] give [x < z], NaN making each premise false. *)
Lemma lt_le_trans (x y z : Js.number) :
  Js.lt x y = true -> Js.le y z = true -> Js.lt x z = true.
Proof.
  unfold Js.lt, Js.le, SFltb, SFleb.
  destruct x as [[]|[]| |[] mx ex], y as [[]|[]| |[] my ey], z as [[]|[]| |[] mz ez];
    simpl; try discriminate; try reflexivity; intros Hxy Hyz; order_case.
Qed.

Lemma lt_NaN_l (y : Js.number) : Js.lt Js.NaN y = false.
Proof. reflexivity. Qed.

Lemma lt_Infinity_l (y : Js.number) : Js.lt Js.Infinity y = false.
Proof. destruct y as [[]|[]| |[] my ey]; reflexivity. Qed.

End NumberOrder.

(** ** Strings *)

Section StringFacts.

(** [replace] with a negated class is a filter on the characters. *)
Lemma keepChars_filter (keep : ascii -> bool) (s : string) :
  list_ascii_of_string (Js.keepChars keep s) = List.filter keep (list_ascii_of_string s).
Proof.
  induction s as [|a r IH]; simpl; [reflexivity|].
  destruct (keep a); simpl; now rewrite IH.
Qed.

Lemma someChar_keepChars (P keep : ascii -> bool) (s : string) :
  Js.someChar P s = false -> Js.someChar P (Js.keepChars keep s) = false.
Proof.
  induction s as [|a r IH]; simpl; [reflexivity|].
  intros [Ha Hr]%orb_false_elim. destruct (keep a); simpl; [rewrite Ha|]; auto.
Qed.

Lemma lastChar_keepChars (keep : ascii -> bool) (s : string) (a : ascii) :
  Js.lastChar (Js.keepChars keep s) = Some a -> keep a = true.
Proof.
  induction s as [|b r IH]; simpl; [discriminate|].
  destruct (keep b) eqn:Kb; [|exact IH].
  simpl. destruct (Js.keepChars keep r) eqn:E; [intros [= <-]; exact Kb|exact IH].
Qed.

Lemma endsWith_lastChar (s : string) (c : ascii) :
  Js.endsWith s c = match Js.lastChar s with Some a => Ascii.eqb a c | None => false end.
Proof.
  induction s as [|b r IH]; simpl; [reflexivity|].
  destruct r; [reflexivity|exact IH].
Qed.

Lemma lastChar_toUpperCase (s : string) :
  Js.lastChar (Js.toUpperCase s) = option_map Js.upperChar (Js.lastChar s).
Proof.
  induction s as [|b r IH]; simpl; [reflexivity|].
  destruct r; [reflexivity|exact IH].
Qed.

Lemma spanDigits_none (s : string) :
  Js.someChar Js.isDigit s = false -> Js.spanDigits s = (EmptyString, s).
Proof.
  destruct s as [|a r]; simpl; [reflexivity|].
  intros [-> _]%orb_false_elim. reflexivity.
Qed.

(** A white-space-free character survives [trim]. *)
Lemma includes_trimStart (s : string) (c : ascii) :
  Js.isWhiteSpace c = false -> Js.includes (Js.trimStart s) c = Js.includes s c.
Proof.
  intros Hc. induction s as [|a r IH]; simpl; [reflexivity|].
  destruct (Js.isWhiteSpace a) eqn:Wa; [|reflexivity].
  rewrite IH. destruct (Ascii.eqb_spec a c) as [->|]; [congruence|reflexivity].
Qed.

Lemma includes_trimEnd (s : string) (c : ascii) :
  Js.isWhiteSpace c = false -> Js.includes (Js.trimEnd s) c = Js.includes s c.
Proof.
  intros Hc. induction s as [|a r IH]; simpl; [reflexivity|].
  destruct (Js.trimEnd r) eqn:E.
  - simpl in IH. rewrite <- IH.
    destruct (Js.isWhiteSpace a) eqn:Wa; simpl.
    + destruct (Ascii.eqb_spec a c) as [->|]; [congruence|reflexivity].
    + reflexivity.
  - simpl. simpl in IH. now rewrite IH.
Qed.

Lemma includes_trim (s : string) (c : ascii) :
  Js.isWhiteSpace c = false -> Js.includes (Js.trim s) c = Js.includes s c.
Proof.
  intros Hc. unfold Js.trim. now rewrite includes_trimEnd, includes_trimStart.
Qed.

End StringFacts.

(** ** Numeric parser *)

Section ParserFacts.

Lemma signBit_round_aux (m e : Z) (l : location) :
  Js.signBit (binary_round_aux Js.prec Js.emax false m e l) = false.
Proof.
  unfold binary_round_aux.
  destruct (shr_fexp _ _ m e l) as [mrs' e'].
  destruct (shr_fexp _ _ _ e' loc_Exact) as [mrs'' e''].
  destruct (shr_m mrs''); [reflexivity| |reflexivity].
  destruct (e'' <=? Js.emax - Js.prec); reflexivity.
Qed.

Lemma signBit_ofDecimal (n e : Z) : Js.signBit (Js.ofDecimal false n e) = false.
Proof.
  unfold Js.ofDecimal. destruct n as [|p|p]; try reflexivity.
  destruct (0 <=? e).
  - unfold binary_round. destruct (shl_align _ _ _) as [mz ez]. apply signBit_round_aux.
  - unfold Js.div, SFdiv. destruct (SFdiv_core_binary _ _ _ _ _ _) as [[mz ez] lz].
    apply signBit_round_aux.
Qed.

(** Scaling by a positive constant keeps the sign bit clear. *)
Lemma signBit_mul (x : Js.number) (k : positive) :
  Js.signBit x = false -> Js.signBit (Js.mul x (Js.ofZ (Zpos k))) = false.
Proof.
  intros Hx. unfold Js.ofZ, binary_normalize, binary_round.
  destruct (shl_align _ _ _) as [mz ez].
  pose proof (signBit_round_aux (Zpos mz) ez loc_Exact) as Hk.
  destruct (binary_round_aux Js.prec Js.emax false (Z.pos mz) ez loc_Exact) as [s|s| |s m e];
    simpl in Hk; subst; destruct x as [s|s| |s mx ex]; simpl in Hx; subst; try reflexivity.
  unfold Js.mul, SFmul. apply signBit_round_aux.
Qed.

(** What the class [[0-9MKk.]] excludes. *)
Lemma keptChar_plain (c : ascii) :
  Parser.keptChar c = true ->
  Js.isWhiteSpace c = false /\ c <> "+"%char /\ c <> "-"%char /\ c <> "m"%char.
Proof.
  destruct c as [[] [] [] [] [] [] [] []]; intros H; try discriminate H;
    (split; [reflexivity|]); repeat split; discriminate.
Qed.

Lemma keptChar_cases (c : ascii) :
  Parser.keptChar c = true ->
  Js.isDigit c = true \/ c = "M"%char \/ c = "K"%char \/ c = "k"%char \/ c = "."%char.
Proof.
  destruct c as [[] [] [] [] [] [] [] []]; intros H; try discriminate H; auto 6.
Qed.

Lemma cleanValue_head (value : string) (c : ascii) (r : string) :
  Parser.cleanValue value = String c r -> Parser.keptChar c = true.
Proof.
  unfold Parser.cleanValue. induction value as [|a v IH]; simpl; [discriminate|].
  destruct (Parser.keptChar a) eqn:Ka; [intros [= <- _]; exact Ka|exact IH].
Qed.

Lemma splitSign_clean (value : string) :
  Js.splitSign (Js.trimStart (Parser.cleanValue value)) = (false, Parser.cleanValue value).
Proof.
  destruct (Parser.cleanValue value) as [|c r] eqn:E; [reflexivity|].
  destruct (keptChar_plain c (cleanValue_head _ _ _ E)) as (Hw & Hp & Hm & _).
  simpl. rewrite Hw. unfold Js.splitSign.
  destruct c as [[] [] [] [] [] [] [] []]; try reflexivity; congruence.
Qed.

Lemma parseFloat_clean_sign (value : string) :
  Js.signBit (Js.parseFloat (Parser.cleanValue value)) = false.
Proof.
  unfold Js.parseFloat. rewrite splitSign_clean.
  destruct (String.prefix _ _); [reflexivity|].
  destruct (Js.spanDigits _) as [ip r1].
  destruct (match r1 with String "."%char r => Js.spanDigits r | _ => _ end) as [fp r2].
  destruct ip, fp; try reflexivity; apply signBit_ofDecimal.
Qed.

(** The parser never yields a number with the sign bit set. *)
Lemma parseDollars_sign (text : option string) :
  Js.signBit (Parser.parseDollars text) = false.
Proof.
  unfold Parser.parseDollars, Parser.scale.
  pose proof (parseFloat_clean_sign (Parser.orZero text)) as H.
  destruct (Js.endsWith _ "M"); [now apply signBit_mul|].
  destruct (Js.endsWith _ "K"); [now apply signBit_mul|exact H].
Qed.

Lemma parseFloat_no_digit (value : string) :
  Js.someChar Js.isDigit value = false ->
  Js.parseFloat (Parser.cleanValue value) = Js.NaN.
Proof.
  intros Hd. unfold Js.parseFloat. rewrite splitSign_clean.
  pose proof (someChar_keepChars Js.isDigit Parser.keptChar value Hd) as Hc.
  fold (Parser.cleanValue value) in Hc.
  destruct (Parser.cleanValue value) as [|c r] eqn:E; [reflexivity|].
  pose proof (cleanValue_head _ _ _ E) as Hk.
  rewrite (spanDigits_none _ Hc).
  simpl in Hc. apply orb_false_elim in Hc as [Hc Hr].
  destruct (keptChar_cases c Hk) as [H|[->|[->|[->| ->]]]]; try congruence; try reflexivity.
  simpl. rewrite (spanDigits_none _ Hr). reflexivity.
Qed.

Lemma scale_NaN (clean : string) : Parser.scale clean Js.NaN = Js.NaN.
Proof.
  unfold Parser.scale.
  destruct (Js.endsWith _ "M"); [reflexivity|destruct (Js.endsWith _ "K"); reflexivity].
Qed.

Lemma upper_is_M (a : ascii) :
  Parser.keptChar a = true ->
  Ascii.eqb (Js.upperChar a) "M" = Ascii.eqb a "M"
  /\ Ascii.eqb (Js.upperChar a) "K" = Ascii.eqb a "K" || Ascii.eqb a "k".
Proof.
  destruct a as [[] [] [] [] [] [] [] []]; intros H; try discriminate H; split; reflexivity.
Qed.

(** The two suffix tests, on a cleaned text. *)
Lemma scale_lastChar (value : string) (d : Js.number) :
  Parser.scale (Parser.cleanValue value) d =
    match Js.lastChar (Parser.cleanValue value) with
    | Some "M"%char => Js.mul d (Js.ofZ 1000000)
    | Some "K"%char | Some "k"%char => Js.mul d (Js.ofZ 1000)
    | _ => d
    end.
Proof.
  unfold Parser.scale. rewrite !endsWith_lastChar, lastChar_toUpperCase.
  destruct (Js.lastChar (Parser.cleanValue value)) as [a|] eqn:E; [|reflexivity].
  apply lastChar_keepChars in E. simpl. destruct (upper_is_M a E) as [-> ->].
  destruct a as [[] [] [] [] [] [] [] []]; try discriminate E; reflexivity.
Qed.

End ParserFacts.

(** C1, as amended.  The numeric parser deletes exactly the characters
    outside the class of digits, dots, [M], [K] and [k]; a trailing [M]
    multiplies the number read by 1,000,000 and a trailing [K] or [k] by
    1,000; it is a total function, whose result never has the sign bit
    set; a null or empty text gives 0, any other text without a digit
    gives NaN; and it maps "$1.2M" to 1200000, "430K" to 430000, "" to 0
    and "garbage" to NaN. *)
Theorem C1_numeric_parser :
  (forall text : option string,
     let clean := Parser.cleanValue (Parser.orZero text) in
     list_ascii_of_string clean
       = List.filter Parser.keptChar (list_ascii_of_string (Parser.orZero text))
     /\ Parser.parseDollars text =
          match Js.lastChar clean with
          | Some "M"%char => Js.mul (Js.parseFloat clean) (Js.ofZ 1000000)
          | Some "K"%char | Some "k"%char => Js.mul (Js.parseFloat clean) (Js.ofZ 1000)
          | _ => Js.parseFloat clean
          end
     /\ Js.signBit (Parser.parseDollars text) = false)
  /\ (forall value : string,
        Js.someChar Js.isDigit value = false ->
        Parser.parseDollars (Some value) = if String.eqb value "" then Js.zero else Js.NaN)
  /\ Parser.parseDollars None = Js.zero
  /\ Parser.parseDollars (Some "$1.2M") = Js.ofZ 1200000
  /\ Parser.parseDollars (Some "430K") = Js.ofZ 430000
  /\ Parser.parseDollars (Some "") = Js.zero
  /\ Parser.parseDollars (Some "garbage") = Js.NaN.
Proof.
  split; [|split].
  - intros text clean. split; [apply keepChars_filter|].
    split; [apply scale_lastChar|apply parseDollars_sign].
  - intros value Hd. destruct value as [|c r]; [reflexivity|].
    unfold Parser.parseDollars. cbn [Parser.orZero String.eqb].
    rewrite (parseFloat_no_digit _ Hd). apply scale_NaN.
  - repeat split; vm_compute; reflexivity.
Qed.

(** The parser at a text with no digit: the rule applies and gives NaN. *)
Lemma C1_numeric_parser_witness :
  Js.someChar Js.isDigit "garbage" = false /\ Parser.parseDollars (Some "garbage") = Js.NaN.
Proof.
  split; [reflexivity|].
  exact (proj1 (proj2 C1_numeric_parser) "garbage" eq_refl).
Defined.

(** C1 as the specification states it fails: a text without digits need
    not parse to 0 ("garbage" parses to NaN), and a lower-case [m] is
    deleted with the other letters ("1.2m" parses to 1.2). *)
Lemma C1_garbage_is_not_zero :
  ~ (forall value : string,
       Js.someChar Js.isDigit value = false -> Parser.parseDollars (Some value) = Js.zero)
  /\ Parser.parseDollars (Some "garbage") = Js.NaN
  /\ Parser.parseDollars (Some "1.2m") = Js.parseFloat "1.2".
Proof.
  split; [|split; vm_compute; reflexivity].
  intros H. specialize (H "garbage" eq_refl). vm_compute in H. discriminate H.
Qed.

(** ** Symbolic execution of a row iteration *)

Section RowExecution.

Context {A B C : Type}.

Lemma bind_ret (a : A) (k : A -> M B) (st : State) : bind (ret a) k st = k a st.
Proof. reflexivity. Qed.

Lemma bind_jump (why : Skip) (k : A -> M B) (st : State) :
  bind (jump why) k st = (st, Jump why).
Proof. reflexivity. Qed.

Lemma bind_modify (f : State -> State) (k : unit -> M B) (st : State) :
  bind (modify f) k st = k tt (f st).
Proof. reflexivity. Qed.

Lemma bind_call (page : Page) (s : Step) (k : unit -> M B) (st : State) :
  bind (call page s) k st = if throws page s then (st, Throw s) else k tt st.
Proof. unfold bind, call. destruct (throws page s); reflexivity. Qed.

Lemma bind_bind (m : M A) (f : A -> M B) (g : B -> M C) (st : State) :
  bind (bind m f) g st = bind m (fun a => bind (f a) g) st.
Proof. unfold bind. destruct (m st) as [st' [a|why|s]]; reflexivity. Qed.

Lemma bind_val (m : M A) (k : A -> M B) (st st' : State) (a : A) :
  m st = (st', Val a) -> bind m k st = k a st'.
Proof. unfold bind. intros ->. reflexivity. Qed.

Lemma bind_jumped (m : M A) (k : A -> M B) (st st' : State) (why : Skip) :
  m st = (st', Jump why) -> bind m k st = (st', Jump why).
Proof. unfold bind. intros ->. reflexivity. Qed.

Lemma bind_thrown (m : M A) (k : A -> M B) (st st' : State) (s : Step) :
  m st = (st', Throw s) -> bind m k st = (st', Throw s).
Proof. unfold bind. intros ->. reflexivity. Qed.

Lemma run_bind_ret (m : M A) (st : State) : m st = bind m ret st.
Proof. unfold bind, ret. destruct (m st) as [st' [a|why|s]]; reflexivity. Qed.

End RowExecution.

(** The scroll loop leaves through its guard, through [break] or through
    an exception of a scroll call, and never after more attempts than
    allowed. *)
Lemma scrollLoop_cases (page : Page) (max : nat) (isRowPresent : bool) (scrollAttempts : nat) :
  (scrollAttempts <= max)%nat ->
  match scrollLoop page max isRowPresent scrollAttempts with
  | ScrollDone found n =>
      (scrollAttempts <= n <= max)%nat
      /\ (found = false -> isRowPresent = false /\ n = max
                           /\ forall i, (scrollAttempts <= i < max)%nat -> rowPresentAfter page i = false)
      /\ (found = true -> isRowPresent = true \/ rowPresentAfter page n = true)
  | ScrollThrew n =>
      (scrollAttempts <= n < max)%nat /\ throws page (Scroll n) = true
  end.
Proof.
  funelim (scrollLoop page max isRowPresent scrollAttempts); intros Hle.
  - split; [lia|]. split; [discriminate|]. intros _. left. reflexivity.
  - split; [lia|]. split; [|discriminate].
    intros _. split; [reflexivity|]. split; [lia|]. intros i Hi. lia.
  - split; [lia|]. split; [discriminate|]. intros _. right. assumption.
  - split; [lia|assumption].
  - match goal with IH : (_ <= _)%nat -> _ |- _ => specialize (IH ltac:(lia)) end.
    match goal with
    | IH : match scrollLoop ?p ?m false (S ?n) with _ => _ end |- _ =>
        destruct (scrollLoop p m false (S n)) as [found k|k];
        destruct IH as [Hk Hrest]
    end.
    + destruct Hrest as [Hnot Hyes]. split; [lia|]. split.
      * intros Hfound.
        destruct (Hnot Hfound) as (_ & -> & Hall). split; [reflexivity|]. split; [reflexivity|].
        intros i Hi.
        match goal with
        | Hp : rowPresentAfter _ ?n = false |- _ =>
            destruct (Nat.eq_dec i n) as [->|]; [assumption|apply Hall; lia]
        end.
      * intros Hfound. destruct (Hyes Hfound) as [?|?]; [discriminate|right; assumption].
    + split; [lia|assumption].
Qed.

(** The same loop, with what it has tried before it stops. *)
Lemma scrollLoop_least (page : Page) (max : nat) (isRowPresent : bool) (scrollAttempts : nat) :
  (scrollAttempts <= max)%nat ->
  isRowPresent = false ->
  match scrollLoop page max isRowPresent scrollAttempts with
  | ScrollDone true k =>
      (k < max)%nat /\ rowPresentAfter page k = true
      /\ forall i, (scrollAttempts <= i < k)%nat ->
           rowPresentAfter page i = false /\ throws page (Scroll i) = false
  | ScrollDone false k =>
      k = max
      /\ forall i, (scrollAttempts <= i < max)%nat ->
           rowPresentAfter page i = false /\ throws page (Scroll i) = false
  | ScrollThrew k =>
      (k < max)%nat /\ throws page (Scroll k) = true /\ rowPresentAfter page k = false
      /\ forall i, (scrollAttempts <= i < k)%nat ->
           rowPresentAfter page i = false /\ throws page (Scroll i) = false
  end.
Proof.
  funelim (scrollLoop page max isRowPresent scrollAttempts); intros Hle Hfalse;
    try discriminate Hfalse.
  - split; [lia|]. intros i Hi. lia.
  - split; [lia|]. split; [assumption|]. intros i Hi. lia.
  - split; [lia|]. split; [assumption|]. split; [assumption|]. intros i Hi. lia.
  - match goal with IH : (_ <= _)%nat -> _ |- _ => specialize (IH ltac:(lia) eq_refl) end.
    match goal with
    | IH : match scrollLoop ?p ?m false (S ?n) with _ => _ end,
      Hp : rowPresentAfter _ ?n = false, Ht : throws _ (Scroll ?n) = false |- _ =>
        destruct (scrollLoop p m false (S n)) as [[|] k|k];
        [destruct IH as (H1 & H2 & H3); split; [assumption|]; split; [assumption|]
        |destruct IH as (H1 & H3); split; [assumption|]
        |destruct IH as (H1 & H2 & H2' & H3); split; [assumption|];
         split; [assumption|]; split; [assumption|]];
        intros i Hi; destruct (Nat.eq_dec i n) as [->|];
        solve [split; assumption | apply H3; lia]
    end.
Qed.

Lemma findRow_cases (script : Script) (page : Page) (st : State) :
  findRow script page st = (st, Val tt)
  \/ (findRow script page st = (st, Jump RowNotFound)
      /\ scrollLoop page (maxScrollAttempts script) false 0
         = ScrollDone false (maxScrollAttempts script))
  \/ (exists n, findRow script page st = (st, Throw (Scroll n))
                /\ throws page (Scroll n) = true).
Proof.
  unfold findRow.
  pose proof (scrollLoop_cases page (maxScrollAttempts script) false 0 ltac:(lia)) as H.
  destruct (scrollLoop page (maxScrollAttempts script) false 0) as [[|] n|n].
  - left. reflexivity.
  - right. left. destruct H as (_ & H & _). destruct (H eq_refl) as (_ & -> & _).
    split; reflexivity.
  - right. right. exists n. split; [reflexivity|apply H].
Qed.

Lemma readTradeTexts_cases (page : Page) (ages : list (option string)) (rowIndex : nat)
    (st : State) :
  readTradeTexts page rowIndex ages st = (st, Val tt)
  \/ (exists j, readTradeTexts page rowIndex ages st = (st, Throw (TradeText j))
                /\ throws page (TradeText j) = true).
Proof.
  revert rowIndex. induction ages as [|a rest IH]; intros rowIndex; simpl.
  - left. reflexivity.
  - rewrite bind_call. destruct (throws page (TradeText rowIndex)) eqn:Ht.
    + right. exists rowIndex. split; [reflexivity|assumption].
    + apply IH.
Qed.

(** One step of the execution of a row body applied to a state. *)
Ltac row_step :=
  lazymatch goal with
  | |- context [bind (bind _ _) _ _] => rewrite bind_bind
  | |- context [bind (ret _) _ _] => rewrite bind_ret
  | |- context [bind (jump _) _ _] => rewrite bind_jump
  | |- context [bind (modify _) _ _] => rewrite bind_modify
  | |- context [bind (call ?p ?s) _ _] =>
      rewrite bind_call; destruct (throws p s) eqn:?
  | |- context [bind (if ?b then _ else _) _ _] => destruct b eqn:?
  | |- context [bind (findRow ?sc ?p) _ ?st] =>
      let H := fresh "Hfind" in
      destruct (findRow_cases sc p st) as [H|[[H ?]|[? [H ?]]]];
      [rewrite (bind_val _ _ _ _ _ H)
      |rewrite (bind_jumped _ _ _ _ _ H)
      |rewrite (bind_thrown _ _ _ _ _ H)]
  | |- context [bind (readTradeTexts ?p ?i ?l) _ ?st] =>
      let H := fresh "Hread" in
      destruct (readTradeTexts_cases p l i st) as [H|[? [H ?]]];
      [rewrite (bind_val _ _ _ _ _ H)
      |rewrite (bind_thrown _ _ _ _ _ H)]
  end.

Ltac row_unfold :=
  unfold rowBody, extractPnl, pnlGate, afterPnlGate, extractSpent, roiGate, timingGate,
    sampleMostProfitable, acceptRow, bringIntoView, clickDiv, clickClose, readText,
    incrementPortfoliosChecked, writePortfolio.

(** The state a row iteration leaves, and what its outcome tells about
    the page, path by path. *)
Lemma evalRow_cases (script : Script) (config : Config) (page : Page) (st : State) :
  let revenue := Parser.parseDollars (revenueText page) in
  let pnl := Parser.parseDollars (pnlText page) in
  let spent := Parser.parseDollars (spentText page) in
  let opened := setModal true st in
  let data := portfolioData script page revenue pnl spent (portfolioIdOf (href page)) in
  let key := keyOf (portfolioIdOf (href page)) in
  match evalRow script config page st with
  | (st', Skipped RowNotFound) =>
      st' = st
      /\ scrollLoop page (maxScrollAttempts script) false 0
         = ScrollDone false (maxScrollAttempts script)
  | (st', Skipped NoSolscanLink) => st' = countRow script page st /\ solscanLinks page = 0%nat
  | (st', Skipped NoDivUnderLink) => st' = countRow script page st /\ divsUnderLink page = 0%nat
  | (st', Skipped PnlTooLow) =>
      st' = setModal false (countRow script page opened)
      /\ Gates.pnlTooLow pnl (MIN_PNL config) = true
  | (st', Skipped RoiTooLow) =>
      st' = setModal false (countRow script page opened)
      /\ Gates.pnlTooLow pnl (MIN_PNL config) = false
      /\ Gates.roiTooLow revenue spent (MIN_ROI config) = true
  | (st', Skipped MostlySeconds) =>
      st' = setModal false (countRow script page opened)
      /\ Gates.pnlTooLow pnl (MIN_PNL config) = false
      /\ Gates.roiTooLow revenue spent (MIN_ROI config) = false
      /\ Timing.mostlySeconds (Timing.groupRows (tradeAges page)) = true
  | (st', Skipped TabNotFound) =>
      st' = setModal false opened
      /\ Gates.pnlTooLow pnl (MIN_PNL config) = false
      /\ Gates.roiTooLow revenue spent (MIN_ROI config) = false
      /\ Timing.mostlySeconds (Timing.groupRows (tradeAges page)) = false
      /\ mostProfitableDiv page = false
  | (st', Skipped TooFewRows) =>
      st' = countRow script page (setModal false opened)
      /\ Gates.pnlTooLow pnl (MIN_PNL config) = false
      /\ Gates.roiTooLow revenue spent (MIN_ROI config) = false
      /\ Timing.mostlySeconds (Timing.groupRows (tradeAges page)) = false
      /\ (length (mostProfitRows page) < 10)%nat
  | (st', Skipped TooManyZeros) =>
      st' = countRow script page (setModal false opened)
      /\ Gates.pnlTooLow pnl (MIN_PNL config) = false
      /\ Gates.roiTooLow revenue spent (MIN_ROI config) = false
      /\ Timing.mostlySeconds (Timing.groupRows (tradeAges page)) = false
      /\ (3 < Gates.zeroCount (Gates.collectNumbers (mostProfitRows page)))%nat
  | (st', Accepted) =>
      st' = countRow script page (setModal false (storePortfolio page key data opened))
      /\ Gates.pnlTooLow pnl (MIN_PNL config) = false
      /\ Gates.roiTooLow revenue spent (MIN_ROI config) = false
      /\ Timing.mostlySeconds (Timing.groupRows (tradeAges page)) = false
      /\ throws page ClickClose = false
  | (st', Failed s) =>
      throws page s = true
      /\ (st' = st \/ st' = opened \/ st' = countRow script page opened
          \/ st' = storePortfolio page key data opened)
  end.
Proof.
  cbv zeta. unfold evalRow. rewrite run_bind_ret. row_unfold.
  repeat row_step; unfold ret; cbv beta iota;
    repeat match goal with
    | H : (_ <? _)%nat = true |- _ => apply Nat.ltb_lt in H
    | H : (_ =? _)%nat = true |- _ => apply Nat.eqb_eq in H
    | H : (0 <? _)%nat = false |- _ => apply Nat.ltb_ge in H
    end;
    repeat split; auto; try lia.
Qed.

(** ** Trade-timing classifier *)

Section TimingFacts.

Import Timing.

Lemma count_push (g : timeGroups) (b b' : bucket) (t : string) :
  count (push g b t) b' = (count g b' + if bool_decide (b = b') then 1 else 0)%nat.
Proof.
  destruct b, b'; simpl; rewrite ?List.length_app; simpl; lia.
Qed.

Lemma count_groupRow (g : timeGroups) (spanText : option string) (b : bucket) :
  count (groupRow g spanText) b = (count g b + if inBucket b spanText then 1 else 0)%nat.
Proof.
  unfold groupRow, inBucket.
  destruct (bucketOf (trimmedText spanText)) as [b0|].
  - rewrite count_push. repeat case_bool_decide; congruence.
  - rewrite bool_decide_false by discriminate. lia.
Qed.

Lemma count_fold (spanTexts : list (option string)) (g : timeGroups) (b : bucket) :
  count (fold_left groupRow spanTexts g) b
  = (count g b + length (List.filter (inBucket b) spanTexts))%nat.
Proof.
  revert g. induction spanTexts as [|t rest IH]; intros g; simpl; [lia|].
  rewrite IH, count_groupRow. destruct (inBucket b t); simpl; lia.
Qed.

(** Each bucket holds the texts the if-chain sends to it. *)
Lemma count_groupRows (spanTexts : list (option string)) (b : bucket) :
  count (groupRows spanTexts) b = length (List.filter (inBucket b) spanTexts).
Proof.
  unfold groupRows. rewrite count_fold. destruct b; reflexivity.
Qed.

Lemma highestCount_max (g : timeGroups) :
  highestCount g = list_max (map (count g) otherBuckets).
Proof. unfold highestCount. simpl. lia. Qed.

Lemma mostlySeconds_iff (g : timeGroups) :
  mostlySeconds g = true
  <-> Forall (fun b => (count g b < count g Seconds)%nat) otherBuckets.
Proof.
  unfold mostlySeconds, highestCount, otherBuckets. rewrite Nat.ltb_lt. split.
  - intros H. repeat constructor; simpl; lia.
  - intros H. repeat match goal with H : Forall _ (_ :: _) |- _ => inversion_clear H end.
    simpl in *. lia.
Qed.

Lemma bucketOf_s (t : string) :
  Js.includes t "s" = true -> bucketOf t = Some Seconds.
Proof. unfold bucketOf. intros ->. reflexivity. Qed.

End TimingFacts.

(** ** The claims on the classifier *)

(** C6.  The classifier sends a text to the seconds bucket when it
    contains "s", otherwise to a minutes bucket when it contains "m"
    (below 30 or not), otherwise to an hours bucket when it contains "h"
    (below 2 or not), otherwise to days on "d" and to weeks on "w"; each
    bucket counts the texts sent to it; the dominant-seconds signal is
    true exactly when the seconds count exceeds the count of each of the
    other six buckets, that is, their maximum; on the ages 5s, 5s, 5s, 1m,
    2h the seconds count is 3, the largest other count is 1, the signal is
    true, and a row with these ages never gets past the timing gate,
    whatever its metrics and the thresholds. *)
Theorem C6_timing_classifier :
  (forall t : string,
     (Timing.bucketOf t = Some Timing.Seconds <-> Js.includes t "s" = true)
     /\ (Js.includes t "s" = false -> Js.includes t "m" = true ->
         Timing.bucketOf t = Some (if Js.intLt (Js.parseInt t) 30
                                   then Timing.LessThan30m else Timing.MoreThan30m))
     /\ (Js.includes t "s" = false -> Js.includes t "m" = false -> Js.includes t "h" = true ->
         Timing.bucketOf t = Some (if Js.intLt (Js.parseInt t) 2
                                   then Timing.LessThan2h else Timing.MoreThan2h))
     /\ (Js.includes t "s" = false -> Js.includes t "m" = false -> Js.includes t "h" = false ->
         Timing.bucketOf t = if Js.includes t "d" then Some Timing.Days
                             else if Js.includes t "w" then Some Timing.Weeks else None))
  /\ (forall (spanTexts : list (option string)) (b : Timing.bucket),
        Timing.count (Timing.groupRows spanTexts) b
        = length (List.filter (Timing.inBucket b) spanTexts))
  /\ (forall g : Timing.timeGroups,
        Timing.highestCount g = list_max (map (Timing.count g) Timing.otherBuckets)
        /\ (Timing.mostlySeconds g = true
            <-> Forall (fun b => (Timing.count g b < Timing.count g Timing.Seconds)%nat)
                       Timing.otherBuckets))
  /\ Timing.count (Timing.groupRows exampleAges) Timing.Seconds = 3%nat
  /\ Timing.highestCount (Timing.groupRows exampleAges) = 1%nat
  /\ Timing.mostlySeconds (Timing.groupRows exampleAges) = true
  /\ (forall (script : Script) (config : Config) (page : Page) (st : State),
        tradeAges page = exampleAges ->
        match snd (evalRow script config page st) with
        | Accepted | Skipped TabNotFound | Skipped TooFewRows | Skipped TooManyZeros => False
        | _ => True
        end).
Proof.
  split; [|split; [|split; [|split; [|split; [|split]]]]].
  - intros t. unfold Timing.bucketOf. repeat split.
    + destruct (Js.includes t "s"); [reflexivity|].
      destruct (Js.includes t "m"); [destruct (Js.intLt _ _); discriminate|].
      destruct (Js.includes t "h"); [destruct (Js.intLt _ _); discriminate|].
      destruct (Js.includes t "d"); [discriminate|].
      destruct (Js.includes t "w"); discriminate.
    + intros ->. reflexivity.
    + intros -> ->. destruct (Js.intLt _ _); reflexivity.
    + intros -> -> ->. destruct (Js.intLt _ _); reflexivity.
    + intros -> -> ->. reflexivity.
  - apply count_groupRows.
  - intros g. split; [apply highestCount_max|apply mostlySeconds_iff].
  - reflexivity.
  - reflexivity.
  - reflexivity.
  - intros script config page st Hages.
    pose proof (evalRow_cases script config page st) as H. cbv zeta in H.
    destruct (evalRow script config page st) as [st' [|[]|s]]; simpl; trivial;
      rewrite Hages in H; vm_compute Timing.mostlySeconds in H; intuition discriminate.
Qed.

(** A row with the example ages and metrics above both thresholds: it
    does not get past the timing gate. *)
Lemma C6_timing_classifier_witness :
  tradeAges examplePage = exampleAges
  /\ match snd (evalRow Production defaultConfig examplePage closedState) with
     | Accepted | Skipped TabNotFound | Skipped TooFewRows | Skipped TooManyZeros => False
     | _ => True
     end.
Proof.
  split; [reflexivity|].
  exact (proj2 (proj2 (proj2 (proj2 (proj2 (proj2 C6_timing_classifier)))))
           Production defaultConfig examplePage closedState eq_refl).
Defined.

Example examplePage_outcome :
  snd (evalRow Production defaultConfig examplePage closedState) = Skipped MostlySeconds.
Proof. vm_compute. reflexivity. Qed.

(** C9.  A text that contains "s" is counted in the seconds bucket and
    in no other, whatever else it contains: the test for "s" comes first
    in the chain.  "45 mins" and "3 days" are counted as seconds. *)
Theorem C9_seconds_first (t : string) (g : Timing.timeGroups) :
  Js.includes t "s" = true ->
  Timing.bucketOf (Timing.trimmedText (Some t)) = Some Timing.Seconds
  /\ Timing.count (Timing.groupRow g (Some t)) Timing.Seconds
     = S (Timing.count g Timing.Seconds)
  /\ (forall b, b <> Timing.Seconds ->
        Timing.count (Timing.groupRow g (Some t)) b = Timing.count g b)
  /\ Timing.bucketOf "45 mins" = Some Timing.Seconds
  /\ Timing.bucketOf "3 days" = Some Timing.Seconds.
Proof.
  intros Hs.
  assert (Hb : Timing.bucketOf (Timing.trimmedText (Some t)) = Some Timing.Seconds).
  { apply bucketOf_s. simpl. rewrite includes_trim; [assumption|reflexivity]. }
  split; [exact Hb|]. split; [|split; [|split; reflexivity]].
  - rewrite count_groupRow. unfold Timing.inBucket. rewrite bool_decide_true by assumption. lia.
  - intros b Hne. rewrite count_groupRow. unfold Timing.inBucket.
    rewrite bool_decide_false by congruence. lia.
Qed.

Lemma C9_seconds_first_witness :
  Js.includes "45 mins" "s" = true
  /\ Timing.count (Timing.groupRow Timing.emptyGroups (Some "45 mins")) Timing.Seconds = 1%nat
  /\ Timing.count (Timing.groupRow Timing.emptyGroups (Some "45 mins")) Timing.MoreThan30m = 0%nat.
Proof.
  pose proof (C9_seconds_first "45 mins" Timing.emptyGroups eq_refl) as (_ & H1 & H2 & _).
  split; [reflexivity|]. split; [exact H1|].
  apply (H2 Timing.MoreThan30m). discriminate.
Defined.

(** C10.  When no text of the trade table is classified (the table is
    empty or every text falls through the chain), every bucket count is
    0, the dominant-seconds signal is false, and the row is not rejected
    at the timing gate. *)
Theorem C10_nothing_classified (spanTexts : list (option string)) :
  Forall (fun spanText => Timing.bucketOf (Timing.trimmedText spanText) = None) spanTexts ->
  (forall b, Timing.count (Timing.groupRows spanTexts) b = 0%nat)
  /\ Timing.highestCount (Timing.groupRows spanTexts) = 0%nat
  /\ Timing.mostlySeconds (Timing.groupRows spanTexts) = false
  /\ (forall (script : Script) (config : Config) (page : Page) (st : State),
        tradeAges page = spanTexts ->
        snd (evalRow script config page st) <> Skipped MostlySeconds).
Proof.
  intros Hnone.
  assert (Hcount : forall b, Timing.count (Timing.groupRows spanTexts) b = 0%nat).
  { intros b. rewrite count_groupRows.
    induction Hnone as [|t rest Ht _ IH]; [reflexivity|].
    simpl. unfold Timing.inBucket at 1. rewrite Ht.
    rewrite bool_decide_false by discriminate. exact IH. }
  assert (Hhigh : Timing.highestCount (Timing.groupRows spanTexts) = 0%nat).
  { rewrite highestCount_max. unfold Timing.otherBuckets. cbn [map list_max fold_right].
    rewrite !Hcount. reflexivity. }
  assert (Hsig : Timing.mostlySeconds (Timing.groupRows spanTexts) = false).
  { unfold Timing.mostlySeconds. rewrite Hhigh.
    change (length (Timing.seconds (Timing.groupRows spanTexts)))
      with (Timing.count (Timing.groupRows spanTexts) Timing.Seconds).
    rewrite Hcount. reflexivity. }
  repeat split; try assumption.
  intros script config page st Hages Hout.
  pose proof (evalRow_cases script config page st) as H. cbv zeta in H.
  destruct (evalRow script config page st) as [st' o]. simpl in Hout. subst o.
  rewrite Hages in H. destruct H as (_ & _ & _ & H). congruence.
Qed.

(** The empty trade table and a table of unclassifiable texts. *)
Lemma C10_nothing_classified_witness :
  Timing.mostlySeconds (Timing.groupRows []) = false
  /\ Timing.mostlySeconds (Timing.groupRows [Some "n/a"; None; Some " 12 "]) = false.
Proof.
  split.
  - exact (proj1 (proj2 (proj2 (C10_nothing_classified [] ltac:(constructor))))).
  - refine (proj1 (proj2 (proj2 (C10_nothing_classified [Some "n/a"; None; Some " 12 "] _)))).
    repeat constructor.
Defined.

(** ** The claims on the gates *)

Section GateFacts.

Lemma le_zero_unsigned (x : Js.number) :
  Js.signBit x = false -> Js.le x Js.zero = true -> x = Js.zero.
Proof.
  destruct x as [[]|[]| |[] m e]; simpl; intros Hs Hle;
    try discriminate Hs; try discriminate Hle; reflexivity.
Qed.

(** With a zero spend the quotient is +Infinity or NaN. *)
Lemma roi_zero_spend (revenue : Js.number) :
  Js.signBit revenue = false ->
  Gates.roi revenue Js.zero = Js.Infinity \/ Gates.roi revenue Js.zero = Js.NaN.
Proof.
  destruct revenue as [[]|[]| |[] m e]; simpl; intros Hs; try discriminate Hs;
    [right|left|right|left]; reflexivity.
Qed.

Lemma modalOpen_countRow (script : Script) (page : Page) (st : State) :
  modalOpen (countRow script page st) = modalOpen st.
Proof. unfold countRow. destruct (isProduction script); reflexivity. Qed.

End GateFacts.

(** C2, as amended.  The ROI gate computes (revenue - spend) / spend x
    100 in binary64 arithmetic and rejects the row exactly when that
    number is below the minimum ROI: a row rejected at the gate has a ROI
    below it, and a row that gets past the gate has not.  The division
    raises nothing: with a spend that is not positive, the ROI of the
    parsed metrics is +Infinity or NaN and the gate lets the row pass.
    Revenue 150 and spend 100 give a ROI of 50. *)
Theorem C2_roi_gate :
  (forall (script : Script) (config : Config) (page : Page) (st : State),
     let roi := Gates.roi (Parser.parseDollars (revenueText page))
                          (Parser.parseDollars (spentText page)) in
     match snd (evalRow script config page st) with
     | Skipped RoiTooLow => Js.lt roi (MIN_ROI config) = true
     | Accepted | Skipped MostlySeconds | Skipped TabNotFound
     | Skipped TooFewRows | Skipped TooManyZeros => Js.lt roi (MIN_ROI config) = false
     | _ => True
     end)
  /\ (forall (revenueText spentText : option string) (minRoi : Js.number),
        Js.le (Parser.parseDollars spentText) Js.zero = true ->
        let roi := Gates.roi (Parser.parseDollars revenueText) (Parser.parseDollars spentText) in
        (roi = Js.Infinity \/ roi = Js.NaN)
        /\ Gates.roiTooLow (Parser.parseDollars revenueText) (Parser.parseDollars spentText)
                           minRoi = false)
  /\ Gates.roi (Js.ofZ 150) (Js.ofZ 100) = Js.ofZ 50.
Proof.
  split; [|split].
  - intros script config page st.
    pose proof (evalRow_cases script config page st) as H. cbv zeta in *.
    unfold Gates.roiTooLow in H.
    destruct (evalRow script config page st) as [st' [|[]|s]]; simpl; trivial; tauto.
  - intros revenueText spentText minRoi Hle. cbv zeta.
    rewrite (le_zero_unsigned _ (parseDollars_sign spentText) Hle).
    unfold Gates.roiTooLow.
    destruct (roi_zero_spend _ (parseDollars_sign revenueText)) as [-> | ->].
    + split; [left; reflexivity|apply lt_Infinity_l].
    + split; [right; reflexivity|apply lt_NaN_l].
  - vm_compute. reflexivity.
Qed.

Lemma C2_roi_gate_witness :
  Js.le (Parser.parseDollars (Some "0")) Js.zero = true
  /\ Gates.roiTooLow (Parser.parseDollars (Some "150")) (Parser.parseDollars (Some "0"))
                     (Js.ofZ 2000) = false.
Proof.
  split; [reflexivity|].
  exact (proj2 (proj1 (proj2 C2_roi_gate) (Some "150") (Some "0") (Js.ofZ 2000) eq_refl)).
Defined.

(** C2 as the specification states it fails: a spend of 0 is not
    rejected.  The gate lets revenue 150 with spend 0 pass, and the
    production script accepts a wallet whose spend reads "0". *)
Lemma C2_zero_spend_not_rejected :
  ~ (forall revenue spent minRoi : Js.number,
       Js.le spent Js.zero = true -> Gates.roiTooLow revenue spent minRoi = true)
  /\ Gates.roi (Js.ofZ 150) Js.zero = Js.Infinity
  /\ snd (evalRow Production defaultConfig (withSpentText oldTradesPage (Some "0")) closedState)
     = Accepted.
Proof.
  split; [|split; vm_compute; reflexivity].
  intros H. specialize (H (Js.ofZ 150) Js.zero (Js.ofZ 2000) eq_refl).
  vm_compute in H. discriminate H.
Qed.

(** ** The claims on the counter and the modal *)

(** C3, as amended.  In the production script the evaluation counter is
    incremented exactly once, through a read of the stats document and a
    write of the incremented record, for every row that is accepted or
    skipped for a missing Solscan link, a missing cell under the link, a
    low PnL, a low ROI, dominant seconds, too few most-profitable rows or
    too many zeros; it is left alone by a row that is never found; and no
    row increments it more than once.  When the write goes through, the
    document holds the old count plus one. *)
Theorem C3_counter (config : Config) (page : Page) (st : State) :
  let incremented := Store.incrementPortfoliosChecked (statsWriteFails page) (statsFile st) in
  (statsWriteFails page = false ->
   incremented = Some {| Store.portfoliosChecked :=
                           Store.portfoliosChecked (Store.loadStats (statsFile st)) + 1 |})
  /\ match evalRow Production config page st with
     | (st', Accepted)
     | (st', Skipped NoSolscanLink) | (st', Skipped NoDivUnderLink)
     | (st', Skipped PnlTooLow) | (st', Skipped RoiTooLow) | (st', Skipped MostlySeconds)
     | (st', Skipped TooFewRows) | (st', Skipped TooManyZeros) =>
         statsFile st' = incremented
     | (st', Skipped RowNotFound) => statsFile st' = statsFile st
     | (st', _) => statsFile st' = statsFile st \/ statsFile st' = incremented
     end.
Proof.
  cbv zeta. split.
  - intros Hw. unfold Store.incrementPortfoliosChecked, Store.saveStats. rewrite Hw. reflexivity.
  - pose proof (evalRow_cases Production config page st) as H. cbv zeta in H.
    destruct (evalRow Production config page st) as [st' [|[]|s]];
      try (destruct H as [-> _]; reflexivity); try (destruct H as [-> _]; left; reflexivity).
    destruct H as (_ & [-> | [-> | [-> | ->]]]); auto.
Qed.

Lemma C3_counter_witness :
  statsWriteFails examplePage = false
  /\ Store.incrementPortfoliosChecked (statsWriteFails examplePage) (statsFile closedState)
     = Some {| Store.portfoliosChecked := 1 |}.
Proof.
  split; [reflexivity|].
  exact (proj1 (C3_counter defaultConfig examplePage closedState) eq_refl).
Defined.

(** C3 as the specification states it fails: a row that lacks its
    Solscan link, whose evaluation stops before any metric is read, is
    counted. *)
Lemma C3_row_without_link_is_counted :
  ~ (forall (config : Config) (page : Page) (st : State),
       snd (evalRow Production config page st) = Skipped NoSolscanLink ->
       statsFile (fst (evalRow Production config page st)) = statsFile st).
Proof.
  intros H.
  specialize (H defaultConfig (withSolscanLinks examplePage 0) closedState eq_refl).
  vm_compute in H. discriminate H.
Qed.

(** The row loop preserves a closed modal as long as no iteration ends in
    the handler. *)
Lemma rowLoop_modal (script : Script) (config : Config) (pages : Z -> Page)
    (remaining : nat) (rowNumber : Z) (st : State) :
  (forall page st0, modalOpen st0 = false ->
     match evalRow script config page st0 with
     | (st', Failed _) => True
     | (st', _) => modalOpen st' = false
     end) ->
  modalOpen st = false ->
  Forall (fun entry => forall s, snd entry <> Failed s)
         (snd (rowLoop script config pages remaining rowNumber st)) ->
  modalOpen (fst (rowLoop script config pages remaining rowNumber st)) = false.
Proof.
  intros Hrow. revert rowNumber st.
  induction remaining as [|remaining IH]; intros rowNumber st Hclosed Hlog; simpl in *.
  - assumption.
  - specialize (Hrow (pages rowNumber) st Hclosed).
    destruct (evalRow script config (pages rowNumber) st) as [st' outcome].
    specialize (IH (rowNumber + 1) st').
    destruct outcome as [|[]|s];
      try (destruct (rowLoop script config pages remaining (rowNumber + 1) st')
             as [st2 log]; simpl in *;
           inversion Hlog as [|entry rest Hhead Htail]; subst;
           solve [apply IH; assumption | exfalso; apply (Hhead s); reflexivity]).
    simpl. assumption.
Qed.

(** C4, as amended.  On every exit path of a row's evaluation that is
    not an exception -- the row accepted, or skipped by any [break] or
    [continue] -- the wallet modal is closed when control returns to the
    loop; hence, as long as no iteration ends in the loop's handler, no
    modal is open at the top of an iteration. *)
Theorem C4_modal_closed :
  (forall (script : Script) (config : Config) (page : Page) (st : State),
     modalOpen st = false ->
     match evalRow script config page st with
     | (st', Failed _) => True
     | (st', _) => modalOpen st' = false
     end)
  /\ (forall (script : Script) (config : Config) (pages : Z -> Page)
        (remaining : nat) (rowNumber : Z) (st : State),
        modalOpen st = false ->
        Forall (fun entry => forall s, snd entry <> Failed s)
               (snd (rowLoop script config pages remaining rowNumber st)) ->
        modalOpen (fst (rowLoop script config pages remaining rowNumber st)) = false).
Proof.
  assert (Hrow : forall script config page st, modalOpen st = false ->
            match evalRow script config page st with
            | (st', Failed _) => True
            | (st', _) => modalOpen st' = false
            end).
  { intros script config page st Hclosed.
    pose proof (evalRow_cases script config page st) as H. cbv zeta in H.
    destruct (evalRow script config page st) as [st' [|[]|s]]; trivial;
      destruct H as [-> _]; rewrite ?modalOpen_countRow; try assumption; reflexivity. }
  split; [exact Hrow|].
  intros script config pages remaining rowNumber st. apply rowLoop_modal. apply Hrow.
Qed.

Lemma C4_modal_closed_witness :
  modalOpen closedState = false
  /\ modalOpen (fst (evalRow Production defaultConfig examplePage closedState)) = false.
Proof.
  split; [reflexivity|].
  exact (proj1 C4_modal_closed Production defaultConfig examplePage closedState eq_refl).
Defined.

(** C4 as the specification states it fails: when the revenue of the
    opened wallet never shows, the handler of the row loop takes over and
    the modal stays open. *)
Lemma C4_modal_left_open_by_handler :
  ~ (forall (script : Script) (config : Config) (page : Page) (st : State),
       modalOpen st = false -> modalOpen (fst (evalRow script config page st)) = false)
  /\ evalRow Production defaultConfig (withThrows examplePage revenueTimeout) closedState
     = ({| modalOpen := true; statsFile := None; portfoliosFile := None |}, Failed WaitRevenue).
Proof.
  split; [|vm_compute; reflexivity].
  intros H.
  specialize (H Production defaultConfig (withThrows examplePage revenueTimeout) closedState
                eq_refl).
  vm_compute in H. discriminate H.
Qed.

(** ** The claims on the thresholds and on the scroll loop *)

Section ThresholdFacts.

Lemma extractPnl_val (script : Script) (page : Page) (st st1 : State)
    (metrics : Js.number * Js.number) :
  extractPnl script page st = (st1, Val metrics) ->
  metrics = (Parser.parseDollars (revenueText page), Parser.parseDollars (pnlText page)).
Proof.
  rewrite run_bind_ret. row_unfold.
  repeat row_step; unfold ret; intros [= ]; subst; reflexivity.
Qed.

(** The minimum PnL enters a row iteration through the PnL gate only. *)
Lemma evalRow_min_pnl (script : Script) (c1 c2 : Config) (page : Page) (st : State) :
  MIN_ROI c1 = MIN_ROI c2 ->
  Gates.pnlTooLow (Parser.parseDollars (pnlText page)) (MIN_PNL c1)
  = Gates.pnlTooLow (Parser.parseDollars (pnlText page)) (MIN_PNL c2) ->
  evalRow script c1 page st = evalRow script c2 page st.
Proof.
  intros Hroi Hpnl. unfold evalRow, rowBody.
  destruct (extractPnl script page st) as [st1 [metrics|why|s]] eqn:E.
  - rewrite !(bind_val _ _ _ _ _ E). rewrite (extractPnl_val _ _ _ _ _ E). cbn [fst snd].
    unfold pnlGate, afterPnlGate, roiGate. rewrite Hpnl, Hroi. reflexivity.
  - rewrite !(bind_jumped _ _ _ _ _ E). reflexivity.
  - rewrite !(bind_thrown _ _ _ _ _ E). reflexivity.
Qed.

(** A row whose PnL is below the minimum is skipped at the PnL gate as
    soon as its metrics are read and the close button answers. *)
Lemma evalRow_pnl_too_low (script : Script) (config : Config) (page : Page)
    (st st1 : State) (metrics : Js.number * Js.number) :
  extractPnl script page st = (st1, Val metrics) ->
  throws page ClickClose = false ->
  Gates.pnlTooLow (Parser.parseDollars (pnlText page)) (MIN_PNL config) = true ->
  snd (evalRow script config page st) = Skipped PnlTooLow.
Proof.
  intros E Hclose Hlow. unfold evalRow, rowBody.
  rewrite (bind_val _ _ _ _ _ E). rewrite (extractPnl_val _ _ _ _ _ E). cbn [fst snd].
  unfold pnlGate. rewrite Hlow. row_unfold.
  repeat row_step; [congruence|reflexivity].
Qed.

Lemma accepted_extractPnl (script : Script) (config : Config) (page : Page) (st : State) :
  snd (evalRow script config page st) = Accepted ->
  exists st1 metrics, extractPnl script page st = (st1, Val metrics).
Proof.
  unfold evalRow, rowBody.
  destruct (extractPnl script page st) as [st1 [metrics|why|s]] eqn:E.
  - intros _. exists st1, metrics. reflexivity.
  - rewrite (bind_jumped _ _ _ _ _ E). discriminate.
  - rewrite (bind_thrown _ _ _ _ _ E). discriminate.
Qed.

End ThresholdFacts.

(** C7.  With the page fixed (revenue, spend, trade ages and
    profitability sample included), acceptance is antitone in MIN_PNL: a
    row accepted under one minimum is rejected at the PnL gate under any
    minimum above its PnL, and a row that is not accepted under one
    minimum is not accepted under a higher one. *)
Theorem C7_min_pnl_antitone (script : Script) (config : Config) (page : Page) (st : State)
    (minPnl : Js.number) :
  (snd (evalRow script config page st) = Accepted ->
   Js.lt (Parser.parseDollars (pnlText page)) minPnl = true ->
   snd (evalRow script (withMinPnl config minPnl) page st) = Skipped PnlTooLow)
  /\ (Js.le (MIN_PNL config) minPnl = true ->
      snd (evalRow script config page st) <> Accepted ->
      snd (evalRow script (withMinPnl config minPnl) page st) <> Accepted).
Proof.
  split.
  - intros Hacc Hlow.
    destruct (accepted_extractPnl _ _ _ _ Hacc) as (st1 & metrics & E).
    pose proof (evalRow_cases script config page st) as H. cbv zeta in H.
    destruct (evalRow script config page st) as [st' o]. simpl in Hacc. subst o.
    destruct H as (_ & _ & _ & _ & Hclose).
    exact (evalRow_pnl_too_low script (withMinPnl config minPnl) page st st1 metrics
             E Hclose Hlow).
  - intros Hle Hrej Hacc. apply Hrej.
    pose proof (evalRow_cases script (withMinPnl config minPnl) page st) as H. cbv zeta in H.
    destruct (evalRow script (withMinPnl config minPnl) page st) as [st' o] eqn:E.
    simpl in Hacc. subst o. destruct H as (_ & Hpass & _). simpl in Hpass.
    assert (Hsame : Gates.pnlTooLow (Parser.parseDollars (pnlText page)) (MIN_PNL config)
                    = Gates.pnlTooLow (Parser.parseDollars (pnlText page)) minPnl).
    { rewrite Hpass. unfold Gates.pnlTooLow in *.
      destruct (Js.lt _ (MIN_PNL config)) eqn:Hlow; [|reflexivity].
      rewrite (lt_le_trans _ _ _ Hlow Hle) in Hpass. discriminate. }
    rewrite (evalRow_min_pnl script config (withMinPnl config minPnl) page st eq_refl Hsame).
    rewrite E. reflexivity.
Qed.

(** The accepted wallet, whose PnL reads $80M, under a minimum of 25,000
    and then of 90,000,000. *)
Lemma C7_min_pnl_antitone_witness :
  snd (evalRow Production defaultConfig oldTradesPage closedState) = Accepted
  /\ Js.lt (Parser.parseDollars (pnlText oldTradesPage)) (Js.ofZ 90000000) = true
  /\ snd (evalRow Production (withMinPnl defaultConfig (Js.ofZ 90000000)) oldTradesPage closedState)
     = Skipped PnlTooLow.
Proof.
  split; [vm_compute; reflexivity|]. split; [vm_compute; reflexivity|].
  exact (proj1 (C7_min_pnl_antitone Production defaultConfig oldTradesPage closedState
                  (Js.ofZ 90000000))
               ltac:(vm_compute; reflexivity) ltac:(vm_compute; reflexivity)).
Defined.

(** With a row that never materializes, the scroll loop ends at its
    bound when none of its scroll calls throws, and at the first one that
    throws otherwise. *)
Lemma scrollLoop_never_present (page : Page) (max : nat) :
  (forall n, rowPresentAfter page n = false) ->
  match scrollLoop page max false 0 with
  | ScrollDone found scrollAttempts =>
      found = false /\ scrollAttempts = max
      /\ forall i, (i < max)%nat -> throws page (Scroll i) = false
  | ScrollThrew attempt =>
      (attempt < max)%nat /\ throws page (Scroll attempt) = true
      /\ forall i, (i < attempt)%nat -> throws page (Scroll i) = false
  end.
Proof.
  intros Hnever.
  pose proof (scrollLoop_least page max false 0 ltac:(lia) eq_refl) as H.
  destruct (scrollLoop page max false 0) as [[|] k|k].
  - destruct H as (_ & H & _). rewrite Hnever in H. discriminate.
  - destruct H as [-> H]. repeat split. intros i Hi. apply H. lia.
  - destruct H as (H1 & H2 & _ & H3). repeat split; try assumption.
    intros i Hi. apply H3. lia.
Qed.

Lemma scrollLoop_first_throw (page : Page) (max k : nat) :
  (forall n, rowPresentAfter page n = false) ->
  throws page (Scroll k) = true ->
  (forall i, (i < k)%nat -> throws page (Scroll i) = false) ->
  (k < max)%nat ->
  scrollLoop page max false 0 = ScrollThrew k.
Proof.
  intros Hnever Hk Hbefore Hlt.
  pose proof (scrollLoop_never_present page max Hnever) as H.
  destruct (scrollLoop page max false 0) as [found n|n].
  - destruct H as (_ & _ & H). rewrite (H k Hlt) in Hk. discriminate.
  - destruct H as (H1 & H2 & H3).
    destruct (Nat.lt_trichotomy n k) as [Hnk|[->|Hkn]]; [|reflexivity|].
    + rewrite (Hbefore n Hnk) in H2. discriminate.
    + rewrite (H3 k Hkn) in Hk. discriminate.
Qed.

(** What the row iteration makes of the end of the scroll loop. *)
Lemma evalRow_scrollLoop (script : Script) (config : Config) (page : Page) (st : State) :
  match scrollLoop page (maxScrollAttempts script) false 0 with
  | ScrollDone true _ => True
  | ScrollDone false _ => evalRow script config page st = (st, Skipped RowNotFound)
  | ScrollThrew attempt => evalRow script config page st = (st, Failed (Scroll attempt))
  end.
Proof.
  destruct (scrollLoop page (maxScrollAttempts script) false 0) as [[|] n|n] eqn:E;
    [exact I| |]; unfold evalRow, rowBody, extractPnl; rewrite !bind_bind.
  - assert (F : findRow script page st = (st, Jump RowNotFound)).
    { unfold findRow. rewrite E. reflexivity. }
    rewrite (bind_jumped _ _ _ _ _ F). reflexivity.
  - assert (F : findRow script page st = (st, Throw (Scroll n))).
    { unfold findRow. rewrite E. reflexivity. }
    rewrite (bind_thrown _ _ _ _ _ F). reflexivity.
Qed.

(** C8.  The progressive scroll loop is a total function that never
    makes more scroll attempts than its bound, 5 in the production script
    and 20 in the exploratory one.  When the target row never
    materializes and no scroll call throws, it makes exactly that many
    attempts and the row iteration ends with "row not found", which
    leaves the state alone and breaks the row loop.  When the target row
    never materializes and a scroll call throws, the loop ends at the
    first such call, the row iteration ends in the handler of the row
    loop with the state left alone, and the row loop goes on to the next
    row.  A row that never materializes has no other outcome. *)
Theorem C8_scroll_bounded :
  (forall (page : Page) (max : nat),
     match scrollLoop page max false 0 with
     | ScrollDone _ scrollAttempts => (scrollAttempts <= max)%nat
     | ScrollThrew attempt => (attempt < max)%nat
     end)
  /\ (forall (page : Page),
        (forall n, rowPresentAfter page n = false) ->
        (forall n, throws page (Scroll n) = false) ->
        (forall max, scrollLoop page max false 0 = ScrollDone false max)
        /\ (forall script config st,
              evalRow script config page st = (st, Skipped RowNotFound)))
  /\ maxScrollAttempts Production = 5%nat
  /\ maxScrollAttempts Exploratory = 20%nat
  /\ (forall (script : Script) (config : Config) (pages : Z -> Page)
        (remaining : nat) (rowNumber : Z) (st : State),
        (forall n, rowPresentAfter (pages rowNumber) n = false) ->
        (forall n, throws (pages rowNumber) (Scroll n) = false) ->
        rowLoop script config pages (S remaining) rowNumber st
        = (st, [(rowNumber, Skipped RowNotFound)]))
  /\ (forall (page : Page) (k : nat),
        (forall n, rowPresentAfter page n = false) ->
        throws page (Scroll k) = true ->
        (forall i, (i < k)%nat -> throws page (Scroll i) = false) ->
        (forall max, (k < max)%nat -> scrollLoop page max false 0 = ScrollThrew k)
        /\ (forall max, (max <= k)%nat -> scrollLoop page max false 0 = ScrollDone false max)
        /\ (forall script config st,
              (k < maxScrollAttempts script)%nat ->
              evalRow script config page st = (st, Failed (Scroll k))))
  /\ (forall (script : Script) (config : Config) (pages : Z -> Page)
        (remaining : nat) (rowNumber : Z) (st : State) (k : nat),
        (forall n, rowPresentAfter (pages rowNumber) n = false) ->
        throws (pages rowNumber) (Scroll k) = true ->
        (forall i, (i < k)%nat -> throws (pages rowNumber) (Scroll i) = false) ->
        (k < maxScrollAttempts script)%nat ->
        rowLoop script config pages (S remaining) rowNumber st
        = (fst (rowLoop script config pages remaining (rowNumber + 1) st),
           (rowNumber, Failed (Scroll k))
           :: snd (rowLoop script config pages remaining (rowNumber + 1) st)))
  /\ (forall (script : Script) (config : Config) (page : Page) (st : State),
        (forall n, rowPresentAfter page n = false) ->
        fst (evalRow script config page st) = st
        /\ (snd (evalRow script config page st) = Skipped RowNotFound
            \/ exists k, (k < maxScrollAttempts script)%nat
                         /\ throws page (Scroll k) = true
                         /\ snd (evalRow script config page st) = Failed (Scroll k))).
Proof.
  assert (Hloop : forall page, (forall n, rowPresentAfter page n = false) ->
            (forall n, throws page (Scroll n) = false) ->
            forall max, scrollLoop page max false 0 = ScrollDone false max).
  { intros page Hnever Hscroll max.
    pose proof (scrollLoop_cases page max false 0 ltac:(lia)) as H.
    destruct (scrollLoop page max false 0) as [[|] n|n].
    - destruct H as (_ & _ & H). destruct (H eq_refl) as [H'|H']; [discriminate|].
      rewrite Hnever in H'. discriminate.
    - destruct H as (_ & H & _). destruct (H eq_refl) as (_ & -> & _). reflexivity.
    - destruct H as [_ H]. rewrite Hscroll in H. discriminate. }
  assert (Hrow : forall page, (forall n, rowPresentAfter page n = false) ->
            (forall n, throws page (Scroll n) = false) ->
            forall script config st, evalRow script config page st = (st, Skipped RowNotFound)).
  { intros page Hnever Hscroll script config st.
    unfold evalRow, rowBody, extractPnl. rewrite !bind_bind.
    assert (E : findRow script page st = (st, Jump RowNotFound)).
    { unfold findRow. rewrite (Hloop page Hnever Hscroll). reflexivity. }
    rewrite (bind_jumped _ _ _ _ _ E). reflexivity. }
  assert (Hthrow : forall page k, (forall n, rowPresentAfter page n = false) ->
            throws page (Scroll k) = true ->
            (forall i, (i < k)%nat -> throws page (Scroll i) = false) ->
            forall script config st, (k < maxScrollAttempts script)%nat ->
            evalRow script config page st = (st, Failed (Scroll k))).
  { intros page k Hnever Hk Hbefore script config st Hlt.
    pose proof (evalRow_scrollLoop script config page st) as H.
    rewrite (scrollLoop_first_throw page _ k Hnever Hk Hbefore Hlt) in H. exact H. }
  split; [|split; [|split; [|split; [|split; [|split; [|split]]]]]].
  - intros page max. pose proof (scrollLoop_cases page max false 0 ltac:(lia)) as H.
    destruct (scrollLoop page max false 0); lia.
  - intros page Hnever Hscroll. split; [apply Hloop|apply Hrow]; assumption.
  - reflexivity.
  - reflexivity.
  - intros script config pages remaining rowNumber st Hnever Hscroll.
    simpl. rewrite (Hrow _ Hnever Hscroll). reflexivity.
  - intros page k Hnever Hk Hbefore. split; [|split].
    + intros max Hlt. now apply scrollLoop_first_throw.
    + intros max Hle. pose proof (scrollLoop_never_present page max Hnever) as H.
      destruct (scrollLoop page max false 0) as [found n|n].
      * destruct H as (-> & -> & _). reflexivity.
      * destruct H as (H1 & H2 & _). rewrite (Hbefore n ltac:(lia)) in H2. discriminate.
    + intros script config st Hlt. now apply Hthrow.
  - intros script config pages remaining rowNumber st k Hnever Hk Hbefore Hlt.
    cbn [rowLoop]. rewrite (Hthrow _ k Hnever Hk Hbefore script config st Hlt).
    destruct (rowLoop script config pages remaining (rowNumber + 1) st) as [st' log].
    reflexivity.
  - intros script config page st Hnever.
    pose proof (evalRow_scrollLoop script config page st) as H.
    pose proof (scrollLoop_never_present page (maxScrollAttempts script) Hnever) as Hend.
    destruct (scrollLoop page (maxScrollAttempts script) false 0) as [[|] n|n].
    + destruct Hend as [Hend _]. discriminate.
    + rewrite H. split; [reflexivity|]. left. reflexivity.
    + rewrite H. split; [reflexivity|]. right. exists n.
      destruct Hend as (H1 & H2 & _). repeat split; assumption.
Qed.

(** Row 500 of a table of which only 50 rows ever materialize, with
    scroll calls that go through and with scroll calls that throw. *)
Lemma C8_scroll_bounded_witness :
  scrollLoop (withRowPresentAfter examplePage (fun _ => false)) 5 false 0 = ScrollDone false 5
  /\ scrollLoop (withRowPresentAfter examplePage (fun _ => false)) 20 false 0
     = ScrollDone false 20
  /\ evalRow Production defaultConfig (withRowPresentAfter examplePage (fun _ => false))
       closedState
     = (closedState, Skipped RowNotFound)
  /\ evalRow Production defaultConfig lostPage closedState
     = (closedState, Failed (Scroll 0)).
Proof.
  pose proof (proj1 (proj2 C8_scroll_bounded)
                (withRowPresentAfter examplePage (fun _ => false))
                (fun _ => eq_refl) (fun _ => eq_refl)) as [Hloop Hrow].
  split; [apply Hloop|]. split; [apply Hloop|]. split; [apply Hrow|].
  apply (proj2 (proj2 (proj1 (proj2 (proj2 (proj2 (proj2 (proj2 C8_scroll_bounded)))))
                         lostPage 0%nat (fun _ => eq_refl) eq_refl
                         (fun i (H : (i < 0)%nat) => match Nat.nlt_0_r i H with end)))).
  simpl. lia.
Defined.

(** The row never materializes and the first scroll call throws: the
    loop stops after no attempt at all, nothing signals "row not found",
    and the row loop goes on with the rows that follow. *)
Lemma C8_scroll_throw_is_not_row_not_found :
  ~ (forall (script : Script) (config : Config) (page : Page) (st : State),
       (forall n, rowPresentAfter page n = false) ->
       snd (evalRow script config page st) = Skipped RowNotFound)
  /\ scrollLoop lostPage (maxScrollAttempts Production) false 0 = ScrollThrew 0
  /\ evalRow Production defaultConfig lostPage closedState = (closedState, Failed (Scroll 0))
  /\ rowLoop Production defaultConfig (fun _ => lostPage) 3 3 closedState
     = (closedState, [(3, Failed (Scroll 0)); (4, Failed (Scroll 0)); (5, Failed (Scroll 0))]).
Proof.
  split; [|vm_compute; repeat split; reflexivity].
  intros H.
  specialize (H Production defaultConfig lostPage closedState (fun _ => eq_refl)).
  vm_compute in H. discriminate H.
Qed.

(** ** The claim on the processed-token set *)

Section ProcessedTokens.

Lemma has_In (tokens : list string) (name : string) :
  Store.has tokens name = true <-> In name tokens.
Proof.
  induction tokens as [|t rest IH]; simpl; [split; [discriminate|tauto]|].
  rewrite orb_true_iff, IH, String.eqb_eq. tauto.
Qed.

Lemma add_cases (tokens : list string) (name : string) :
  (In name tokens /\ Store.add tokens name = tokens)
  \/ (~ In name tokens /\ Store.add tokens name = (tokens ++ [name])%list).
Proof.
  unfold Store.add. destruct (Store.has tokens name) eqn:H.
  - left. split; [now apply has_In|reflexivity].
  - right. split; [|reflexivity]. intros Hin. apply has_In in Hin. congruence.
Qed.

Lemma add_In (tokens : list string) (name x : string) :
  In x (Store.add tokens name) <-> In x tokens \/ x = name.
Proof.
  destruct (add_cases tokens name) as [[Hin ->]|[Hin ->]].
  - split; [tauto|]. intros [H| ->]; assumption.
  - rewrite in_app_iff. simpl. intuition congruence.
Qed.

Lemma add_NoDup (tokens : list string) (name : string) :
  List.NoDup tokens -> List.NoDup (Store.add tokens name).
Proof.
  intros Hnd. destruct (add_cases tokens name) as [[Hin ->]|[Hin ->]]; [assumption|].
  apply List.NoDup_app; [assumption|repeat constructor; simpl; tauto|].
  intros x Hx [<-|[]]. contradiction.
Qed.

Lemma add_twice (tokens : list string) (name : string) :
  Store.add (Store.add tokens name) name = Store.add tokens name.
Proof.
  unfold Store.add at 1.
  assert (H : Store.has (Store.add tokens name) name = true).
  { apply has_In, add_In. right. reflexivity. }
  rewrite H. reflexivity.
Qed.

Lemma fold_add (array : list string) (acc : list string) :
  List.NoDup acc ->
  List.NoDup (fold_left Store.add array acc)
  /\ forall x, In x (fold_left Store.add array acc) <-> In x acc \/ In x array.
Proof.
  revert acc. induction array as [|a rest IH]; intros acc Hnd; simpl.
  - split; [assumption|]. intros x. tauto.
  - destruct (IH (Store.add acc a) (add_NoDup _ _ Hnd)) as [H1 H2].
    split; [assumption|]. intros x. rewrite H2, add_In. intuition congruence.
Qed.

(** Loading keeps the names of the document, each once. *)
Lemma loadProcessedTokens_spec (file : option (list string)) :
  List.NoDup (Store.loadProcessedTokens file)
  /\ forall x, In x (Store.loadProcessedTokens file) <-> In x (documentTokens file).
Proof.
  destruct file as [data|]; simpl.
  - destruct (fold_add data [] (List.NoDup_nil _)) as [H1 H2].
    split; [exact H1|]. intros x. unfold Store.newSet. rewrite H2. simpl. tauto.
  - split; [constructor|tauto].
Qed.

Lemma extends_refl (loaded : list string) : List.NoDup loaded -> extends loaded loaded.
Proof. intros H. split; [assumption|]. exists []. now rewrite app_nil_r. Qed.

Lemma extends_add (loaded tokens : list string) (name : string) :
  extends loaded tokens -> extends loaded (Store.add tokens name).
Proof.
  intros [Hnd [added ->]]. split; [now apply add_NoDup|].
  destruct (add_cases (loaded ++ added)%list name) as [[_ ->]|[_ ->]].
  - exists added. reflexivity.
  - exists (added ++ [name])%list. now rewrite app_assoc.
Qed.

Lemma extends_incl (loaded tokens : list string) :
  extends loaded tokens -> incl loaded tokens.
Proof. intros [_ [added ->]] x Hx. apply in_app_iff. left. assumption. Qed.

Variable script : Script.
Variable config : Config.
Variable loaded : list string.
Variable file : option (list string).

Lemma saveTokens_invariant (fails : bool) (r : Run) :
  runInvariant loaded file r -> runInvariant loaded file (saveTokens script fails r).
Proof.
  intros (Hset & Hsaved & Hfile). unfold saveTokens.
  destruct (isProduction script); [|exact (conj Hset (conj Hsaved Hfile))].
  split; [exact Hset|]. split; simpl.
  - apply Forall_app. split; [assumption|]. repeat constructor; apply Hset.
  - unfold Store.saveProcessedTokens. destruct fails; [assumption|].
    right. exists (processedTokenNames r). split; [reflexivity|assumption].
Qed.

Lemma tokenLoop_invariant (listings : nat -> Listing) (remaining tokenIndex : nat) (r : Run) :
  runInvariant loaded file r ->
  runInvariant loaded file (tokenLoop script config listings remaining tokenIndex r).
Proof.
  revert tokenIndex r.
  induction remaining as [|remaining IH]; intros tokenIndex r Hinv; simpl; [assumption|].
  destruct (listingThrows (listings tokenIndex)); [exact Hinv|].
  destruct (selectToken _ _) as [tokenName|]; [|assumption].
  match goal with
  | |- context [saveTokens script ?f ?r0] =>
      assert (H1 : runInvariant loaded file (saveTokens script f r0))
  end.
  { apply saveTokens_invariant. destruct Hinv as (Hset & Hsaved & Hfile).
    split; [|split; assumption]. simpl. now apply extends_add. }
  destruct (openThrows (listings tokenIndex)); [exact H1|].
  destruct (solscanAppears (listings tokenIndex));
    [|destruct (goBackThrows (listings tokenIndex)); [exact H1|apply IH; exact H1]].
  destruct (processRows _ _ _ _) as [st' log]. apply IH. exact H1.
Qed.

Lemma selectToken_fresh (names : list (option string)) (tokens : list string)
    (tokenName : string) :
  selectToken names tokens = Some tokenName ->
  In (Some tokenName) names /\ tokenName <> "" /\ ~ In tokenName tokens.
Proof.
  induction names as [|[n|] rest IH]; simpl; [discriminate| |].
  - destruct (negb (String.eqb n "")) eqn:Hn; simpl.
    + destruct (Store.has tokens n) eqn:Hh; simpl.
      * intros H. destruct (IH H) as (? & ? & ?). auto.
      * intros [= ->]. split; [now left|]. split.
        -- intros ->. discriminate Hn.
        -- intros Hin. apply has_In in Hin. congruence.
    + intros H. destruct (IH H) as (? & ? & ?). auto.
  - intros H. destruct (IH H) as (? & ? & ?). auto.
Qed.

End ProcessedTokens.

(** C5.  The processed-token set of the production script has set
    semantics and only grows.  Adding a name that is present changes
    nothing, so a name is never held twice; the token loop only selects
    names the set does not hold; the set at the end of a run has no
    duplicates and extends the set loaded at its start, as does every
    snapshot handed to [saveProcessedTokens]; the document after a run
    holds every name it held before the run; hence so does the document
    after a second run started from it. *)
Theorem C5_processed_tokens_grow :
  (forall (tokens : list string) (name : string),
     List.NoDup tokens ->
     List.NoDup (Store.add tokens name)
     /\ Store.add (Store.add tokens name) name = Store.add tokens name
     /\ incl tokens (Store.add tokens name)
     /\ In name (Store.add tokens name))
  /\ (forall (names : list (option string)) (tokens : list string) (tokenName : string),
        selectToken names tokens = Some tokenName -> ~ In tokenName tokens)
  /\ (forall (config : Config) (tokenRows : nat) (listings : nat -> Listing)
        (finalSaveFails : bool) (st : State) (file : option (list string)),
        let loaded := Store.loadProcessedTokens file in
        let run := main Production config tokenRows listings finalSaveFails st file in
        List.NoDup loaded
        /\ (forall x, In x loaded <-> In x (documentTokens file))
        /\ extends loaded (processedTokenNames run)
        /\ Forall (extends loaded) (saved run)
        /\ incl (documentTokens file) (documentTokens (processedFile run)))
  /\ (forall (config1 config2 : Config) (tokenRows1 tokenRows2 : nat)
        (listings1 listings2 : nat -> Listing) (fails1 fails2 : bool)
        (st1 st2 : State) (file : option (list string)),
        let run1 := main Production config1 tokenRows1 listings1 fails1 st1 file in
        let run2 := main Production config2 tokenRows2 listings2 fails2 st2
                         (processedFile run1) in
        incl (documentTokens file) (documentTokens (processedFile run1))
        /\ incl (documentTokens (processedFile run1)) (documentTokens (processedFile run2))).
Proof.
  assert (Hrun : forall config tokenRows listings finalSaveFails st file,
            let loaded := Store.loadProcessedTokens file in
            let run := main Production config tokenRows listings finalSaveFails st file in
            List.NoDup loaded
            /\ (forall x, In x loaded <-> In x (documentTokens file))
            /\ extends loaded (processedTokenNames run)
            /\ Forall (extends loaded) (saved run)
            /\ incl (documentTokens file) (documentTokens (processedFile run))).
  { intros config tokenRows listings finalSaveFails st file loaded run.
    destruct (loadProcessedTokens_spec file) as [Hnd Hin].
    assert (Hinv : runInvariant loaded file run).
    { unfold run, main. cbn [isProduction].
      match goal with
      | |- context [tokenLoop ?s ?c ?l ?n ?i ?r0] =>
          pose proof (tokenLoop_invariant s c loaded file l n i r0) as H;
          destruct (aborted (tokenLoop s c l n i r0))
      end.
      - apply H. split; [now apply extends_refl|]. split; [constructor|left; reflexivity].
      - apply saveTokens_invariant, H.
        split; [now apply extends_refl|]. split; [constructor|left; reflexivity]. }
    destruct Hinv as (Hset & Hsaved & Hfile).
    repeat split; try assumption; try apply Hin; try apply Hset.
    destruct Hfile as [-> | (snapshot & -> & Hsnap)]; [apply incl_refl|].
    intros x Hx. simpl. apply (extends_incl _ _ Hsnap), Hin, Hx. }
  split; [|split; [|split]].
  - intros tokens name Hnd. split; [now apply add_NoDup|]. split; [apply add_twice|].
    split; [intros x Hx; apply add_In; now left|apply add_In; now right].
  - intros names tokens tokenName H. apply (selectToken_fresh _ _ _ H).
  - exact Hrun.
  - intros. split; apply Hrun.
Qed.

(** A set that holds "SOL" already, and a listing that shows "WIF"
    first among the names the set lacks. *)
Lemma C5_processed_tokens_grow_witness :
  List.NoDup ["SOL"; "BONK"]
  /\ Store.add (Store.add ["SOL"; "BONK"] "SOL") "SOL" = Store.add ["SOL"; "BONK"] "SOL"
  /\ selectToken (names (exampleListing 0)) ["SOL"; "BONK"] = Some "WIF"
  /\ ~ In "WIF" ["SOL"; "BONK"].
Proof.
  assert (Hnd : List.NoDup ["SOL"; "BONK"]).
  { repeat constructor; simpl; intuition discriminate. }
  split; [exact Hnd|].
  split; [exact (proj1 (proj2 (proj1 C5_processed_tokens_grow ["SOL"; "BONK"] "SOL" Hnd)))|].
  split; [reflexivity|].
  exact (proj1 (proj2 C5_processed_tokens_grow) (names (exampleListing 0)) ["SOL"; "BONK"]
               "WIF" eq_refl).
Defined.

(** A run over a document that names "SOL" twice: the set is loaded
    without the duplicate, two new tokens are appended, and the document
    is overwritten after each. *)
Example main_processed_tokens :
  let run := main Production defaultConfig 3 exampleListing false closedState
                  (Some ["SOL"; "BONK"; "SOL"]) in
  processedTokenNames run = ["SOL"; "BONK"; "WIF"; "JUP"]
  /\ processedFile run = Some ["SOL"; "BONK"; "WIF"; "JUP"]
  /\ saved run = [["SOL"; "BONK"; "WIF"]; ["SOL"; "BONK"; "WIF"; "JUP"];
                  ["SOL"; "BONK"; "WIF"; "JUP"]]
  /\ aborted run = false.
Proof. vm_compute. repeat split. Qed.

(** Only the administrative clear empties the document. *)
Example clear_empties_document (file : option (list string)) :
  documentTokens (clearProcessedTokens file) = [].
Proof. reflexivity. Qed.

(** The end-to-end scenario: all four gates pass, the map gains the
    record under the portfolio id with a ROI of 300 and a PnL of
    1600000, and the counter goes from 7 to 8. *)
Example end_to_end_scenario :
  let st := {| modalOpen := false;
               statsFile := Some {| Store.portfoliosChecked := 7 |};
               portfoliosFile := Some ∅ |} in
  let '(st', outcome) := evalRow Production scenarioConfig scenarioPage st in
  outcome = Accepted
  /\ modalOpen st' = false
  /\ statsFile st' = Some {| Store.portfoliosChecked := 8 |}
  /\ (portfoliosFile st' ≫= fun portfolios => portfolios !! "TOKEN_A_wallet")
     = Some {| Store.roi := Js.ofZ 300; Store.pnl := Js.ofZ 1600000;
               Store.link := "http://neo.bullx.io/portfolio/TOKEN_A_wallet";
               Store.createdAt := Some "2025-03-01T12:00:00.000Z" |}.
Proof. vm_compute. repeat split. Qed.

(** * Further properties of the scripts *)

(** ** The scroll loop *)

(** X1.  The scroll loop returns the row after the least number of
    scroll advances at which the selector resolves, provided that number
    is below the bound: the selector is tried after 0, 1, ...,
    [max - 1] advances and never after the last advance, so a row that
    shows up only after [max] advances is reported as not found. *)
Theorem X1_scroll_finds_first (page : Page) (max : nat) :
  match scrollLoop page max false 0 with
  | ScrollDone true k =>
      (k < max)%nat /\ rowPresentAfter page k = true
      /\ forall i, (i < k)%nat -> rowPresentAfter page i = false
  | ScrollDone false k =>
      k = max /\ forall i, (i < max)%nat -> rowPresentAfter page i = false
  | ScrollThrew k =>
      (k < max)%nat /\ throws page (Scroll k) = true
      /\ forall i, (i <= k)%nat -> rowPresentAfter page i = false
  end.
Proof.
  pose proof (scrollLoop_least page max false 0 ltac:(lia) eq_refl) as H.
  destruct (scrollLoop page max false 0) as [[|] k|k].
  - destruct H as (H1 & H2 & H3). repeat split; try assumption.
    intros i Hi. apply H3. lia.
  - destruct H as (H1 & H3). split; [assumption|]. intros i Hi. apply H3. lia.
  - destruct H as (H1 & H2 & H2' & H3). repeat split; try assumption.
    intros i Hi. destruct (Nat.eq_dec i k) as [->|]; [assumption|apply H3; lia].
Qed.

(** The row shows up after exactly five advances: the production loop
    gives up, the exploratory loop finds it. *)
Example scroll_one_advance_short :
  let page := withRowPresentAfter examplePage (fun n => (5 <=? n)%nat) in
  scrollLoop page (maxScrollAttempts Production) false 0 = ScrollDone false 5
  /\ scrollLoop page (maxScrollAttempts Exploratory) false 0 = ScrollDone true 5.
Proof. vm_compute. split; reflexivity. Qed.

(** ** Acceptance *)

Lemma findRow_quiet (script : Script) (page : Page) (st : State) :
  (forall s, throws page s = false) ->
  (findRow script page st = (st, Val tt)
   /\ exists i, (i < maxScrollAttempts script)%nat /\ rowPresentAfter page i = true)
  \/ (findRow script page st = (st, Jump RowNotFound)
      /\ forall i, (i < maxScrollAttempts script)%nat -> rowPresentAfter page i = false).
Proof.
  intros Hno. unfold findRow.
  pose proof (scrollLoop_least page (maxScrollAttempts script) false 0 ltac:(lia) eq_refl) as H.
  destruct (scrollLoop page (maxScrollAttempts script) false 0) as [[|] k|k].
  - left. split; [reflexivity|]. exists k. tauto.
  - right. split; [reflexivity|]. intros i Hi. apply H. lia.
  - destruct H as (_ & H & _). rewrite Hno in H. discriminate.
Qed.

Lemma readTradeTexts_quiet (page : Page) (ages : list (option string)) (rowIndex : nat)
    (st : State) :
  (forall s, throws page s = false) ->
  readTradeTexts page rowIndex ages st = (st, Val tt).
Proof.
  intros Hno. destruct (readTradeTexts_cases page ages rowIndex st) as [H|(j & _ & H)].
  - exact H.
  - rewrite Hno in H. discriminate.
Qed.

(** One step of the execution when no call throws. *)
Ltac quiet_step Hno :=
  lazymatch goal with
  | |- context [bind (bind _ _) _ _] => rewrite bind_bind
  | |- context [bind (ret _) _ _] => rewrite bind_ret
  | |- context [bind (jump _) _ _] => rewrite bind_jump
  | |- context [bind (modify _) _ _] => rewrite bind_modify
  | |- context [bind (call ?p ?s) _ _] => rewrite bind_call, (Hno s)
  | |- context [bind (if ?b then _ else _) _ _] => destruct b eqn:?
  | |- context [bind (findRow ?sc ?p) _ ?st] =>
      let H := fresh "Hfind" in
      destruct (findRow_quiet sc p st Hno) as [[H ?]|[H ?]];
      [rewrite (bind_val _ _ _ _ _ H)|rewrite (bind_jumped _ _ _ _ _ H)]
  | |- context [bind (readTradeTexts ?p ?i ?l) _ ?st] =>
      rewrite (bind_val _ _ _ _ _ (readTradeTexts_quiet p l i st Hno))
  end.

Ltac nat_tests :=
  repeat match goal with
  | H : (_ <? _)%nat = true |- _ => apply Nat.ltb_lt in H
  | H : (_ <? _)%nat = false |- _ => apply Nat.ltb_ge in H
  | H : (_ =? _)%nat = true |- _ => apply Nat.eqb_eq in H
  | H : (_ =? _)%nat = false |- _ => apply Nat.eqb_neq in H
  end.

(** X2.  When no Playwright call throws, a row is accepted exactly when
    its row shows up within the scroll bound, it has a Solscan link with
    a cell under it, its PnL and ROI are not below the minima, seconds do
    not dominate its trades and, in the production script, the
    MOST_PROFITABLE tab exists, lists at least 10 rows and reads at most
    3 zeros. *)
Theorem X2_accepted_iff (script : Script) (config : Config) (page : Page) (st : State) :
  (forall s, throws page s = false) ->
  let revenue := Parser.parseDollars (revenueText page) in
  let pnl := Parser.parseDollars (pnlText page) in
  let spent := Parser.parseDollars (spentText page) in
  snd (evalRow script config page st) = Accepted
  <-> (exists i, (i < maxScrollAttempts script)%nat /\ rowPresentAfter page i = true)
      /\ (0 < solscanLinks page)%nat
      /\ divsUnderLink page <> 0%nat
      /\ Gates.pnlTooLow pnl (MIN_PNL config) = false
      /\ Gates.roiTooLow revenue spent (MIN_ROI config) = false
      /\ Timing.mostlySeconds (Timing.groupRows (tradeAges page)) = false
      /\ (isProduction script = true ->
          mostProfitableDiv page = true
          /\ (10 <= length (mostProfitRows page))%nat
          /\ (Gates.zeroCount (Gates.collectNumbers (mostProfitRows page)) <= 3)%nat).
Proof.
  intros Hno. cbv zeta. unfold evalRow. rewrite run_bind_ret. row_unfold.
  repeat quiet_step Hno; unfold ret; cbv beta iota; cbn [fst snd] in *; nat_tests;
    (split;
     [first [discriminate
            |intros _; repeat split; try assumption; try lia; try congruence;
             intros; try discriminate; repeat split; try assumption; lia]
     |first [reflexivity
            |intros ([i [Hi Hp]] & Hl & Hd & Hpnl & Hroi & Hsec & Hprod); exfalso;
             first [congruence | lia
                   | match goal with H : forall i, _ -> rowPresentAfter _ i = false |- _ =>
                       rewrite (H i Hi) in Hp; discriminate end
                   | destruct (Hprod eq_refl) as (? & ? & ?); first [congruence | lia]]]]).
Qed.

Lemma X2_accepted_iff_witness :
  (forall s, throws oldTradesPage s = false)
  /\ snd (evalRow Production defaultConfig oldTradesPage closedState) = Accepted.
Proof.
  split; [reflexivity|].
  apply (X2_accepted_iff Production defaultConfig oldTradesPage closedState (fun _ => eq_refl)).
  vm_compute. repeat split; try lia; try discriminate. exists 0%nat. split; [lia|reflexivity].
Defined.

(** ** The portfolios document *)

Lemma portfoliosFile_countRow (script : Script) (page : Page) (st : State) :
  portfoliosFile (countRow script page st) = portfoliosFile st.
Proof. unfold countRow. destruct (isProduction script); reflexivity. Qed.

(** X3.  A row iteration writes the portfolios document at most once,
    and only after every gate has passed: a skipped row leaves the
    document alone, an accepted row leaves the read-merge-write of its
    record, and a row that ends in the handler leaves the document alone
    unless the call that threw is the click on the close button that
    follows the write.  For the id [__proto__] the assignment of the
    merge sets the prototype of the parsed document, so the write holds
    the entries the document had and no record for the row. *)
Theorem X3_portfolios_written_on_accept (script : Script) (config : Config) (page : Page)
    (st : State) :
  let key := keyOf (portfolioIdOf (href page)) in
  let data := portfolioData script page (Parser.parseDollars (revenueText page))
                (Parser.parseDollars (pnlText page)) (Parser.parseDollars (spentText page))
                (portfolioIdOf (href page)) in
  let old := match portfoliosFile st with Some m => m | None => ∅ end in
  let written := Store.savePortfolio (portfoliosWriteFails page) key data (portfoliosFile st) in
  match evalRow script config page st with
  | (st', Accepted) => portfoliosFile st' = written
  | (st', Skipped _) => portfoliosFile st' = portfoliosFile st
  | (st', Failed s) =>
      portfoliosFile st' = portfoliosFile st
      \/ (s = ClickClose /\ portfoliosFile st' = written)
  end
  /\ (portfoliosWriteFails page = true -> written = portfoliosFile st)
  /\ (portfoliosWriteFails page = false -> key <> "__proto__" ->
      written = Some (<[key := data]> old))
  /\ (portfoliosWriteFails page = false -> key = "__proto__" -> old !! key = None ->
      written = Some old).
Proof.
  cbv zeta. split; [|split; [|split]].
  - unfold evalRow. rewrite run_bind_ret. row_unfold.
    repeat row_step; unfold ret; cbv beta iota; cbn [fst snd];
      rewrite ?portfoliosFile_countRow; cbn [portfoliosFile setModal storePortfolio];
      rewrite ?portfoliosFile_countRow; cbn [portfoliosFile setModal storePortfolio];
      auto.
  - intros ->. reflexivity.
  - intros -> Hkey. unfold Store.savePortfolio, Store.assign.
    apply String.eqb_neq in Hkey. now rewrite Hkey.
  - intros -> Hkey Hnone. unfold Store.savePortfolio, Store.assign.
    rewrite Hnone. apply String.eqb_eq in Hkey. now rewrite Hkey.
Qed.

(** A wallet whose link ends in [/portfolio/__proto__] passes every gate
    and is accepted, and the document written for it holds no record. *)
Example proto_id_writes_no_record :
  exists st',
    evalRow Production defaultConfig protoPage closedState = (st', Accepted)
    /\ keyOf (portfolioIdOf (href protoPage)) = "__proto__"
    /\ portfoliosFile st' = Some ∅
    /\ Store.loadStats (statsFile st') = {| Store.portfoliosChecked := 1 |}.
Proof. eexists. vm_compute. repeat split. Qed.

(** X4.  An accepted row whose write goes through is an upsert under the
    portfolio id: the document then maps the id to the new record, with
    the ROI and PnL of the row and the link built from the id, and maps
    every other id as before (a missing or unreadable document counting
    as empty); when the write fails the document is unchanged.  The
    property key [__proto__] is left aside. *)
Theorem X4_accept_upserts (script : Script) (config : Config) (page : Page) (st st' : State) :
  evalRow script config page st = (st', Accepted) ->
  keyOf (portfolioIdOf (href page)) <> "__proto__" ->
  let key := keyOf (portfolioIdOf (href page)) in
  let old := match portfoliosFile st with Some m => m | None => ∅ end in
  (portfoliosWriteFails page = true -> portfoliosFile st' = portfoliosFile st)
  /\ (portfoliosWriteFails page = false ->
      exists (m : gmap string Store.Portfolio) (data : Store.Portfolio),
        portfoliosFile st' = Some m
        /\ m !! key = Some data
        /\ Store.roi data = Gates.roi (Parser.parseDollars (revenueText page))
                                      (Parser.parseDollars (spentText page))
        /\ Store.pnl data = Parser.parseDollars (pnlText page)
        /\ Store.link data = "http://neo.bullx.io/portfolio/" ++ key
        /\ (forall k, k <> key -> m !! k = old !! k)
        /\ dom m = {[key]} ∪ dom old).
Proof.
  intros Heval Hproto. cbv zeta.
  pose proof (evalRow_cases script config page st) as H. cbv zeta in H.
  rewrite Heval in H. destruct H as [-> _]. rewrite portfoliosFile_countRow.
  cbn [portfoliosFile setModal storePortfolio]. unfold Store.savePortfolio, Store.assign.
  apply String.eqb_neq in Hproto. rewrite Hproto. split.
  - intros ->. reflexivity.
  - intros ->. eexists. eexists. split; [reflexivity|].
    split; [apply lookup_insert_eq|]. split; [reflexivity|]. split; [reflexivity|].
    split; [reflexivity|]. split.
    + intros k Hk. apply lookup_insert_ne. congruence.
    + apply dom_insert_L.
Qed.

Lemma X4_accept_upserts_witness :
  exists st',
    evalRow Production scenarioConfig scenarioPage closedState = (st', Accepted)
    /\ keyOf (portfolioIdOf (href scenarioPage)) <> "__proto__"
    /\ exists m, portfoliosFile st' = Some m /\ dom m = {[ "TOKEN_A_wallet" ]} ∪ ∅.
Proof.
  eexists. split; [vm_compute; reflexivity|]. split; [discriminate|].
  destruct (proj2 (X4_accept_upserts Production scenarioConfig scenarioPage closedState _
                     ltac:(vm_compute; reflexivity) ltac:(discriminate)) eq_refl)
    as (m & data & Hm & _ & _ & _ & _ & _ & Hdom).
  exists m. split; [exact Hm|]. rewrite Hdom. reflexivity.
Defined.

(** ** The exploratory script keeps no store *)

Lemma rowLoop_stats_exploratory (config : Config) (pages : Z -> Page) (remaining : nat)
    (rowNumber : Z) (st : State) :
  statsFile (fst (rowLoop Exploratory config pages remaining rowNumber st)) = statsFile st.
Proof.
  revert rowNumber st. induction remaining as [|remaining IH]; intros rowNumber st; simpl.
  - reflexivity.
  - pose proof (evalRow_cases Exploratory config (pages rowNumber) st) as H. cbv zeta in H.
    destruct (evalRow Exploratory config (pages rowNumber) st) as [st1 outcome].
    assert (Hst : statsFile st1 = statsFile st).
    { destruct outcome as [|[]|s]; try (destruct H as [-> _]; reflexivity).
      destruct H as (_ & [-> | [-> | [-> | ->]]]); reflexivity. }
    specialize (IH (rowNumber + 1) st1).
    destruct outcome as [|[]|s];
      try (destruct (rowLoop Exploratory config pages remaining (rowNumber + 1) st1);
           simpl in *; congruence);
      try (simpl; exact Hst).
Qed.

Lemma tokenLoop_exploratory (config : Config) (listings : nat -> Listing)
    (remaining tokenIndex : nat) (r : Run) :
  let r' := tokenLoop Exploratory config listings remaining tokenIndex r in
  processedFile r' = processedFile r /\ saved r' = saved r
  /\ statsFile (rows r') = statsFile (rows r).
Proof.
  revert tokenIndex r. induction remaining as [|remaining IH]; intros tokenIndex r; simpl.
  - auto.
  - destruct (listingThrows (listings tokenIndex)); [auto|].
    destruct (selectToken _ _) as [tokenName|]; [|auto].
    cbn [saveTokens isProduction].
    destruct (openThrows (listings tokenIndex)); [auto|].
    destruct (solscanAppears (listings tokenIndex)).
    + unfold processRows.
      match goal with
      | |- context [rowLoop Exploratory ?c ?p ?n ?i ?s] =>
          pose proof (rowLoop_stats_exploratory c p n i s) as Hst;
          destruct (rowLoop Exploratory c p n i s) as [st' log]
      end.
      match goal with
      | |- context [tokenLoop Exploratory ?c ?l ?n ?i ?r0] =>
          destruct (IH i r0) as (H1 & H2 & H3)
      end.
      simpl in *. repeat split; congruence.
    + destruct (goBackThrows (listings tokenIndex)); [auto|].
      match goal with
      | |- context [tokenLoop Exploratory ?c ?l ?n ?i ?r0] =>
          destruct (IH i r0) as (H1 & H2 & H3)
      end.
      simpl in *. repeat split; congruence.
Qed.

(** X5.  The exploratory script never touches the state store apart from
    the portfolios document: no row iteration changes the statistics
    document, and a whole run neither reads nor writes the
    processed-token document -- it starts from an empty set on every run
    and saves nothing. *)
Theorem X5_exploratory_keeps_no_store :
  (forall (config : Config) (page : Page) (st : State),
     statsFile (fst (evalRow Exploratory config page st)) = statsFile st)
  /\ (forall (config : Config) (tokenRows : nat) (listings : nat -> Listing)
        (finalSaveFails : bool) (st : State) (file1 file2 : option (list string)),
        let run := main Exploratory config tokenRows listings finalSaveFails st file1 in
        processedFile run = file1
        /\ saved run = []
        /\ statsFile (rows run) = statsFile st
        /\ processedTokenNames run
           = processedTokenNames
               (main Exploratory config tokenRows listings finalSaveFails st file2)).
Proof.
  split.
  - intros config page st.
    pose proof (evalRow_cases Exploratory config page st) as H. cbv zeta in H.
    destruct (evalRow Exploratory config page st) as [st1 [|[]|s]]; simpl;
      try (destruct H as [-> _]; reflexivity).
    destruct H as (_ & [-> | [-> | [-> | ->]]]); reflexivity.
  - intros config tokenRows listings finalSaveFails st file1 file2. cbv zeta.
    unfold main. cbn [isProduction saveTokens].
    assert (Hsame : forall remaining tokenIndex r1 r2,
              processedTokenNames r1 = processedTokenNames r2 ->
              aborted r1 = aborted r2 -> rows r1 = rows r2 ->
              processedTokenNames (tokenLoop Exploratory config listings remaining tokenIndex r1)
              = processedTokenNames
                  (tokenLoop Exploratory config listings remaining tokenIndex r2)).
    { induction remaining as [|remaining IH]; intros tokenIndex r1 r2 Hn Ha Hr; simpl.
      - assumption.
      - destruct (listingThrows (listings tokenIndex)); [assumption|].
        rewrite Hn. destruct (selectToken _ _) as [tokenName|]; [|assumption].
        cbn [saveTokens isProduction].
        destruct (openThrows (listings tokenIndex)); [reflexivity|].
        destruct (solscanAppears (listings tokenIndex)).
        + cbn [rows]. rewrite Hr.
          destruct (processRows _ _ _ _) as [st' log]. apply IH; simpl; congruence.
        + destruct (goBackThrows (listings tokenIndex)); [reflexivity|].
          apply IH; simpl; congruence. }
    match goal with
    | |- context [tokenLoop Exploratory ?c ?l ?n ?i ?r0] =>
        destruct (tokenLoop_exploratory c l n i r0) as (H1 & H2 & H3)
    end.
    repeat split.
    + destruct (aborted _); exact H1.
    + destruct (aborted _); exact H2.
    + destruct (aborted _); exact H3.
    + match goal with
      | |- processedTokenNames (if ?a then _ else _) = processedTokenNames (if ?b then _ else _) =>
          destruct a, b
      end; apply Hsame; reflexivity.
Qed.

(** ** Further properties of the numeric parser *)

Section MoreParserFacts.

Lemma keepChars_app (keep : ascii -> bool) (a b : string) :
  Js.keepChars keep (a ++ b) = Js.keepChars keep a ++ Js.keepChars keep b.
Proof.
  induction a as [|c a IH]; simpl; [reflexivity|].
  destruct (keep c); simpl; now rewrite IH.
Qed.

Lemma keepChars_none (keep : ascii -> bool) (s : string) :
  Js.someChar keep s = false -> Js.keepChars keep s = "".
Proof.
  induction s as [|c s IH]; simpl; [reflexivity|].
  intros [-> Hs]%orb_false_elim. now apply IH.
Qed.

Lemma keepChars_all (keep : ascii -> bool) (s : string) :
  everyChar keep s = true -> Js.keepChars keep s = s.
Proof.
  induction s as [|c s IH]; simpl; [reflexivity|].
  intros [-> Hs]%andb_prop. now rewrite IH.
Qed.

Lemma orZero_nonempty (s : string) : s <> "" -> Parser.orZero (Some s) = s.
Proof. destruct s; [congruence|reflexivity]. Qed.

Lemma append_nonempty_mid (a junk b : string) : a ++ b <> "" -> a ++ junk ++ b <> "".
Proof. destruct a; simpl; [destruct junk; simpl; [tauto|discriminate]|discriminate]. Qed.

Lemma unparsed_NaN (text : option string) :
  unparsed text = true -> Parser.parseDollars text = Js.NaN.
Proof.
  destruct text as [[|c r]|]; try discriminate. unfold unparsed.
  intros H%negb_true_iff. unfold Parser.parseDollars. cbn [Parser.orZero].
  rewrite (parseFloat_no_digit _ H). apply scale_NaN.
Qed.

Lemma roi_NaN (revenue spent : Js.number) :
  revenue = Js.NaN \/ spent = Js.NaN -> Gates.roi revenue spent = Js.NaN.
Proof.
  intros [-> | ->]; [reflexivity|].
  destruct revenue as [[]|[]| |[] m e]; reflexivity.
Qed.

Lemma isDigit_plain (c : ascii) :
  Js.isDigit c = true ->
  Js.isWhiteSpace c = false /\ Parser.keptChar c = true
  /\ c <> "+"%char /\ c <> "-"%char /\ c <> "I"%char /\ c <> "."%char
  /\ c <> "M"%char /\ c <> "K"%char /\ c <> "k"%char /\ 0 <= Js.digitValue c <= 9.
Proof.
  destruct c as [[] [] [] [] [] [] [] []]; intros H; try discriminate H;
    repeat split; try reflexivity; try discriminate; vm_compute; intros ?; discriminate.
Qed.

Lemma everyChar_kept (d : string) :
  everyChar Js.isDigit d = true -> everyChar Parser.keptChar d = true.
Proof.
  induction d as [|c d IH]; simpl; [reflexivity|].
  intros [Hc Hd]%andb_prop. rewrite (IH Hd).
  destruct (isDigit_plain c Hc) as (_ & -> & _). reflexivity.
Qed.

(** The digits of a number are read up to the first other character. *)
Lemma spanDigits_app (d rest : string) :
  everyChar Js.isDigit d = true ->
  Js.spanDigits rest = (EmptyString, rest) ->
  Js.spanDigits (d ++ rest) = (d, rest).
Proof.
  intros Hd Hrest. induction d as [|c d IH]; simpl; [exact Hrest|].
  simpl in Hd. apply andb_prop in Hd as [Hc Hd]. rewrite Hc, (IH Hd). reflexivity.
Qed.

Lemma digitsValue_nonneg (d : string) (acc : Z) :
  everyChar Js.isDigit d = true -> 0 <= acc -> 0 <= Js.digitsValue acc d.
Proof.
  revert acc. induction d as [|c d IH]; intros acc Hd Hacc; simpl; [assumption|].
  simpl in Hd. apply andb_prop in Hd as [Hc Hd]. apply IH; [assumption|].
  destruct (isDigit_plain c Hc) as (_ & _ & _ & _ & _ & _ & _ & _ & _ & Hv). lia.
Qed.

Lemma ofDecimal_integer (v : Z) : 0 <= v -> Js.ofDecimal false v 0 = Js.ofZ v.
Proof.
  intros Hv. destruct v as [|p|p]; [reflexivity| |lia].
  unfold Js.ofDecimal, Js.ofZ, binary_normalize. cbn [Z.leb Z.compare Z.pow Z.to_pos].
  change (Z.to_pos (10 ^ 0)) with 1%positive. now rewrite Pos.mul_1_r.
Qed.

Lemma append_empty_r (s : string) : s ++ "" = s.
Proof.
  induction s as [|c s IH]; [reflexivity|].
  change (String c (s ++ "") = String c s). now rewrite IH.
Qed.

(** [parseFloat] on an unsigned integer followed by a character that is
    neither a digit, nor a dot, nor an exponent mark. *)
Lemma parseFloat_integer (d rest : string) :
  d <> "" ->
  everyChar Js.isDigit d = true ->
  match rest with
  | EmptyString => True
  | String c _ => Js.isDigit c = false /\ c <> "."%char /\ c <> "e"%char /\ c <> "E"%char
  end ->
  Js.parseFloat (d ++ rest) = Js.ofZ (Js.digitsValue 0 d).
Proof.
  intros Hne Hd Hrest. unfold Js.parseFloat.
  destruct d as [|c d']; [congruence|].
  pose proof Hd as Hd0. simpl in Hd0. apply andb_prop in Hd0 as [Hc Hd'].
  destruct (isDigit_plain c Hc) as (Hw & _ & Hp & Hm & HI & _).
  assert (Htrim : Js.trimStart (String c d' ++ rest) = String c d' ++ rest).
  { simpl. now rewrite Hw. }
  rewrite Htrim.
  assert (Hsign : Js.splitSign (String c d' ++ rest) = (false, String c d' ++ rest)).
  { simpl. unfold Js.splitSign.
    destruct c as [[] [] [] [] [] [] [] []]; try reflexivity; congruence. }
  rewrite Hsign.
  assert (Hinf : String.prefix "Infinity" (String c d' ++ rest) = false).
  { clear -Hc. destruct c as [[] [] [] [] [] [] [] []]; try discriminate Hc; reflexivity. }
  rewrite Hinf.
  assert (Hspan : Js.spanDigits (String c d' ++ rest) = (String c d', rest)).
  { apply spanDigits_app; [assumption|].
    destruct rest as [|x rest']; [reflexivity|]. simpl. destruct Hrest as [-> _]. reflexivity. }
  rewrite Hspan.
  assert (Hfrac : match rest with
                  | String "."%char r => Js.spanDigits r
                  | _ => (EmptyString, rest)
                  end = (EmptyString, rest)).
  { destruct rest as [|x rest']; [reflexivity|]. destruct Hrest as (_ & Hx & _).
    destruct x as [[] [] [] [] [] [] [] []]; try reflexivity; congruence. }
  rewrite Hfrac. cbn [String.length Z.of_nat]. rewrite append_empty_r.
  assert (Hexp : Js.exponentPart rest = 0).
  { destruct rest as [|x rest']; [reflexivity|]. destruct Hrest as (_ & _ & He & HE).
    simpl. destruct (Ascii.eqb_spec x "e"); [congruence|].
    destruct (Ascii.eqb_spec x "E"); [congruence|]. reflexivity. }
  rewrite Hexp. cbn [Z.sub Z.opp Z.add].
  apply ofDecimal_integer. apply digitsValue_nonneg; [assumption|lia].
Qed.

Lemma lastChar_app_char (s : string) (c : ascii) : Js.lastChar (s ++ String c "") = Some c.
Proof.
  induction s as [|a s IH]; simpl; [reflexivity|].
  destruct (s ++ String c "") eqn:E; [destruct s; discriminate|exact IH].
Qed.

Lemma lastChar_digits (d : string) :
  d <> "" -> everyChar Js.isDigit d = true ->
  exists a, Js.lastChar d = Some a /\ Js.isDigit a = true.
Proof.
  induction d as [|c d IH]; [congruence|]. intros _ Hd. simpl in Hd.
  apply andb_prop in Hd as [Hc Hd]. destruct d as [|c' d'].
  - exists c. split; [reflexivity|assumption].
  - destruct (IH ltac:(discriminate) Hd) as (a & Ha & Hda). exists a. split; assumption.
Qed.

End MoreParserFacts.

(** X6.  A metric text that is present but holds no digit parses to NaN,
    and NaN is below no threshold: such a PnL is never rejected by the
    PnL gate, and a row with such a revenue or spend is never rejected by
    the ROI gate, whatever the minima; no row iteration with such a PnL
    ends at the PnL gate. *)
Theorem X6_unparsed_metric_passes :
  (forall (text : option string) (minPnl : Js.number),
     unparsed text = true ->
     Parser.parseDollars text = Js.NaN
     /\ Gates.pnlTooLow (Parser.parseDollars text) minPnl = false)
  /\ (forall (revenueText spentText : option string) (minRoi : Js.number),
        unparsed revenueText = true \/ unparsed spentText = true ->
        Gates.roiTooLow (Parser.parseDollars revenueText) (Parser.parseDollars spentText)
                        minRoi = false)
  /\ (forall (script : Script) (config : Config) (page : Page) (st : State),
        unparsed (pnlText page) = true ->
        snd (evalRow script config page st) <> Skipped PnlTooLow).
Proof.
  split; [|split].
  - intros text minPnl H. rewrite (unparsed_NaN _ H). split; reflexivity.
  - intros revenueText spentText minRoi H. unfold Gates.roiTooLow.
    rewrite roi_NaN; [reflexivity|].
    destruct H as [H|H]; [left|right]; now apply unparsed_NaN.
  - intros script config page st H Hout.
    pose proof (evalRow_cases script config page st) as Hc. cbv zeta in Hc.
    destruct (evalRow script config page st) as [st' o]. simpl in Hout. subst o.
    destruct Hc as [_ Hc]. rewrite (unparsed_NaN _ H) in Hc. discriminate Hc.
Qed.

Lemma X6_unparsed_metric_passes_witness :
  unparsed (Some "N/A") = true
  /\ Gates.pnlTooLow (Parser.parseDollars (Some "N/A")) (Js.ofZ 25000) = false.
Proof.
  split; [reflexivity|].
  exact (proj2 (proj1 X6_unparsed_metric_passes (Some "N/A") (Js.ofZ 25000) eq_refl)).
Defined.

(** X7.  Characters outside the class of digits, dots, [M], [K] and [k]
    -- currency signs, thousands separators, spaces, other letters -- do
    not affect the result wherever they stand, as long as the text
    without them is not empty. *)
Theorem X7_junk_is_ignored (a junk b : string) :
  Js.someChar Parser.keptChar junk = false ->
  a ++ b <> "" ->
  Parser.parseDollars (Some (a ++ junk ++ b)) = Parser.parseDollars (Some (a ++ b)).
Proof.
  intros Hjunk Hne. unfold Parser.parseDollars.
  rewrite (orZero_nonempty _ Hne), (orZero_nonempty _ (append_nonempty_mid a junk b Hne)).
  unfold Parser.cleanValue. rewrite !keepChars_app, (keepChars_none _ _ Hjunk).
  reflexivity.
Qed.

Lemma X7_junk_is_ignored_witness :
  Parser.parseDollars (Some "$1,234.5K") = Parser.parseDollars (Some "$1234.5K").
Proof.
  exact (X7_junk_is_ignored "$1" "," "234.5K" eq_refl ltac:(discriminate)).
Defined.

(** X8.  A text made of decimal digits parses to the number nearest to
    the integer it denotes, and the same digits followed by [K] or [k],
    or by [M], parse to that number times 1,000, or times 1,000,000. *)
Theorem X8_integers_and_suffixes (d : string) :
  d <> "" ->
  everyChar Js.isDigit d = true ->
  let n := Js.ofZ (Js.digitsValue 0 d) in
  Parser.parseDollars (Some d) = n
  /\ Parser.parseDollars (Some (d ++ "K")) = Js.mul n (Js.ofZ 1000)
  /\ Parser.parseDollars (Some (d ++ "k")) = Js.mul n (Js.ofZ 1000)
  /\ Parser.parseDollars (Some (d ++ "M")) = Js.mul n (Js.ofZ 1000000).
Proof.
  intros Hne Hd. cbv zeta.
  assert (Hscale : forall (s : string) (x : Js.number),
            Parser.cleanValue s = s ->
            Parser.scale s x =
            match Js.lastChar s with
            | Some "M"%char => Js.mul x (Js.ofZ 1000000)
            | Some "K"%char | Some "k"%char => Js.mul x (Js.ofZ 1000)
            | _ => x
            end).
  { intros s x Hs. pose proof (scale_lastChar s x) as E. now rewrite Hs in E. }
  assert (Hgen : forall rest,
            everyChar Parser.keptChar rest = true ->
            match rest with
            | EmptyString => True
            | String c _ =>
                Js.isDigit c = false /\ c <> "."%char /\ c <> "e"%char /\ c <> "E"%char
            end ->
            Parser.cleanValue (d ++ rest) = d ++ rest
            /\ Parser.parseDollars (Some (d ++ rest)) =
               Parser.scale (d ++ rest) (Js.ofZ (Js.digitsValue 0 d))).
  { intros rest Hk Hrest.
    assert (Hclean : Parser.cleanValue (d ++ rest) = d ++ rest).
    { unfold Parser.cleanValue.
      now rewrite keepChars_app, (keepChars_all _ _ (everyChar_kept _ Hd)), (keepChars_all _ _ Hk). }
    split; [exact Hclean|]. unfold Parser.parseDollars.
    rewrite orZero_nonempty by (destruct d; [congruence|discriminate]).
    rewrite Hclean, (parseFloat_integer d rest Hne Hd Hrest). reflexivity. }
  split; [|split; [|split]].
  - destruct (Hgen "" eq_refl I) as [Hc Hp]. rewrite append_empty_r in Hc, Hp.
    rewrite Hp, (Hscale _ _ Hc).
    destruct (lastChar_digits d Hne Hd) as (a & -> & Ha).
    destruct a as [[] [] [] [] [] [] [] []]; try discriminate Ha; reflexivity.
  - destruct (Hgen "K" eq_refl) as [Hc Hp]; [repeat split; discriminate|].
    now rewrite Hp, (Hscale _ _ Hc), lastChar_app_char.
  - destruct (Hgen "k" eq_refl) as [Hc Hp]; [repeat split; discriminate|].
    now rewrite Hp, (Hscale _ _ Hc), lastChar_app_char.
  - destruct (Hgen "M" eq_refl) as [Hc Hp]; [repeat split; discriminate|].
    now rewrite Hp, (Hscale _ _ Hc), lastChar_app_char.
Qed.

Lemma X8_integers_and_suffixes_witness :
  Parser.parseDollars (Some "430") = Js.ofZ 430
  /\ Parser.parseDollars (Some "430K") = Js.mul (Js.ofZ 430) (Js.ofZ 1000).
Proof.
  destruct (X8_integers_and_suffixes "430" ltac:(discriminate) eq_refl) as (H1 & H2 & _).
  split; [exact H1|exact H2].
Defined.

(** ** Further properties of the trade-timing classifier *)

Section MoreTimingFacts.

Lemma inBucket_sum (spanText : option string) :
  list_sum (map (fun b => if Timing.inBucket b spanText then 1 else 0)%nat allBuckets)
  = (if classified spanText then 1 else 0)%nat.
Proof.
  unfold classified, Timing.inBucket, allBuckets, Timing.otherBuckets.
  destruct (Timing.bucketOf (Timing.trimmedText spanText)) as [[]|]; reflexivity.
Qed.

Lemma filter_length_sum (spanTexts : list (option string)) :
  list_sum (map (fun b => length (List.filter (Timing.inBucket b) spanTexts)) allBuckets)
  = length (List.filter classified spanTexts).
Proof.
  induction spanTexts as [|t rest IH]; [reflexivity|].
  pose proof (inBucket_sum t) as Ht.
  unfold allBuckets, Timing.otherBuckets in *. cbn [map list_sum fold_right List.filter] in *.
  destruct (classified t);
    repeat match goal with
    | |- context [Timing.inBucket ?b t] => destruct (Timing.inBucket b t)
    end; cbn [length] in *; lia.
Qed.

Lemma includes_app (a b : string) (c : ascii) :
  Js.includes (a ++ b) c = Js.includes a c || Js.includes b c.
Proof.
  induction a as [|x a IH]; simpl; [reflexivity|]. rewrite IH. apply orb_assoc.
Qed.

Lemma includes_digits (d : string) (c : ascii) :
  everyChar Js.isDigit d = true -> Js.isDigit c = false -> Js.includes d c = false.
Proof.
  intros Hd Hc. induction d as [|x d IH]; simpl; [reflexivity|].
  simpl in Hd. apply andb_prop in Hd as [Hx Hd]. rewrite (IH Hd).
  destruct (Ascii.eqb_spec x c) as [->|]; [congruence|reflexivity].
Qed.

(** [parseInt] on an unsigned decimal integer followed by a unit letter. *)
Lemma parseInt_integer (d : string) (u : ascii) (rest : string) :
  d <> "" ->
  everyChar Js.isDigit d = true ->
  Js.isDigit u = false -> u <> "x"%char -> u <> "X"%char ->
  Js.parseInt (d ++ String u rest) = Some (Js.digitsValue 0 d).
Proof.
  intros Hne Hd Hu Hx HX. unfold Js.parseInt.
  destruct d as [|c d']; [congruence|].
  pose proof Hd as Hd0. simpl in Hd0. apply andb_prop in Hd0 as [Hc Hd'].
  destruct (isDigit_plain c Hc) as (Hw & _ & Hp & Hm & _).
  assert (Htrim : Js.trimStart (String c d' ++ String u rest) = String c d' ++ String u rest).
  { simpl. now rewrite Hw. }
  rewrite Htrim.
  assert (Hsign : Js.splitSign (String c d' ++ String u rest)
                  = (false, String c d' ++ String u rest)).
  { simpl. unfold Js.splitSign.
    destruct c as [[] [] [] [] [] [] [] []]; try reflexivity; congruence. }
  rewrite Hsign.
  assert (Hspan : Js.spanDigits (String c d' ++ String u rest) = (String c d', String u rest)).
  { apply spanDigits_app; [assumption|]. simpl. now rewrite Hu. }
  assert (Hmag : match String c d' ++ String u rest with
                 | String "0"%char (String x r) =>
                     if Ascii.eqb x "x" || Ascii.eqb x "X" then Js.spanHex None r
                     else Some (Js.digitsValue 0 (fst (Js.spanDigits
                                                          (String c d' ++ String u rest))))
                 | _ =>
                     match fst (Js.spanDigits (String c d' ++ String u rest)) with
                     | EmptyString => None
                     | String a b => Some (Js.digitsValue 0 (String a b))
                     end
                 end = Some (Js.digitsValue 0 (String c d'))).
  { rewrite Hspan. cbn [fst].
    change (String c d' ++ String u rest) with (String c (d' ++ String u rest)).
    assert (Hnotx : match d' ++ String u rest with
                    | String x _ => Ascii.eqb x "x" || Ascii.eqb x "X" = false
                    | EmptyString => True
                    end).
    { destruct d' as [|c2 d'']; simpl.
      - destruct (Ascii.eqb_spec u "x"); [congruence|].
        destruct (Ascii.eqb_spec u "X"); [congruence|]. reflexivity.
      - simpl in Hd'. apply andb_prop in Hd' as [Hc2 _].
        destruct c2 as [[] [] [] [] [] [] [] []]; try discriminate Hc2; reflexivity. }
    destruct (d' ++ String u rest) as [|x r].
    - destruct c as [[] [] [] [] [] [] [] []]; reflexivity.
    - destruct c as [[] [] [] [] [] [] [] []]; try reflexivity. rewrite Hnotx. reflexivity. }
  change (match String c d' ++ String u rest with
          | String "0"%char (String x r) =>
              if Ascii.eqb x "x" || Ascii.eqb x "X" then Js.spanHex None r
              else Some (Js.digitsValue 0 (fst (Js.spanDigits
                                                   (String c d' ++ String u rest))))
          | _ =>
              match fst (Js.spanDigits (String c d' ++ String u rest)) with
              | EmptyString => None
              | String a b => Some (Js.digitsValue 0 (String a b))
              end
          end) with
    (match String c d' ++ String u rest with
     | String "0"%char (String x r) =>
         if Ascii.eqb x "x" || Ascii.eqb x "X" then Js.spanHex None r
         else Some (Js.digitsValue 0 (fst (Js.spanDigits (String c d' ++ String u rest))))
     | _ =>
         match fst (Js.spanDigits (String c d' ++ String u rest)) with
         | EmptyString => None
         | d0 => Some (Js.digitsValue 0 d0)
         end
     end).
  rewrite Hmag. reflexivity.
Qed.

End MoreTimingFacts.

(** X9.  Every row of the trade table is counted in at most one bucket:
    the seven counts add up to the number of rows whose text is
    classified, which is at most the number of rows. *)
Theorem X9_histogram_total (spanTexts : list (option string)) :
  list_sum (map (Timing.count (Timing.groupRows spanTexts)) allBuckets)
  = length (List.filter classified spanTexts)
  /\ (list_sum (map (Timing.count (Timing.groupRows spanTexts)) allBuckets)
      <= length spanTexts)%nat.
Proof.
  assert (H : list_sum (map (Timing.count (Timing.groupRows spanTexts)) allBuckets)
              = length (List.filter classified spanTexts)).
  { rewrite <- filter_length_sum. f_equal. apply map_ext. intros b. apply count_groupRows. }
  split; [exact H|]. rewrite H. apply List.filter_length_le.
Qed.

(** X10.  An age written as a decimal number followed by its unit letter
    is classified by the unit and the number: [s] gives seconds, [m]
    gives the bucket below 30 minutes exactly when the number is below
    30, [h] the bucket below 2 hours exactly when it is below 2, [d] days
    and [w] weeks.  A text with [m] (and no [s]) or with [h] (and no [s],
    no [m]) that does not start with a number falls in the "30 minutes or
    more" or "2 hours or more" bucket. *)
Theorem X10_ages_with_units (d : string) :
  d <> "" ->
  everyChar Js.isDigit d = true ->
  let n := Js.digitsValue 0 d in
  Timing.bucketOf (d ++ "s") = Some Timing.Seconds
  /\ Timing.bucketOf (d ++ "m")
     = Some (if n <? 30 then Timing.LessThan30m else Timing.MoreThan30m)
  /\ Timing.bucketOf (d ++ "h")
     = Some (if n <? 2 then Timing.LessThan2h else Timing.MoreThan2h)
  /\ Timing.bucketOf (d ++ "d") = Some Timing.Days
  /\ Timing.bucketOf (d ++ "w") = Some Timing.Weeks
  /\ (forall t, Js.parseInt t = None -> Js.includes t "s" = false ->
        (Js.includes t "m" = true -> Timing.bucketOf t = Some Timing.MoreThan30m)
        /\ (Js.includes t "m" = false -> Js.includes t "h" = true ->
            Timing.bucketOf t = Some Timing.MoreThan2h)).
Proof.
  intros Hne Hd. cbv zeta.
  assert (Hinc : forall u c : ascii, Js.isDigit c = false ->
            Js.includes (d ++ String u "") c = Ascii.eqb u c).
  { intros u c Hc. rewrite includes_app, (includes_digits d c Hd Hc). simpl.
    now rewrite orb_false_r. }
  unfold Timing.bucketOf.
  repeat split.
  - now rewrite (Hinc "s"%char "s"%char eq_refl).
  - rewrite (Hinc "m"%char "s"%char eq_refl), (Hinc "m"%char "m"%char eq_refl).
    cbn [Ascii.eqb Bool.eqb].
    rewrite (parseInt_integer d "m" "" Hne Hd eq_refl) by discriminate.
    cbn [Js.intLt]. destruct (_ <? 30); reflexivity.
  - rewrite (Hinc "h"%char "s"%char eq_refl), (Hinc "h"%char "m"%char eq_refl),
      (Hinc "h"%char "h"%char eq_refl).
    cbn [Ascii.eqb Bool.eqb].
    rewrite (parseInt_integer d "h" "" Hne Hd eq_refl) by discriminate.
    cbn [Js.intLt]. destruct (_ <? 2); reflexivity.
  - now rewrite (Hinc "d"%char "s"%char eq_refl), (Hinc "d"%char "m"%char eq_refl),
      (Hinc "d"%char "h"%char eq_refl), (Hinc "d"%char "d"%char eq_refl).
  - now rewrite (Hinc "w"%char "s"%char eq_refl), (Hinc "w"%char "m"%char eq_refl),
      (Hinc "w"%char "h"%char eq_refl), (Hinc "w"%char "d"%char eq_refl),
      (Hinc "w"%char "w"%char eq_refl).
  - intros Hm. rewrite H0, Hm, H. reflexivity.
  - intros Hm Hh. rewrite H0, Hm, Hh, H. reflexivity.
Qed.

Lemma X10_ages_with_units_witness :
  Timing.bucketOf "29m" = Some Timing.LessThan30m
  /\ Timing.bucketOf "30m" = Some Timing.MoreThan30m
  /\ Timing.bucketOf "1h" = Some Timing.LessThan2h
  /\ Timing.bucketOf "m" = Some Timing.MoreThan30m.
Proof.
  destruct (X10_ages_with_units "29" ltac:(discriminate) eq_refl) as (_ & H29 & _).
  destruct (X10_ages_with_units "30" ltac:(discriminate) eq_refl) as (_ & H30 & _).
  destruct (X10_ages_with_units "1" ltac:(discriminate) eq_refl)
    as (_ & _ & H1 & _ & _ & Hnone).
  split; [exact H29|]. split; [exact H30|]. split; [exact H1|].
  exact (proj1 (Hnone "m" eq_refl eq_refl) eq_refl).
Defined.

(** ** The portfolio id and the stored link *)

Section SplitFacts.

Variable sep : string.
Hypothesis sep_nonempty : sep <> "".

Lemma prefix_empty_r (s : string) : String.prefix s "" = true -> s = "".
Proof. destruct s; [reflexivity|discriminate]. Qed.

(** What precedes the first separator is a prefix of the string. *)
Lemma prefix_beforeFirst (r s : string) :
  String.prefix s (beforeFirst sep r) = true -> String.prefix s r = true.
Proof.
  revert s. induction r as [|c r IH]; intros s.
  - cbn [beforeFirst]. destruct (String.prefix sep ""); intros ->%prefix_empty_r; reflexivity.
  - cbn [beforeFirst]. destruct (String.prefix sep (String c r)) eqn:E.
    + intros ->%prefix_empty_r. reflexivity.
    + destruct s as [|a s]; [reflexivity|]. cbn [String.prefix].
      destruct (ascii_dec a c); [apply IH|discriminate].
Qed.

Lemma beforeFirst_no_prefix (c : ascii) (r : string) :
  String.prefix sep (String c r) = false ->
  String.prefix sep (String c (beforeFirst sep r)) = false.
Proof.
  intros E. destruct (String.prefix sep (String c (beforeFirst sep r))) eqn:F; [|reflexivity].
  rewrite <- E. symmetry.
  apply (prefix_beforeFirst (String c r) sep).
  cbn [beforeFirst]. rewrite E. exact F.
Qed.

Lemma beforeFirst_idempotent (r : string) :
  beforeFirst sep (beforeFirst sep r) = beforeFirst sep r.
Proof.
  induction r as [|c r IH].
  - cbn [beforeFirst]. destruct (String.prefix sep "") eqn:E; cbn [beforeFirst]; rewrite E;
      reflexivity.
  - cbn [beforeFirst]. destruct (String.prefix sep (String c r)) eqn:E.
    + cbn [beforeFirst]. destruct (String.prefix sep ""); reflexivity.
    + cbn [beforeFirst]. rewrite (beforeFirst_no_prefix c r E), IH. reflexivity.
Qed.

Lemma prefix_sep_empty : String.prefix sep "" = false.
Proof. destruct sep; [congruence|reflexivity]. Qed.

Lemma afterFirst_beforeFirst (r : string) : afterFirst sep (beforeFirst sep r) = None.
Proof.
  induction r as [|c r IH].
  - cbn [beforeFirst]. rewrite prefix_sep_empty. cbn [afterFirst]. now rewrite prefix_sep_empty.
  - cbn [beforeFirst]. destruct (String.prefix sep (String c r)) eqn:E.
    + cbn [afterFirst]. now rewrite prefix_sep_empty.
    + cbn [afterFirst]. rewrite (beforeFirst_no_prefix c r E). exact IH.
Qed.

End SplitFacts.

Lemma substring_all (s : string) (n : nat) :
  (String.length s <= n)%nat -> String.substring 0 n s = s.
Proof.
  revert n. induction s as [|c s IH]; intros n Hn.
  - destruct n; reflexivity.
  - destruct n as [|n]; [simpl in Hn; lia|]. simpl. rewrite IH; [reflexivity|simpl in Hn; lia].
Qed.

Lemma substring_skip (a b : string) (m : nat) :
  (String.length b <= m)%nat -> String.substring (String.length a) m (a ++ b) = b.
Proof.
  intros Hm. induction a as [|c a IH]; [now apply substring_all|].
  change (String.substring (S (String.length a)) m (String c (a ++ b)) = b).
  destruct m; exact IH.
Qed.

Lemma prefix_app (a b : string) : String.prefix a (a ++ b) = true.
Proof.
  induction a as [|c a IH]; [destruct b; reflexivity|].
  change (String.prefix (String c a) (String c (a ++ b)) = true).
  cbn [String.prefix]. destruct (ascii_dec c c); [exact IH|congruence].
Qed.

Lemma length_app_le (a b : string) : (String.length b <= String.length (a ++ b))%nat.
Proof.
  induction a as [|c a IH]; [reflexivity|].
  change (String.length b <= S (String.length (a ++ b)))%nat. lia.
Qed.

Lemma afterFirst_skip (sep : string) (c : ascii) (r : string) :
  String.prefix sep (String c r) = false ->
  afterFirst sep (String c r) = afterFirst sep r.
Proof. intros E. cbn [afterFirst]. now rewrite E. Qed.

Lemma afterFirst_hit (sep rest : string) :
  afterFirst sep (sep ++ rest) = Some rest.
Proof.
  assert (H : String.prefix sep (sep ++ rest) = true) by apply prefix_app.
  destruct (sep ++ rest) as [|c r] eqn:E; cbn [afterFirst]; rewrite H; rewrite <- E;
    now rewrite (substring_skip sep rest _ (length_app_le sep rest)).
Qed.

Lemma afterFirst_link (id : string) :
  afterFirst "/portfolio/" ("http://neo.bullx.io/portfolio/" ++ id) = Some id.
Proof.
  change ("http://neo.bullx.io/portfolio/" ++ id)
    with ("http://neo.bullx.io" ++ ("/portfolio/" ++ id)).
  cbn [String.append].
  repeat (rewrite afterFirst_skip by reflexivity).
  apply (afterFirst_hit "/portfolio/" id).
Qed.

(** X11.  The id under which a record is stored never contains
    "/portfolio/", and the link stored in the record leads back to it:
    splitting the link as the script splits the href of the page gives
    the same id again (the id being "undefined" when the href is null or
    has no "/portfolio/" in it). *)
Theorem X11_link_round_trip (script : Script) (page : Page)
    (revenue pnl spent : Js.number) (href : option string) :
  let id := keyOf (portfolioIdOf href) in
  afterFirst "/portfolio/" id = None
  /\ portfolioIdOf (Some (Store.link (portfolioData script page revenue pnl spent
                                                    (portfolioIdOf href))))
     = Some id.
Proof.
  cbv zeta. cbn [Store.link portfolioData].
  assert (Hsep : "/portfolio/" <> "") by discriminate.
  assert (Hkey : afterFirst "/portfolio/" (keyOf (portfolioIdOf href)) = None
                 /\ beforeFirst "/portfolio/" (keyOf (portfolioIdOf href))
                    = keyOf (portfolioIdOf href)).
  { destruct href as [h|]; [|split; reflexivity]. unfold portfolioIdOf, splitSecond.
    destruct (afterFirst "/portfolio/" h) as [r|]; [|split; reflexivity]. cbn [keyOf].
    split; [apply afterFirst_beforeFirst, Hsep|apply beforeFirst_idempotent]. }
  destruct Hkey as [Hnone Hsame]. split; [exact Hnone|].
  unfold portfolioIdOf at 1. unfold splitSecond. rewrite afterFirst_link, Hsame. reflexivity.
Qed.

Example portfolio_id_examples :
  portfolioIdOf (Some "/portfolio/9xQeWvG8") = Some "9xQeWvG8"
  /\ portfolioIdOf (Some "https://neo.bullx.io/portfolio/9xQeWvG8/portfolio/x") = Some "9xQeWvG8"
  /\ portfolioIdOf (Some "https://neo.bullx.io/wallet/9xQeWvG8") = None
  /\ portfolioIdOf (Some "https://neo.bullx.io/portfolio/") = Some ""
  /\ keyOf (portfolioIdOf None) = "undefined".
Proof. vm_compute. repeat split. Qed.

(** ** The row loop *)

Section RowLoopFacts.

Variable script : Script.
Variable config : Config.
Variable pages : Z -> Page.

Lemma rowLoop_log (remaining : nat) (rowNumber : Z) (st : State) :
  let log := snd (rowLoop script config pages remaining rowNumber st) in
  (length log <= remaining)%nat
  /\ map fst log = map (fun i => rowNumber + Z.of_nat i) (seq 0 (length log))
  /\ (forall i entry, nth_error log i = Some entry ->
        snd entry = Skipped RowNotFound -> S i = length log)
  /\ ((length log < remaining)%nat ->
      nth_error log (length log - 1) = Some (rowNumber + Z.of_nat (length log - 1),
                                              Skipped RowNotFound)).
Proof.
  revert rowNumber st. induction remaining as [|remaining IH]; intros rowNumber st; cbv zeta;
    simpl.
  - repeat split; try lia. intros [|i] entry; discriminate.
  - destruct (evalRow script config (pages rowNumber) st) as [st1 outcome].
    specialize (IH (rowNumber + 1) st1). cbv zeta in IH.
    assert (Hbreak : outcome = Skipped RowNotFound ->
              let log := [(rowNumber, outcome)] in
              (length log <= S remaining)%nat
              /\ map fst log = map (fun i => rowNumber + Z.of_nat i) (seq 0 (length log))
              /\ (forall i entry, nth_error log i = Some entry ->
                    snd entry = Skipped RowNotFound -> S i = length log)
              /\ ((length log < S remaining)%nat ->
                  nth_error log (length log - 1)
                  = Some (rowNumber + Z.of_nat (length log - 1), Skipped RowNotFound))).
    { intros ->. simpl. repeat split; try lia.
      - f_equal. lia.
      - intros [|[|i]] entry; simpl; intros; congruence.
      - intros _. f_equal. f_equal. lia. }
    assert (Hnext : outcome <> Skipped RowNotFound ->
              let log := (rowNumber, outcome)
                         :: snd (rowLoop script config pages remaining (rowNumber + 1) st1) in
              (length log <= S remaining)%nat
              /\ map fst log = map (fun i => rowNumber + Z.of_nat i) (seq 0 (length log))
              /\ (forall i entry, nth_error log i = Some entry ->
                    snd entry = Skipped RowNotFound -> S i = length log)
              /\ ((length log < S remaining)%nat ->
                  nth_error log (length log - 1)
                  = Some (rowNumber + Z.of_nat (length log - 1), Skipped RowNotFound))).
    { intros Hne. destruct IH as (H1 & H2 & H3 & H4). cbv zeta.
      set (rest := snd (rowLoop script config pages remaining (rowNumber + 1) st1)) in *.
      cbn [length map fst seq]. repeat split.
      - lia.
      - f_equal; [lia|]. rewrite H2, <- seq_shift, map_map. apply map_ext. intros i. lia.
      - intros [|i] entry; cbn [nth_error].
        + intros [= <-]. simpl. congruence.
        + intros He Hs. f_equal. exact (H3 i entry He Hs).
      - intros Hlt. assert (Hrest : (length rest < remaining)%nat) by lia.
        specialize (H4 Hrest). destruct (length rest) as [|n] eqn:En.
        + destruct rest; [discriminate H4|discriminate En].
        + cbn [Nat.sub]. rewrite ?Nat.sub_0_r. cbn [nth_error].
          replace (S n - 1)%nat with n in H4 by lia. rewrite H4. f_equal. f_equal. lia. }
    destruct outcome as [|[]|s];
      try (destruct (rowLoop script config pages remaining (rowNumber + 1) st1) as [st2 log];
           apply Hnext; discriminate).
    apply Hbreak. reflexivity.
Qed.

End RowLoopFacts.

(** X12.  The row loop visits the row numbers START_FROM_ROW,
    START_FROM_ROW + 1, ... in order, at most
    MAX_TRADERS_PER_TOKEN - START_FROM_ROW + 1 of them; "row not found"
    can only be the outcome of the last row visited, and the loop stops
    before its bound only on it; when MAX_TRADERS_PER_TOKEN is below
    START_FROM_ROW no row is visited and the state is unchanged. *)
Theorem X12_row_loop_order (script : Script) (config : Config) (pages : Z -> Page)
    (st : State) :
  let log := snd (processRows script config pages st) in
  let bound := Z.to_nat (MAX_TRADERS_PER_TOKEN config - START_FROM_ROW config + 1) in
  (length log <= bound)%nat
  /\ map fst log = map (fun i => START_FROM_ROW config + Z.of_nat i) (seq 0 (length log))
  /\ (forall i entry, nth_error log i = Some entry ->
        snd entry = Skipped RowNotFound -> S i = length log)
  /\ ((length log < bound)%nat ->
      nth_error log (length log - 1)
      = Some (START_FROM_ROW config + Z.of_nat (length log - 1), Skipped RowNotFound))
  /\ (MAX_TRADERS_PER_TOKEN config < START_FROM_ROW config ->
      processRows script config pages st = (st, [])).
Proof.
  cbv zeta. unfold processRows.
  destruct (rowLoop_log script config pages
              (Z.to_nat (MAX_TRADERS_PER_TOKEN config - START_FROM_ROW config + 1))
              (START_FROM_ROW config) st) as (H1 & H2 & H3 & H4).
  repeat split; try assumption.
  intros Hlt. replace (Z.to_nat _) with 0%nat by lia. reflexivity.
Qed.

Lemma X12_row_loop_order_witness :
  MAX_TRADERS_PER_TOKEN emptyRangeConfig < START_FROM_ROW emptyRangeConfig
  /\ processRows Production emptyRangeConfig (fun _ => examplePage) closedState
     = (closedState, []).
Proof.
  split; [reflexivity|].
  apply (X12_row_loop_order Production emptyRangeConfig (fun _ => examplePage) closedState).
  reflexivity.
Defined.

(** ** The counter over the row loop *)

Section CounterFacts.

Lemma checked_countRow (page : Page) (st : State) :
  checked (countRow Production page st)
  = if statsWriteFails page then checked st else checked st + 1.
Proof.
  unfold checked, countRow. cbn [isProduction statsFile].
  unfold Store.incrementPortfoliosChecked, Store.saveStats.
  destruct (statsWriteFails page); reflexivity.
Qed.

Lemma checked_setModal (b : bool) (st : State) :
  checked (setModal b st) = checked st.
Proof. reflexivity. Qed.

Lemma checked_storePortfolio (page : Page) (key : string) (data : Store.Portfolio)
    (st : State) :
  checked (storePortfolio page key data st) = checked st.
Proof. reflexivity. Qed.

(** One row moves the count by 0 or 1. *)
Lemma evalRow_checked (config : Config) (page : Page) (st : State) :
  let '(st', outcome) := evalRow Production config page st in
  checked st <= checked st' <= checked st + 1
  /\ (statsWriteFails page = false ->
      (countedOutcome outcome = true -> checked st' = checked st + 1)
      /\ (countedOutcome outcome = false -> failedOutcome outcome = false ->
          checked st' = checked st)).
Proof.
  pose proof (evalRow_cases Production config page st) as H. cbv zeta in H.
  destruct (evalRow Production config page st) as [st' [|[]|s]];
    [destruct H as [-> _]..|destruct H as (_ & [-> | [-> | [-> | ->]]])];
    repeat (rewrite ?checked_countRow, ?checked_setModal, ?checked_storePortfolio);
    destruct (statsWriteFails page); cbn [countedOutcome failedOutcome];
    (split; [lia|intros; split; intros; first [lia|discriminate]]).
Qed.

End CounterFacts.

(** X13.  Over a run of the row loop of the production script the
    evaluation counter never decreases and grows by at most one per row
    visited; when every write of the statistics document goes through,
    it grows by exactly the number of rows that were accepted or skipped
    on a counted path, plus at most one for each row that ended in the
    handler. *)
Theorem X13_counter_over_rows (config : Config) (pages : Z -> Page) (remaining : nat)
    (rowNumber : Z) (st : State) :
  let '(st', log) := rowLoop Production config pages remaining rowNumber st in
  let counted := Z.of_nat (length (List.filter (fun e => countedOutcome (snd e)) log)) in
  let failed := Z.of_nat (length (List.filter (fun e => failedOutcome (snd e)) log)) in
  checked st <= checked st' <= checked st + Z.of_nat (length log)
  /\ ((forall n, statsWriteFails (pages n) = false) ->
      checked st + counted <= checked st' <= checked st + counted + failed).
Proof.
  revert rowNumber st. induction remaining as [|remaining IH]; intros rowNumber st; simpl.
  - split; [lia|intros _; lia].
  - pose proof (evalRow_checked config (pages rowNumber) st) as Hrow.
    destruct (evalRow Production config (pages rowNumber) st) as [st1 outcome].
    destruct Hrow as [Hstep Hexact].
    specialize (IH (rowNumber + 1) st1).
    assert (Hone : forall (P : bool), (if P then 1 else 0) >= 0) by (intros []; lia).
    destruct outcome as [|[]|s];
      try (destruct (rowLoop Production config pages remaining (rowNumber + 1) st1)
             as [st2 log];
           cbv zeta in *; destruct IH as [IH1 IH2];
           cbn [List.filter snd countedOutcome failedOutcome length];
           split; [lia|];
           intros Hw; specialize (IH2 Hw); destruct (Hexact (Hw rowNumber)) as [Hc Hn];
           cbn [countedOutcome failedOutcome] in Hc, Hn;
           first [specialize (Hc eq_refl); lia
                 |specialize (Hn eq_refl eq_refl); lia
                 |lia]).
Qed.

Lemma X13_counter_over_rows_witness :
  (forall n, statsWriteFails ((fun _ : Z => examplePage) n) = false)
  /\ checked (fst (rowLoop Production defaultConfig (fun _ => examplePage) 3 3 closedState))
     = 3.
Proof.
  split; [reflexivity|].
  pose proof (X13_counter_over_rows defaultConfig (fun _ => examplePage) 3 3 closedState) as H.
  destruct (rowLoop Production defaultConfig (fun _ => examplePage) 3 3 closedState)
    as [st' log] eqn:E.
  vm_compute in E. injection E as <- <-. reflexivity.
Defined.

(** ** The token loop *)

Section TokenLoopFacts.

Variable script : Script.
Variable config : Config.
Variable listings : nat -> Listing.

(** The snapshots a stretch of the token loop hands to
    [saveProcessedTokens] when it starts from [tokens] and adds [added]. *)
Lemma snapshots_cons (tokens : list string) (tokenName : string) (added : list string) :
  map (fun i => (tokens ++ firstn (S i) (tokenName :: added))%list)
      (seq 0 (length (tokenName :: added)))
  = ((tokens ++ [tokenName])
     :: map (fun i => ((tokens ++ [tokenName]) ++ firstn (S i) added)%list)
          (seq 0 (length added)))%list.
Proof.
  cbn [length seq map firstn]. f_equal.
  rewrite <- seq_shift, map_map. apply map_ext. intros i.
  cbn [firstn]. now rewrite <- app_assoc.
Qed.

Lemma tokenLoop_growth (remaining tokenIndex : nat) (r : Run) :
  let r' := tokenLoop script config listings remaining tokenIndex r in
  exists added,
    processedTokenNames r' = (processedTokenNames r ++ added)%list
    /\ (length added <= remaining)%nat
    /\ saved r'
       = (saved r
          ++ if isProduction script
             then map (fun i => (processedTokenNames r ++ firstn (S i) added)%list)
                    (seq 0 (length added))
             else [])%list
    /\ (aborted r = true -> aborted r' = true).
Proof.
  revert tokenIndex r. induction remaining as [|remaining IH]; intros tokenIndex r; cbv zeta.
  - exists []. destruct (isProduction script); simpl; rewrite ?app_nil_r; repeat split; auto with arith.
  - assert (Hstay : exists added,
              processedTokenNames r = (processedTokenNames r ++ added)%list
              /\ (length added <= S remaining)%nat
              /\ saved r
                 = (saved r
                    ++ if isProduction script
                       then map (fun i => (processedTokenNames r ++ firstn (S i) added)%list)
                              (seq 0 (length added))
                       else [])%list).
    { exists []. destruct (isProduction script); simpl; rewrite ?app_nil_r; repeat split; auto with arith. }
    simpl. destruct (listingThrows (listings tokenIndex)).
    { destruct Hstay as (added & H1 & H2 & H3). exists added. simpl. auto. }
    destruct (selectToken _ _) as [tokenName|] eqn:Hsel.
    2:{ destruct Hstay as (added & H1 & H2 & H3). exists added. auto. }
    apply selectToken_fresh in Hsel. destruct Hsel as (_ & _ & Hfresh).
    destruct (add_cases (processedTokenNames r) tokenName) as [[Hin _]|[_ Hadd]];
      [contradiction|].
    set (r0 := {| rows := rows r; processedFile := processedFile r;
                  processedTokenNames := Store.add (processedTokenNames r) tokenName;
                  saved := saved r; aborted := aborted r |}).
    set (r1 := saveTokens script (saveFails (listings tokenIndex)) r0).
    assert (Hnames : processedTokenNames r1 = (processedTokenNames r ++ [tokenName])%list).
    { unfold r1, saveTokens. destruct (isProduction script); simpl; exact Hadd. }
    assert (Hsaved : saved r1
                     = (saved r ++ if isProduction script
                                   then [(processedTokenNames r ++ [tokenName])%list]
                                   else [])%list).
    { unfold r1, saveTokens. destruct (isProduction script); simpl.
      - now rewrite Hadd.
      - now rewrite app_nil_r. }
    assert (Haborted : aborted r1 = aborted r).
    { unfold r1, saveTokens. destruct (isProduction script); reflexivity. }
    assert (Hone : exists added,
              processedTokenNames r1 = (processedTokenNames r ++ added)%list
              /\ (length added <= S remaining)%nat
              /\ saved r1
                 = (saved r
                    ++ if isProduction script
                       then map (fun i => (processedTokenNames r ++ firstn (S i) added)%list)
                              (seq 0 (length added))
                       else [])%list).
    { exists [tokenName]. rewrite Hnames, Hsaved. simpl. repeat split; auto with arith. }
    assert (Hloop : forall r2,
              processedTokenNames r2 = processedTokenNames r1 ->
              saved r2 = saved r1 -> aborted r2 = aborted r1 ->
              exists added,
                processedTokenNames (tokenLoop script config listings remaining
                                       (S tokenIndex) r2)
                = (processedTokenNames r ++ added)%list
                /\ (length added <= S remaining)%nat
                /\ saved (tokenLoop script config listings remaining (S tokenIndex) r2)
                   = (saved r
                      ++ if isProduction script
                         then map (fun i => (processedTokenNames r ++ firstn (S i) added)%list)
                                (seq 0 (length added))
                         else [])%list
                /\ (aborted r = true ->
                    aborted (tokenLoop script config listings remaining (S tokenIndex) r2)
                    = true)).
    { intros r2 E1 E2 E3. destruct (IH (S tokenIndex) r2) as (added & H1 & H2 & H3 & H4).
      exists (tokenName :: added). rewrite H1, H3, E1, E2, Hnames, Hsaved.
      repeat split.
      - now rewrite <- app_assoc.
      - simpl. auto with arith.
      - rewrite <- app_assoc. f_equal. destruct (isProduction script); [|reflexivity].
        rewrite snapshots_cons. reflexivity.
      - intros Ha. apply H4. now rewrite E3, Haborted. }
    destruct (openThrows (listings tokenIndex)).
    { destruct Hone as (added & H1 & H2 & H3). exists added. simpl. auto. }
    destruct (solscanAppears (listings tokenIndex)).
    { destruct (processRows script config (rowPages (listings tokenIndex)) (rows r1))
        as [st' log].
      apply Hloop; reflexivity. }
    destruct (goBackThrows (listings tokenIndex)).
    { destruct Hone as (added & H1 & H2 & H3). exists added. simpl. auto. }
    apply Hloop; reflexivity.
Qed.

End TokenLoopFacts.

(** X14.  A run of [main] appends to the set it starts from at most
    min(rows on the listing, MAX_TOKENS_TO_PROCESS) names, one per
    iteration of the token loop; the production script calls
    [saveProcessedTokens] once right after each addition, with the set as
    it then is, and once more at the end unless the run was aborted. *)
Theorem X14_tokens_per_run (script : Script) (config : Config) (tokenRows : nat)
    (listings : nat -> Listing) (finalSaveFails : bool) (st : State)
    (file : option (list string)) :
  let run := main script config tokenRows listings finalSaveFails st file in
  let loaded := if isProduction script then Store.loadProcessedTokens file else [] in
  exists added,
    processedTokenNames run = (loaded ++ added)%list
    /\ (length added <= Nat.min tokenRows (MAX_TOKENS_TO_PROCESS config))%nat
    /\ saved run
       = if isProduction script
         then (map (fun i => (loaded ++ firstn (S i) added)%list) (seq 0 (length added))
               ++ if aborted run then [] else [(loaded ++ added)%list])%list
         else [].
Proof.
  cbv zeta. unfold main.
  set (r0 := {| rows := st; processedFile := file;
                processedTokenNames :=
                  if isProduction script then Store.loadProcessedTokens file else [];
                saved := []; aborted := false |}).
  destruct (tokenLoop_growth script config listings
              (Nat.min tokenRows (MAX_TOKENS_TO_PROCESS config)) 0 r0)
    as (added & H1 & H2 & H3 & _).
  cbn [r0 processedTokenNames saved app] in H1, H3.
  set (r := tokenLoop script config listings _ 0 r0) in *.
  exists added. destruct (aborted r) eqn:Ha.
  - rewrite Ha, H1, H3. repeat split; [assumption|].
    destruct (isProduction script); [now rewrite app_nil_r|reflexivity].
  - unfold saveTokens. destruct (isProduction script); cbn [processedTokenNames saved aborted].
    + rewrite Ha, H1, H3. auto.
    + rewrite H1, H3. auto.
Qed.

(** X15.  The search for a new token returns the first name of the
    listing that is neither missing, empty nor already in the set,
    whatever follows it; it returns nothing exactly when every name of the
    listing is missing, empty or in the set. *)
Theorem X15_first_new_token (names : list (option string)) (tokens : list string) :
  match selectToken names tokens with
  | Some tokenName =>
      exists before after,
        names = (before ++ Some tokenName :: after)%list
        /\ Forall (passedOver tokens) before
        /\ tokenName <> "" /\ ~ In tokenName tokens
  | None => Forall (passedOver tokens) names
  end.
Proof.
  induction names as [|[name|] rest IH]; cbn [selectToken].
  - constructor.
  - destruct (String.eqb name "") eqn:Hempty; cbn [negb andb].
    + apply String.eqb_eq in Hempty.
      destruct (selectToken rest tokens) as [tokenName|].
      * destruct IH as (before & after & -> & Hb & Hne & Hnin).
        exists (Some name :: before), after. repeat split; auto.
        constructor; [left; assumption|assumption].
      * constructor; [left; assumption|assumption].
    + destruct (Store.has tokens name) eqn:Hhas; cbn [negb].
      * apply has_In in Hhas.
        destruct (selectToken rest tokens) as [tokenName|].
        -- destruct IH as (before & after & -> & Hb & Hne & Hnin).
           exists (Some name :: before), after. repeat split; auto.
           constructor; [right; assumption|assumption].
        -- constructor; [right; assumption|assumption].
      * exists [], rest. repeat split.
        -- constructor.
        -- now apply String.eqb_neq.
        -- intros Hin. apply has_In in Hin. congruence.
  - destruct (selectToken rest tokens) as [tokenName|].
    + destruct IH as (before & after & -> & Hb & Hne & Hnin).
      exists (None :: before), after. repeat split; auto.
      constructor; [exact I|assumption].
    + constructor; [exact I|assumption].
Qed.

Lemma newSet_NoDup (acc array : list string) :
  List.NoDup (acc ++ array) -> fold_left Store.add array acc = (acc ++ array)%list.
Proof.
  revert acc. induction array as [|a rest IH]; intros acc Hnd; simpl.
  - now rewrite app_nil_r.
  - destruct (add_cases acc a) as [[Hin _]|[_ ->]].
    + exfalso. apply List.NoDup_remove_2 in Hnd. apply Hnd, in_app_iff. left. assumption.
    + rewrite IH; rewrite <- app_assoc; [reflexivity|assumption].
Qed.

(** X16.  A production run that is not aborted and whose last write
    goes through leaves a document that is exactly the set it ended with,
    and [loadProcessedTokens] of that document gives back that set, in the
    same order: the next run resumes where this one stopped. *)
Theorem X16_next_run_resumes (config : Config) (tokenRows : nat) (listings : nat -> Listing)
    (st : State) (file : option (list string)) :
  let run := main Production config tokenRows listings false st file in
  aborted run = false ->
  processedFile run = Some (processedTokenNames run)
  /\ Store.loadProcessedTokens (processedFile run) = processedTokenNames run.
Proof.
  cbv zeta. unfold main. cbn [isProduction].
  set (r0 := {| rows := st; processedFile := file;
                processedTokenNames := Store.loadProcessedTokens file;
                saved := []; aborted := false |}).
  assert (Hinv : runInvariant (Store.loadProcessedTokens file) file
                   (tokenLoop Production config listings
                      (Nat.min tokenRows (MAX_TOKENS_TO_PROCESS config)) 0 r0)).
  { apply tokenLoop_invariant. repeat split.
    - apply loadProcessedTokens_spec.
    - exists []. now rewrite app_nil_r.
    - constructor.
    - left. reflexivity. }
  set (r := tokenLoop Production config listings _ 0 r0) in *.
  destruct (aborted r) eqn:Ha.
  - rewrite Ha. discriminate.
  - intros _. cbn [saveTokens isProduction processedFile processedTokenNames
                   Store.saveProcessedTokens].
    split; [reflexivity|].
    cbn [Store.loadProcessedTokens]. unfold Store.newSet.
    rewrite newSet_NoDup; [reflexivity|]. apply Hinv.
Qed.

Lemma X16_next_run_resumes_witness :
  aborted (main Production defaultConfig 4 exampleListing false closedState (Some ["SOL"]))
  = false
  /\ Store.loadProcessedTokens
       (processedFile
          (main Production defaultConfig 4 exampleListing false closedState (Some ["SOL"])))
     = ["SOL"; "WIF"; "BONK"; "JUP"].
Proof.
  split; [reflexivity|].
  destruct (X16_next_run_resumes defaultConfig 4 exampleListing closedState (Some ["SOL"])
              eq_refl) as [_ ->].
  reflexivity.
Defined.

(** ** The [.env] document of the server *)

Section EnvFacts.

Import Server.

Lemma append_assoc (a b c : string) : ((a ++ b) ++ c = a ++ (b ++ c))%string.
Proof.
  induction a as [|x a IH]; [reflexivity|].
  change (String x ((a ++ b) ++ c) = String x (a ++ (b ++ c)))%string. now rewrite IH.
Qed.

Lemma append_cons (x : ascii) (a b : string) : (String x a ++ b = String x (a ++ b))%string.
Proof. reflexivity. Qed.

Lemma append_nil (b : string) : ("" ++ b = b)%string.
Proof. reflexivity. Qed.

Lemma split_cons (sep c : ascii) (r : string) :
  split sep (String c r)
  = if Ascii.eqb c sep then EmptyString :: split sep r
    else match split sep r with
         | part :: parts => String c part :: parts
         | [] => [String c EmptyString]
         end.
Proof. reflexivity. Qed.

Lemma everyChar_cons (P : ascii -> bool) (c : ascii) (r : string) :
  everyChar P (String c r) = P c && everyChar P r.
Proof. reflexivity. Qed.

Lemma split_nonempty (sep : ascii) (s : string) : split sep s <> [].
Proof.
  induction s as [|c r IH]; [discriminate|]. rewrite split_cons.
  destruct (Ascii.eqb c sep); [discriminate|]. destruct (split sep r); [contradiction|discriminate].
Qed.

Lemma split_sep (sep : ascii) (a b : string) :
  everyChar (fun c => negb (Ascii.eqb c sep)) a = true ->
  split sep (a ++ String sep b) = a :: split sep b.
Proof.
  induction a as [|c a IH]; intros H.
  - rewrite append_nil, split_cons. now rewrite Ascii.eqb_refl.
  - rewrite everyChar_cons in H. apply andb_true_iff in H. destruct H as [Hc Ha].
    apply negb_true_iff in Hc. rewrite append_cons, split_cons, Hc, (IH Ha). reflexivity.
Qed.

Lemma split_none (sep : ascii) (a : string) :
  everyChar (fun c => negb (Ascii.eqb c sep)) a = true -> split sep a = [a].
Proof.
  induction a as [|c a IH]; intros H; [reflexivity|].
  rewrite everyChar_cons in H. apply andb_true_iff in H. destruct H as [Hc Ha].
  apply negb_true_iff in Hc. rewrite split_cons, Hc, (IH Ha). reflexivity.
Qed.

Lemma everyChar_app (P : ascii -> bool) (a b : string) :
  everyChar P (a ++ b) = everyChar P a && everyChar P b.
Proof.
  induction a as [|c a IH]; [reflexivity|].
  now rewrite append_cons, !everyChar_cons, IH, andb_assoc.
Qed.

Lemma everyChar_weaken (P Q : ascii -> bool) (s : string) :
  (forall c, P c = true -> Q c = true) -> everyChar P s = true -> everyChar Q s = true.
Proof.
  intros HPQ. induction s as [|c r IH]; [reflexivity|]. rewrite !everyChar_cons.
  intros H. apply andb_true_iff in H. destruct H as [Hc Hr].
  now rewrite (HPQ c Hc), (IH Hr).
Qed.

Lemma plain_spec (s : string) :
  plain s = true ->
  everyChar (fun c => negb (Ascii.eqb c "=")) s = true
  /\ everyChar (fun c => negb (Ascii.eqb c newline)) s = true
  /\ Js.trim s = s /\ s <> "".
Proof.
  unfold plain. intros H.
  apply andb_true_iff in H. destruct H as [H Hne].
  apply andb_true_iff in H. destruct H as [Hchars Htrim].
  repeat split.
  - revert Hchars. apply everyChar_weaken. intros c Hc.
    apply andb_true_iff in Hc. tauto.
  - revert Hchars. apply everyChar_weaken. intros c Hc.
    apply andb_true_iff in Hc. tauto.
  - now apply String.eqb_eq.
  - apply negb_true_iff in Hne. now apply String.eqb_neq.
Qed.

Lemma plainKey_spec (key : string) :
  plainKey key = true ->
  plain key = true /\ startsWith "#" key = false /\ key <> "__proto__".
Proof.
  unfold plainKey. intros H.
  apply andb_true_iff in H. destruct H as [H Hproto].
  apply andb_true_iff in H. destruct H as [Hplain Hhash].
  repeat split; [assumption|now apply negb_true_iff|].
  apply negb_true_iff in Hproto. now apply String.eqb_neq.
Qed.

Lemma startsWith_app (c : ascii) (a b : string) :
  a <> "" -> startsWith c (a ++ b) = startsWith c a.
Proof. destruct a; [contradiction|reflexivity]. Qed.

Lemma append_nonempty_l (a b : string) : a <> "" -> (a ++ b)%string <> "".
Proof. destruct a; [contradiction|discriminate]. Qed.

(** A line [key=value] followed by anything after a further '='. *)
Lemma parseLine_entry (config : gmap string string) (key value : string) (tail : list string)
    (line : string) :
  plainKey key = true -> plain value = true ->
  line <> "" -> startsWith "#" line = startsWith "#" key ->
  split "=" line = key :: value :: tail ->
  parseLine config line = <[key := value]> config.
Proof.
  intros Hkey Hvalue Hline Hhash Hsplit.
  destruct (plainKey_spec key Hkey) as (Hk & Hh & Hproto).
  destruct (plain_spec key Hk) as (_ & _ & Htk & Hnk).
  destruct (plain_spec value Hvalue) as (_ & _ & Htv & Hnv).
  unfold parseLine. rewrite Hsplit, Hhash, Hh. cbn [map].
  rewrite Htk, Htv.
  apply String.eqb_neq in Hline, Hnk, Hnv, Hproto.
  rewrite Hline, Hnk, Hnv. cbn [negb andb]. unfold assign. now rewrite Hproto.
Qed.

Lemma parse_line_first (config : gmap string string) (line rest : string) :
  everyChar (fun c => negb (Ascii.eqb c newline)) line = true ->
  fold_left parseLine (split newline (line ++ String newline rest)) config
  = fold_left parseLine (split newline rest) (parseLine config line).
Proof. intros H. rewrite (split_sep newline line rest H). reflexivity. Qed.

Lemma convert_from (entries : list (string * string)) (acc : string) :
  fold_left
    (fun envContent entry =>
       envContent ++ (fst entry ++ "=" ++ snd entry ++ String newline ""))
    entries acc
  = (acc ++ convertToEnvFormat entries)%string.
Proof.
  unfold convertToEnvFormat. revert acc.
  induction entries as [|e rest IH]; intros acc; cbn [fold_left].
  - now rewrite append_empty_r.
  - rewrite (IH (acc ++ _)%string), (IH ("" ++ _)%string).
    rewrite append_nil. now rewrite append_assoc.
Qed.

Lemma convert_cons (key value : string) (rest : list (string * string)) :
  convertToEnvFormat ((key, value) :: rest)
  = ((key ++ "=" ++ value) ++ String newline (convertToEnvFormat rest))%string.
Proof.
  unfold convertToEnvFormat at 1. cbn [fold_left fst snd]. rewrite convert_from.
  rewrite append_nil, !append_assoc. reflexivity.
Qed.

Lemma parse_entries (entries : list (string * string)) (config : gmap string string) :
  Forall (fun entry => plainKey (fst entry) = true /\ plain (snd entry) = true) entries ->
  fold_left parseLine (split newline (convertToEnvFormat entries)) config
  = fold_left (fun m entry => <[fst entry := snd entry]> m) entries config.
Proof.
  intros Hall. revert config.
  induction Hall as [|[key value] rest [Hkey Hvalue] Hrest IH]; intros config.
  - reflexivity.
  - cbn [fst snd] in Hkey, Hvalue.
    destruct (plainKey_spec key Hkey) as (Hk & Hh & Hproto).
    destruct (plain_spec key Hk) as (Hek & Hnk & _ & Hne).
    destruct (plain_spec value Hvalue) as (Hev & Hnv & _ & _).
    rewrite convert_cons, parse_line_first.
    2:{ repeat (rewrite ?everyChar_app, ?append_cons, ?append_nil, ?everyChar_cons).
        rewrite Hnk, Hnv. reflexivity. }
    cbn [fold_left fst snd]. rewrite <- IH. f_equal.
    apply (parseLine_entry config key value []); auto.
    + now apply append_nonempty_l.
    + now apply startsWith_app.
    + change (key ++ "=" ++ value)%string with (key ++ String "=" value)%string.
      rewrite (split_sep "=" key value Hek), (split_none "=" value Hev). reflexivity.
Qed.

Lemma fold_insert_lookup (entries : list (string * string)) (config : gmap string string)
    (key : string) :
  List.NoDup (map fst entries) ->
  fold_left (fun m entry => <[fst entry := snd entry]> m) entries config !! key
  = match (list_to_map entries : gmap string string) !! key with
    | Some value => Some value
    | None => config !! key
    end.
Proof.
  revert config. induction entries as [|[k v] rest IH]; intros config Hnd.
  - reflexivity.
  - inversion Hnd as [|? ? Hnotin Hnd']; subst. cbn [fold_left fst snd list_to_map foldr].
    rewrite (IH _ Hnd'). cbn [uncurry fst snd]. destruct (decide (k = key)) as [->|Hne].
    + rewrite !lookup_insert_eq.
      assert (Hnone : (list_to_map rest : gmap string string) !! key = None).
      { apply not_elem_of_list_to_map_1. rewrite list_elem_of_In. exact Hnotin. }
      now rewrite Hnone.
    + rewrite !lookup_insert_ne by assumption. reflexivity.
Qed.

End EnvFacts.

(** X17.  What [convertToEnvFormat] writes, [parseEnvFile] reads back:
    for an object whose keys are non-empty, trimmed, free of '=' and line
    breaks, do not start with '#' and are not [__proto__], and whose
    values are non-empty, trimmed and free of '=' and line breaks, the
    parsed document has exactly the entries of the object. *)
Theorem X17_env_round_trip (entries : list (string * string)) :
  Forall (fun entry => Server.plainKey (fst entry) = true /\ Server.plain (snd entry) = true)
    entries ->
  List.NoDup (map fst entries) ->
  Server.parseEnvFile (Server.convertToEnvFormat entries) = list_to_map entries.
Proof.
  intros Hall Hnd. unfold Server.parseEnvFile. rewrite (parse_entries entries ∅ Hall).
  apply map_eq. intros key. rewrite (fold_insert_lookup entries ∅ key Hnd).
  destruct (list_to_map entries !! key); [reflexivity|apply lookup_empty].
Qed.

Lemma X17_env_round_trip_witness :
  Server.parseEnvFile
    (Server.convertToEnvFormat
       [("MIN_PNL", "25000"); ("BASE_URL", "https://neo.bullx.io"); ("HOST_IP", "localhost")])
  = list_to_map
      [("MIN_PNL", "25000"); ("BASE_URL", "https://neo.bullx.io"); ("HOST_IP", "localhost")].
Proof.
  apply X17_env_round_trip.
  - repeat constructor.
  - repeat constructor; simpl; intuition discriminate.
Defined.

(** X18.  [parseEnvFile] keeps of a line only what lies between its
    first and its second '=': a value that holds an '=' is cut there, so
    it does not survive the way through the [.env] document. *)
Theorem X18_env_value_cut (key value rest : string) :
  Server.plainKey key = true ->
  Server.plain value = true ->
  everyChar (fun c => negb (Ascii.eqb c Server.newline)) rest = true ->
  Server.parseEnvFile (Server.convertToEnvFormat [(key, value ++ "=" ++ rest)])
  = {[ key := value ]}.
Proof.
  intros Hkey Hvalue Hrest.
  destruct (plainKey_spec key Hkey) as (Hk & Hh & Hproto).
  destruct (plain_spec key Hk) as (Hek & Hnk & _ & Hne).
  destruct (plain_spec value Hvalue) as (Hev & Hnv & _ & _).
  unfold Server.parseEnvFile. rewrite convert_cons, parse_line_first.
  2:{ repeat (rewrite ?everyChar_app, ?append_cons, ?append_nil, ?everyChar_cons).
      rewrite Hnk, Hnv, Hrest. reflexivity. }
  change (Server.convertToEnvFormat []) with "". cbn [Server.split fold_left].
  assert (Hempty : Server.parseLine (Server.parseLine ∅ (key ++ "=" ++ value ++ "=" ++ rest)) ""
                   = Server.parseLine ∅ (key ++ "=" ++ value ++ "=" ++ rest)) by reflexivity.
  rewrite Hempty.
  destruct (Server.split "=" rest) as [|r rs] eqn:Hsplit; [now apply split_nonempty in Hsplit|].
  rewrite (parseLine_entry ∅ key value (r :: rs)); auto.
  - now apply append_nonempty_l.
  - now apply startsWith_app.
  - change (key ++ "=" ++ value ++ "=" ++ rest)%string
      with (key ++ String "=" (value ++ String "=" rest))%string.
    rewrite (split_sep "=" key _ Hek), (split_sep "=" value rest Hev), Hsplit. reflexivity.
Qed.

Lemma X18_env_value_cut_witness :
  Server.parseEnvFile
    (Server.convertToEnvFormat [("BASE_URL", "https://neo.bullx.io/?ref" ++ "=" ++ "abc")])
  = {[ "BASE_URL" := "https://neo.bullx.io/?ref" ]}.
Proof.
  apply (X18_env_value_cut "BASE_URL" "https://neo.bullx.io/?ref" "abc"); reflexivity.
Defined.

(** ** The scraper endpoints of the server *)

Section ScraperEndpoints.

Import Server.

Lemma handle_no_process (s : ServerState) (request : Request) :
  scraperProcess s = None ->
  let '(s', response) := handle s request in
  scraperProcess s' = None
  /\ kills s' = kills s
  /\ launched s' = (launched s + if isStart request then 1 else 0)%nat
  /\ match request with
     | GetStatus => response = Answer stopped None
     | PostStart false => response = Answer running (Some 1)
     | PostStart true => response = ServerError stopped
     | PostStop _ => response = Answer stopped None
     end.
Proof.
  intros Hnone. destruct request as [|[]|k]; unfold handle, alive; rewrite Hnone;
    cbn [scraperProcess kills launched isStart option_map]; repeat split; auto; lia.
Qed.

Lemma serve_no_process (requests : list Request) (s : ServerState) :
  scraperProcess s = None ->
  let '(s', responses) := serve s requests in
  scraperProcess s' = None
  /\ kills s' = kills s
  /\ launched s' = (launched s + length (List.filter isStart requests))%nat
  /\ length responses = length requests
  /\ forall i request response,
       nth_error requests i = Some request -> nth_error responses i = Some response ->
       match request with
       | GetStatus => response = Answer stopped None
       | PostStart false => response = Answer running (Some 1)
       | PostStart true => response = ServerError stopped
       | PostStop _ => response = Answer stopped None
       end.
Proof.
  revert s. induction requests as [|request rest IH]; intros s Hnone; cbn [serve].
  - repeat split; auto. intros [|i] ? ?; discriminate.
  - pose proof (handle_no_process s request Hnone) as Hstep.
    destruct (handle s request) as [s1 response]. destruct Hstep as (H1 & H2 & H3 & H4).
    specialize (IH s1 H1). destruct (serve s1 rest) as [s2 responses].
    destruct IH as (I1 & I2 & I3 & I4 & I5).
    repeat split.
    + assumption.
    + congruence.
    + rewrite I3, H3. cbn [List.filter]. destruct (isStart request); cbn [length]; lia.
    + cbn [length]. congruence.
    + intros [|i] rq rs; cbn [nth_error].
      * intros [= <-] [= <-]. exact H4.
      * apply I5.
Qed.

End ScraperEndpoints.

(** X19.  The server never assigns the process it launches to
    [scraperProcess]: whatever requests it has served since its start,
    [scraperProcess] is null, /scraper/status answers 'stopped' with no
    pid (also right after a start that answered 'running'),
    /scraper/start launches the scraper anew on every call whose [exec]
    does not throw and answers 'running' with pid 1, and /scraper/stop
    answers 'stopped' without ending any process. *)
Theorem X19_scraper_never_tracked (requests : list Server.Request) :
  let '(s, responses) := Server.serve Server.initial requests in
  Server.scraperProcess s = None
  /\ Server.kills s = 0%nat
  /\ Server.launched s = length (List.filter Server.isStart requests)
  /\ length responses = length requests
  /\ forall i request response,
       nth_error requests i = Some request -> nth_error responses i = Some response ->
       match request with
       | Server.GetStatus => response = Server.Answer Server.stopped None
       | Server.PostStart false => response = Server.Answer Server.running (Some 1)
       | Server.PostStart true => response = Server.ServerError Server.stopped
       | Server.PostStop _ => response = Server.Answer Server.stopped None
       end.
Proof.
  pose proof (serve_no_process requests Server.initial eq_refl) as H.
  destruct (Server.serve Server.initial requests) as [s responses].
  exact H.
Qed.

Example start_twice_then_status :
  Server.serve Server.initial
    [Server.PostStart false; Server.PostStart false; Server.GetStatus; Server.PostStop false]
  = ({| Server.scraperProcess := None; Server.launched := 2; Server.kills := 0 |},
     [Server.Answer Server.running (Some 1); Server.Answer Server.running (Some 1);
      Server.Answer Server.stopped None; Server.Answer Server.stopped None]).
Proof. reflexivity. Qed.

(** ** The retry wrapper of the manual-login script *)

Section RetryFacts.

Import Login.

Lemma runWithRetry_spec (attempts : nat -> Attempt) (retries : Z) (calls : nat) :
  let '(ending, total) := runWithRetry attempts retries calls in
  (calls < total)%nat
  /\ (Z.of_nat (total - calls) <= Z.max 1 retries)
  /\ (forall i, (calls <= i)%nat -> (S i < total)%nat -> attempts i = Throws)
  /\ match ending with
     | Finished => attempts (total - 1)%nat = Returns
     | Exit code =>
         (code = 0 /\ attempts (total - 1)%nat = Quits)
         \/ (code = 1 /\ attempts (total - 1)%nat = Throws
             /\ Z.of_nat (total - calls) = Z.max 1 retries)
     end.
Proof.
  funelim (runWithRetry attempts retries calls).
  - replace (S calls - 1)%nat with calls by lia.
    repeat split; try lia; try assumption.
  - replace (S calls - 1)%nat with calls by lia.
    repeat split; try lia. left. split; [reflexivity|assumption].
  - destruct (runWithRetry attempts (retries - 1) (S calls)) as [ending total].
    destruct H as (H1 & H2 & H3 & H4). repeat split; try lia.
    + intros i Hi Hlt. destruct (Nat.eq_dec i calls) as [->|Hne]; [assumption|].
      apply H3; lia.
    + destruct ending as [|code]; [assumption|].
      destruct H4 as [H4|(Hc & Hm & Hn)]; [left; assumption|].
      right. repeat split; try assumption. lia.
  - replace (S calls - 1)%nat with calls by lia.
    repeat split; try lia. right. repeat split; try assumption; lia.
Qed.

End RetryFacts.

(** X20.  [runWithRetry] with its [retries] at a positive n calls
    [main] at most n times: every call before the last one rejected; the
    run ends with the first call that resolves or quits, or, when n calls
    in a row reject, with exit code 1 after the n-th.  The script starts
    with n = 3. *)
Theorem X20_retry_bound (attempts : nat -> Login.Attempt) (retries : Z) :
  0 < retries ->
  let '(ending, total) := Login.runWithRetry attempts retries 0 in
  (1 <= total)%nat /\ Z.of_nat total <= retries
  /\ (forall i, (S i < total)%nat -> attempts i = Login.Throws)
  /\ match ending with
     | Login.Finished => attempts (total - 1)%nat = Login.Returns
     | Login.Exit code =>
         (code = 0 /\ attempts (total - 1)%nat = Login.Quits)
         \/ (code = 1 /\ Z.of_nat total = retries
             /\ forall i, (i < total)%nat -> attempts i = Login.Throws)
     end.
Proof.
  intros Hpos. pose proof (runWithRetry_spec attempts retries 0) as H.
  destruct (Login.runWithRetry attempts retries 0) as [ending total].
  destruct H as (H1 & H2 & H3 & H4). rewrite Nat.sub_0_r in *.
  repeat split; try lia.
  - intros i Hi. apply H3; lia.
  - destruct ending as [|code]; [assumption|].
    destruct H4 as [H4|(Hc & Hm & Hn)]; [left; assumption|].
    right. repeat split; try assumption; try lia.
    intros i Hi. destruct (Nat.eq_dec (S i) total) as [<-|Hne].
    + now replace (S i - 1)%nat with i in Hm by lia.
    + apply H3; lia.
Qed.

Lemma X20_retry_bound_witness :
  0 < 3
  /\ Login.runWithRetry (fun _ => Login.Throws) 3 0 = (Login.Exit 1, 3%nat)
  /\ forall attempts, (fst (Login.runWithRetry attempts 3 0) = Login.Exit 1 ->
                   attempts 0%nat = Login.Throws /\ attempts 1%nat = Login.Throws
                   /\ attempts 2%nat = Login.Throws).
Proof.
  split; [lia|]. split; [reflexivity|].
  intros attempts. pose proof (X20_retry_bound attempts 3 ltac:(lia)) as H.
  destruct (Login.runWithRetry attempts 3 0) as [ending total].
  cbn [fst]. intros ->. destruct H as (H1 & H2 & _ & [[Hc _]|(_ & Hn & Hall)]).
  - discriminate.
  - repeat split; apply Hall; lia.
Defined.
